(* ===================================================================== *)
(*  MetadataRemover (met.py): a shallow embedding of the metadata        *)
(*  inspector, the redactor, the capability probe and the watchdog event *)
(*  handlers, with the properties of the design document checked on it.  *)
(*                                                                       *)
(*  Python objects are modelled as follows.                              *)
(*   - str: [string] (a byte string).  Only ASCII case folding is        *)
(*     modelled by [lower]; every allow-list of the program is ASCII.    *)
(*   - dict used as a map with string keys and a default ([.get(k, d)]): *)
(*     [gmap string bool]; a dict that is iterated and rendered (a       *)
(*     metadata snapshot): an association list in insertion order.       *)
(*   - set: [gset string].                                               *)
(*   - the file system, the logger, the Telegram end point and the clock *)
(*     advanced by [time.sleep]: fields of the record [World], threaded  *)
(*     through a state-and-exception monad [M].                          *)
(*   - the programs run by [subprocess.run], Pillow, [shutil.move],      *)
(*     [json.loads], [json.dumps], [requests.post] and the conversions   *)
(*     [str] and [float] are not part of the repository: they are the    *)
(*     fields of the record [Env], and every statement quantifies over   *)
(*     them.                                                             *)
(* ===================================================================== *)

From Stdlib Require Import ZArith QArith Ascii String.
From stdpp Require Import gmap strings list fin_maps.

Set Warnings "-register-all".

Open Scope string_scope.
Open Scope Z_scope.

(* ===================================================================== *)
(** * Strings and POSIX paths                                             *)
(* ===================================================================== *)

Module Str.

Definition ascii_lower (c : ascii) : ascii :=
  let n := nat_of_ascii c in
  if ((65 <=? n) && (n <=? 90))%nat then ascii_of_nat (n + 32) else c.

(** [s.lower()] *)
Fixpoint lower (s : string) : string :=
  match s with
  | EmptyString => EmptyString
  | String c r => String (ascii_lower c) (lower r)
  end.

Fixpoint rfind_from (c : ascii) (s : string) (i last : Z) : Z :=
  match s with
  | EmptyString => last
  | String a r => rfind_from c r (i + 1) (if Ascii.eqb a c then i else last)
  end.

(** [s.rfind(c)]: the index of the last occurrence, [-1] when absent. *)
Definition rfind (c : ascii) (s : string) : Z := rfind_from c s 0 (-1).

Fixpoint drop (n : nat) (s : string) : string :=
  match n, s with
  | O, _ => s
  | S _, EmptyString => EmptyString
  | S n', String _ r => drop n' r
  end.

Fixpoint take (n : nat) (s : string) : string :=
  match n, s with
  | O, _ => EmptyString
  | S _, EmptyString => EmptyString
  | S n', String a r => String a (take n' r)
  end.

(** [s[i:]] and [s[:i]] for an index [i >= 0]. *)
Definition slice_from (i : Z) (s : string) : string := drop (Z.to_nat i) s.
Definition slice_to (i : Z) (s : string) : string := take (Z.to_nat i) s.

(** [s[i:i+1]] *)
Definition char_at (i : Z) (s : string) : string := take 1 (slice_from i s).

Definition startswith (pre s : string) : bool := String.prefix pre s.

Fixpoint endswith_char (c : ascii) (s : string) : bool :=
  match s with
  | EmptyString => false
  | String a EmptyString => Ascii.eqb a c
  | String _ r => endswith_char c r
  end.

(** [needle in hay] for two strings. *)
Fixpoint contains (needle hay : string) : bool :=
  String.prefix needle hay ||
  match hay with
  | EmptyString => false
  | String _ r => contains needle r
  end.

(** [x in [s1, s2, ...]] *)
Definition in_list (x : string) (l : list string) : bool :=
  existsb (String.eqb x) l.

End Str.

Module PosixPath.

(** [posixpath.splitext]: the extension starts at the last dot of the last
    path component, leading dots of that component not counting. *)
Definition splitext (p : string) : string * string :=
  let sepIndex := Str.rfind "/" p in
  let dotIndex := Str.rfind "." p in
  if sepIndex <? dotIndex then
    if existsb (fun i => negb (String.eqb (Str.char_at i p) "."))
               (seqZ (sepIndex + 1) (dotIndex - (sepIndex + 1)))
    then (Str.slice_to dotIndex p, Str.slice_from dotIndex p)
    else (p, "")
  else (p, "").

(** [posixpath.basename] *)
Definition basename (p : string) : string :=
  Str.slice_from (Str.rfind "/" p + 1) p.

(** [posixpath.join(a, b)] *)
Definition join (a b : string) : string :=
  if Str.startswith "/" b then b
  else if String.eqb a "" || Str.endswith_char "/" a then a +:+ b
  else a +:+ "/" +:+ b.

End PosixPath.


(* ===================================================================== *)
(** * Python values, exceptions and results                               *)
(* ===================================================================== *)

(** Keys of a metadata snapshot: field names, or numeric EXIF tag ids that
    [PIL.ExifTags.TAGS] does not name. *)
Inductive pykey : Type :=
| KStr (s : string)
| KInt (n : Z).

(** The values a snapshot can hold (what [json.loads] and Pillow produce). *)
Inductive pyval : Type :=
| VNone
| VBool (b : bool)
| VInt (n : Z)
| VFloat (q : Q)
| VStr (s : string)
| VList (l : list pyval)
| VTuple (l : list pyval)
| VDict (d : list (pykey * pyval))
| VFraction (q : Q)
| VObject (repr : string).

(** A dict in insertion order; keys are unique. *)
Abbreviation pydict := (list (pykey * pyval)).

Definition pykey_eqb (a b : pykey) : bool :=
  match a, b with
  | KStr s, KStr t => String.eqb s t
  | KInt n, KInt m => Z.eqb n m
  | _, _ => false
  end.

(** [d[k] = v]: overwrite in place, or append. *)
Fixpoint dict_set (k : pykey) (v : pyval) (d : pydict) : pydict :=
  match d with
  | [] => [(k, v)]
  | (k', v') :: r => if pykey_eqb k k' then (k, v) :: r else (k', v') :: dict_set k v r
  end.

(** [bool(v)] *)
Definition truthy (v : pyval) : bool :=
  match v with
  | VNone => false
  | VBool b => b
  | VInt n => negb (n =? 0)
  | VFloat q => negb (Qeq_bool q 0)
  | VStr s => negb (String.eqb s "")
  | VList l | VTuple l => match l with [] => false | _ => true end
  | VDict d => match d with [] => false | _ => true end
  | VFraction q => negb (Qeq_bool q 0)
  | VObject _ => true
  end.

(** [k in [s1, s2, ...]] for a list of strings: an integer key is in none. *)
Definition key_in (k : pykey) (l : list string) : bool :=
  match k with
  | KStr s => Str.in_list s l
  | KInt _ => false
  end.

(** The exception classes the program can meet, all below [Exception]. *)
Inductive exn_class : Type :=
| Exception
| OSError | FileNotFoundError | PermissionError
| SubprocessError | TimeoutExpired | CalledProcessError
| ValueError | JSONDecodeError
| KeyError | IndexError | TypeError | AttributeError
| ArithmeticError | OverflowError
| UnidentifiedImageError | RequestException.

(** The direct base class. *)
Definition base_class (c : exn_class) : option exn_class :=
  match c with
  | Exception => None
  | FileNotFoundError | PermissionError | UnidentifiedImageError | RequestException => Some OSError
  | TimeoutExpired | CalledProcessError => Some SubprocessError
  | JSONDecodeError => Some ValueError
  | OverflowError => Some ArithmeticError
  | OSError | SubprocessError | ValueError | KeyError | IndexError | TypeError
  | AttributeError | ArithmeticError => Some Exception
  end.

Definition exn_class_eqb (a b : exn_class) : bool :=
  match a, b with
  | Exception, Exception | OSError, OSError | FileNotFoundError, FileNotFoundError
  | PermissionError, PermissionError | SubprocessError, SubprocessError
  | TimeoutExpired, TimeoutExpired | CalledProcessError, CalledProcessError
  | ValueError, ValueError | JSONDecodeError, JSONDecodeError | KeyError, KeyError
  | IndexError, IndexError
  | TypeError, TypeError | AttributeError, AttributeError
  | ArithmeticError, ArithmeticError | OverflowError, OverflowError
  | UnidentifiedImageError, UnidentifiedImageError
  | RequestException, RequestException => true
  | _, _ => false
  end.

(** [issubclass(c, d)]; the hierarchy is three levels deep. *)
Fixpoint issubclass_fuel (n : nat) (c d : exn_class) : bool :=
  exn_class_eqb c d ||
  match n with
  | O => false
  | S n' => match base_class c with
            | Some b => issubclass_fuel n' b d
            | None => false
            end
  end.

Definition issubclass : exn_class → exn_class → bool := issubclass_fuel 3.

Record exn : Type := mk_exn { exn_cls : exn_class; exn_msg : string }.

(** [except (C1, C2, ...)] catches [e]. *)
Definition caught_by (classes : list exn_class) (e : exn) : bool :=
  existsb (issubclass (exn_cls e)) classes.

Inductive result (A : Type) : Type :=
| Ok (a : A)
| Raise (e : exn).
Arguments Ok {A} a.
Arguments Raise {A} e.

(** [f(r)] when [r] is a value; an exception passes through. *)
Definition result_map {A B} (f : A → B) (r : result A) : result B :=
  match r with
  | Ok a => Ok (f a)
  | Raise e => Raise e
  end.

(** [[f(x) for x in l]] where [f] can raise: the elements are taken in
    order and the first exception ends the comprehension. *)
Definition map_result {A B} (f : A → result B) : list A → result (list B) :=
  fix go (l : list A) : result (list B) :=
    match l with
    | [] => Ok []
    | x :: rest =>
        match f x with
        | Raise e => Raise e
        | Ok y => result_map (cons y) (go rest)
        end
    end.


(* ===================================================================== *)
(** * The outside world                                                   *)
(* ===================================================================== *)

(** [subprocess.CompletedProcess] *)
Record CompletedProcess : Type :=
  { returncode : Z; stdout : string; stderr : string }.

(** What the program uses of an opened [PIL.Image].  [img_getexif] is [None]
    for an image class without the [_getexif] method. *)
Record PILImage : Type :=
  { img_mode : string;
    img_size : Z * Z;
    img_getdata : result (list Z);
    img_getexif : option (result (option (list (Z * pyval))));
    img_info : pydict }.

(** Regular files by path. *)
Abbreviation FS := (gmap string string).

Inductive log_level : Type := INFO | WARNING | ERROR.

(** Everything the program did not write itself.  [py_str] is [str(obj)]
    of an object; [py_float] is [float(obj)] of a [Fraction]: the nearest
    double, or an [OverflowError]. *)
Record Env : Type :=
  { subprocess_run : list string → FS → result CompletedProcess * FS;
    json_loads : string → result pyval;
    json_dumps : pyval → result string;
    py_str : pyval → string;
    py_float : Q → result Q;
    Image_open : string → FS → result PILImage;
    Image_save : PILImage → string → FS → result unit * FS;
    TAGS : Z → option string;
    shutil_move : string → string → FS → result unit * FS;
    os_makedirs : string → FS → result unit * FS;
    os_path_abspath : string → string;
    os_path_relpath : string → string → result string;
    requests_post : string → string → string → result (Z * string) }.

(** The mutable state: the file system, the log, the requests sent to
    Telegram, the seconds spent in [time.sleep], and the handler's set
    [recently_processed]. *)
Record World : Type :=
  { fs : FS;
    logs : list (log_level * string);
    posted : list (string * string * string);
    slept : Z;
    recently_processed : gset string }.

Definition with_fs (f : FS) (w : World) : World :=
  {| fs := f; logs := logs w; posted := posted w; slept := slept w;
     recently_processed := recently_processed w |}.
Definition with_logs (l : list (log_level * string)) (w : World) : World :=
  {| fs := fs w; logs := l; posted := posted w; slept := slept w;
     recently_processed := recently_processed w |}.
Definition with_posted (p : list (string * string * string)) (w : World) : World :=
  {| fs := fs w; logs := logs w; posted := p; slept := slept w;
     recently_processed := recently_processed w |}.
Definition with_slept (t : Z) (w : World) : World :=
  {| fs := fs w; logs := logs w; posted := posted w; slept := t;
     recently_processed := recently_processed w |}.
Definition with_recently (s : gset string) (w : World) : World :=
  {| fs := fs w; logs := logs w; posted := posted w; slept := slept w;
     recently_processed := s |}.

(* ===================================================================== *)
(** * The state-and-exception monad                                       *)
(* ===================================================================== *)

Definition M (A : Type) : Type := World → result A * World.

Definition ret {A} (a : A) : M A := fun w => (Ok a, w).
Definition raise {A} (e : exn) : M A := fun w => (Raise e, w).

Definition bind {A B} (m : M A) (k : A → M B) : M B :=
  fun w => match m w with
           | (Ok a, w') => k a w'
           | (Raise e, w') => (Raise e, w')
           end.

(** [try: m  except classes as e: h e] *)
Definition try_except {A} (m : M A) (classes : list exn_class) (h : exn → M A) : M A :=
  fun w => match m w with
           | (Ok a, w') => (Ok a, w')
           | (Raise e, w') => if caught_by classes e then h e w' else (Raise e, w')
           end.

(** [try: m  finally: f]: [f] always runs; its exception replaces [m]'s. *)
Definition try_finally {A} (m : M A) (f : M unit) : M A :=
  fun w => match m w with
           | (r, w') => match f w' with
                        | (Ok _, w'') => (r, w'')
                        | (Raise e, w'') => (Raise e, w'')
                        end
           end.

Declare Scope m_scope.
Delimit Scope m_scope with M.
Notation "x <- m ;; k" := (bind m (fun x => k))
  (at level 100, m at next level, right associativity) : m_scope.
Notation "m1 ;; m2" := (bind m1 (fun _ => m2))
  (at level 100, m2 at level 200, right associativity) : m_scope.
Open Scope m_scope.

Definition lift {A} (r : result A) : M A := fun w => (r, w).

(** An operation of the environment on the file system. *)
Definition on_fs {A} (f : FS → result A * FS) : M A :=
  fun w => let '(r, f') := f (fs w) in (r, with_fs f' w).

Definition read_fs {A} (f : FS → A) : M A := fun w => (Ok (f (fs w)), w).

(** [logger.info / warning / error] *)
Definition logger (lvl : log_level) (msg : string) : M unit :=
  fun w => (Ok tt, with_logs (logs w ++ [(lvl, msg)]) w).

(** [time.sleep(n)] *)
Definition time_sleep (n : Z) : M unit :=
  fun w => (Ok tt, with_slept (slept w + n) w).

(** [os.path.exists] *)
Definition os_path_exists (p : string) : M bool :=
  read_fs (fun f => bool_decide (is_Some (f !! p))).

(* ===================================================================== *)
(** * class MetadataCleaner                                               *)
(* ===================================================================== *)

(** The attributes set by [__init__]; none is assigned afterwards. *)
Record MetadataCleaner : Type :=
  { folder_path : string;
    telegram_token : string;
    chat_id : string;
    interval : Z;
    telegram_api_url : string;
    temp_folder : string;
    available_tools : gmap string bool }.

(** [self.available_tools.get(name, False)] *)
Definition tool_available (self : MetadataCleaner) (name : string) : bool :=
  default false (available_tools self !! name).

Definition image_extensions : list string :=
  [".jpg"; ".jpeg"; ".png"; ".tiff"; ".tif"; ".webp"].
Definition document_extensions : list string :=
  [".pdf"; ".docx"; ".doc"; ".pptx"; ".xlsx"; ".xls"].
Definition media_extensions : list string :=
  [".mp3"; ".mp4"; ".avi"; ".mov"; ".wav"].
Definition office_extensions : list string :=
  [".docx"; ".xlsx"; ".pptx"].
Definition excluded_fields : list string :=
  ["FileSize"; "FileName"; "FileType"; "MIMEType"; "ExifToolVersion"].
Definition excluded_info_keys : list string :=
  ["dpi"; "jfif"; "jfif_version"; "jfif_unit"; "jfif_density"].

(** [os.path.splitext(file_path)[1].lower()] *)
Definition extension_of (file_path : string) : string :=
  Str.lower (snd (PosixPath.splitext file_path)).

(** The local [temp_file] of [clean_metadata]. *)
Definition temp_file (self : MetadataCleaner) (file_path : string) : string :=
  PosixPath.join (temp_folder self) (PosixPath.basename file_path).

(** [{k: v for k, v in metadata.items() if k not in [...]}] *)
Definition filter_excluded (d : pydict) : pydict :=
  List.filter (fun kv => negb (key_in (fst kv) excluded_fields)) d.

(** [bool(d)] for a dict. *)
Definition dict_nonempty (d : pydict) : bool :=
  match d with [] => false | _ => true end.

(** [metadata[0]] *)
Definition subscript0 (v : pyval) : result pyval :=
  match v with
  | VList (x :: _) | VTuple (x :: _) => Ok x
  | VList [] | VTuple [] => Raise (mk_exn IndexError "index out of range")
  | VStr (String c _) => Ok (VStr (String c EmptyString))
  | VStr EmptyString => Raise (mk_exn IndexError "string index out of range")
  | VDict d => match List.find (fun kv => pykey_eqb (fst kv) (KInt 0)) d with
               | Some kv => Ok (snd kv)
               | None => Raise (mk_exn KeyError "0")
               end
  | _ => Raise (mk_exn TypeError "object is not subscriptable")
  end.

(** [metadata.items()] *)
Definition dict_items (v : pyval) : result pydict :=
  match v with
  | VDict d => Ok d
  | _ => Raise (mk_exn AttributeError "object has no attribute 'items'")
  end.

(** [Image.new(mode, size)] followed by [putdata(data)]: an image that has
    pixels and nothing else. *)
Definition Image_new_putdata (mode : string) (size : Z * Z) (data : list Z) : PILImage :=
  {| img_mode := mode; img_size := size; img_getdata := Ok data;
     img_getexif := None; img_info := [] |}.

Section Program.

Variable env : Env.

(** [custom_json_serializer]; [bool] is a subclass of [int], and [float]
    of a [Fraction] can raise. *)
Fixpoint custom_json_serializer (obj : pyval) : result pyval :=
  match obj with
  | VBool _ | VInt _ | VFloat _ | VStr _ => Ok obj
  | VDict d =>
      result_map VDict
        (map_result (fun kv => result_map (pair (fst kv)) (custom_json_serializer (snd kv))) d)
  | VList l => result_map VList (map_result custom_json_serializer l)
  | VTuple l => result_map VTuple (map_result custom_json_serializer l)
  | VFraction q => result_map VFloat (py_float env q)
  | VNone | VObject _ => Ok (VStr (py_str env obj))
  end.

(** [json.dumps(custom_json_serializer(metadata), indent=2)], for the dict
    that [has_metadata] returns. *)
Definition render_metadata (metadata : pydict) : result string :=
  match custom_json_serializer (VDict metadata) with
  | Ok safe => json_dumps env safe
  | Raise e => Raise e
  end.

Definition run (argv : list string) : M CompletedProcess :=
  on_fs (subprocess_run env argv).

(** [_check_required_tools]: the dict it stores in [self.available_tools]. *)
Definition _check_required_tools : M (gmap string bool) :=
  let tools_status : gmap string bool := ∅ in
  tools_status <-
    try_except
      (run ["exiftool"; "-ver"] ;;
       ret (<["exiftool" := true]> tools_status))
      [FileNotFoundError; SubprocessError]
      (fun _ =>
         logger WARNING "ExifTool no encontrado. La limpieza de metadatos será limitada." ;;
         ret (<["exiftool" := false]> tools_status)) ;;
  tools_status <-
    try_except
      (run ["qpdf"; "--version"] ;;
       ret (<["qpdf" := true]> tools_status))
      [FileNotFoundError; SubprocessError]
      (fun _ =>
         logger WARNING "QPDF no encontrado. La limpieza de metadatos de PDF será limitada." ;;
         ret (<["qpdf" := false]> tools_status)) ;;
  ret tools_status.

(** [send_telegram_message] *)
Definition send_telegram_message (self : MetadataCleaner) (message : string) : M bool :=
  try_except
    (response <-
       (fun w => (requests_post env (telegram_api_url self) (chat_id self) message,
                  with_posted (posted w ++ [(telegram_api_url self, chat_id self, message)]) w)) ;;
     (if negb (fst response =? 200)
      then logger ERROR ("Error al enviar mensaje a Telegram: " +:+ snd response)
      else ret tt) ;;
     ret (fst response =? 200))
    [Exception]
    (fun e => logger ERROR ("Error en Telegram: " +:+ exn_msg e) ;; ret false).

(** [__init__] *)
Definition MetadataCleaner_init (folder token chat : string) (ival : Z) : M MetadataCleaner :=
  let folder_path := os_path_abspath env folder in
  let temp_folder := PosixPath.join folder_path "_temp_metadata_cleaner" in
  on_fs (os_makedirs env temp_folder) ;;
  tools <- _check_required_tools ;;
  let self :=
    {| folder_path := folder_path; telegram_token := token; chat_id := chat;
       interval := ival;
       telegram_api_url := "https://api.telegram.org/bot" +:+ token +:+ "/sendMessage";
       temp_folder := temp_folder; available_tools := tools |} in
  logger INFO ("Iniciando monitoreo en: " +:+ folder_path) ;;
  send_telegram_message self "🟢 Monitor de metadatos iniciado" ;;
  ret self.

(** The [try] block of [get_metadata_with_exiftool]. *)
Definition exiftool_query (file_path : string) : M pyval :=
  result <- run ["exiftool"; "-json"; file_path] ;;
  if negb (returncode result =? 0)
  then logger ERROR ("Error al obtener metadatos con ExifTool: " +:+ stderr result) ;;
       ret (VDict [])
  else
    metadata <- lift (json_loads env (stdout result)) ;;
    if truthy metadata then lift (subscript0 metadata) else ret (VDict []).

(** [get_metadata_with_exiftool] *)
Definition get_metadata_with_exiftool (self : MetadataCleaner) (file_path : string) : M pyval :=
  if negb (tool_available self "exiftool")
  then ret (VDict [(KStr "error", VStr "ExifTool no disponible")])
  else
    try_except
      (exiftool_query file_path)
      [Exception]
      (fun e => logger ERROR ("Error al usar ExifTool: " +:+ exn_msg e) ;; ret (VDict [])).

(** The EXIF loop of [has_metadata]:
    [for tag_id, value in img._getexif().items(): exif_data[TAGS.get(tag_id, tag_id)] = value] *)
Definition add_exif_tags (items : list (Z * pyval)) (exif_data : pydict) : pydict :=
  fold_left
    (fun acc tv =>
       let tag := match TAGS env (fst tv) with
                  | Some name => KStr name
                  | None => KInt (fst tv)
                  end in
       dict_set tag (snd tv) acc)
    items exif_data.

(** The [img.info] loop of [has_metadata]. *)
Definition add_info (info : pydict) (exif_data : pydict) : pydict :=
  fold_left
    (fun acc kv =>
       if negb (key_in (fst kv) excluded_info_keys)
       then dict_set (fst kv) (VStr (py_str env (snd kv))) acc
       else acc)
    info exif_data.

(** The body of the [with Image.open(file_path) as img:] block of
    [has_metadata].  Every Pillow image has the attribute [info]. *)
Definition image_metadata (img : PILImage) : M (bool * pydict) :=
  let exif_data : pydict := [] in
  exif_data <-
    match img_getexif img with
    | None => ret exif_data
    | Some call =>
        first <- lift call ;;
        match first with
        | Some (_ :: _) =>
            second <- lift call ;;
            ret (add_exif_tags (default [] second) exif_data)
        | _ => ret exif_data
        end
    end ;;
  let exif_data :=
    if dict_nonempty (img_info img) then add_info (img_info img) exif_data else exif_data in
  ret (dict_nonempty exif_data, exif_data).

(** The [try] block of the image branch of [has_metadata]. *)
Definition image_probe (file_path : string) : M (bool * pydict) :=
  img <- read_fs (Image_open env file_path) ;;
  img <- lift img ;;
  image_metadata img.

(** The body of the outer [try] of [has_metadata]. *)
Definition has_metadata_body (self : MetadataCleaner) (file_path : string) : M (bool * pydict) :=
  let extension := extension_of file_path in
  if tool_available self "exiftool" then
    metadata <- get_metadata_with_exiftool self file_path ;;
    items <- lift (dict_items metadata) ;;
    let filtered_metadata := filter_excluded items in
    ret (dict_nonempty filtered_metadata, filtered_metadata)
  else if Str.in_list extension image_extensions then
    try_except
      (image_probe file_path)
      [Exception]
      (fun e =>
         logger ERROR ("Error al leer metadatos de imagen " +:+ file_path +:+ ": " +:+ exn_msg e) ;;
         ret (false, []))
  else if Str.in_list extension document_extensions then
    ret (true, [(KStr "warning", VStr "Archivo potencialmente con metadatos")])
  else if Str.in_list extension media_extensions then
    ret (true, [(KStr "warning", VStr "Archivo multimedia potencialmente con metadatos")])
  else ret (false, []).

(** [has_metadata] *)
Definition has_metadata (self : MetadataCleaner) (file_path : string) : M (bool * pydict) :=
  try_except
    (has_metadata_body self file_path)
    [Exception]
    (fun e =>
       logger ERROR ("Error al verificar metadatos de " +:+ file_path +:+ ": " +:+ exn_msg e) ;;
       ret (false, [])).

(** The [try] block of the ExifTool attempt of [clean_metadata]. *)
Definition exiftool_strip (self : MetadataCleaner) (file_path : string) : M bool :=
  result <- run ["exiftool"; "-all="; "-o"; temp_file self file_path; file_path] ;;
  if negb (returncode result =? 0)
  then logger ERROR ("Error al limpiar metadatos con ExifTool: " +:+ stderr result) ;;
       ret false
  else on_fs (shutil_move env (temp_file self file_path) file_path) ;;
       ret true.

(** The first block of [clean_metadata] (the ExifTool attempt).  [true]
    is the [return True] after the move; [false] means that control falls
    through to the per-extension methods. *)
Definition clean_with_exiftool (self : MetadataCleaner) (file_path : string) : M bool :=
  if tool_available self "exiftool" then
    try_except
      (exiftool_strip self file_path)
      [Exception]
      (fun e => logger ERROR ("Error con ExifTool: " +:+ exn_msg e) ;; ret false)
  else ret false.

(** The [try] block of the PDF branch of [clean_metadata]. *)
Definition qpdf_linearize (file_path : string) : M bool :=
  result <- run ["qpdf"; "--linearize"; "--replace-input"; file_path] ;;
  if returncode result =? 0
  then ret true
  else logger ERROR ("Error al limpiar PDF con QPDF: " +:+ stderr result) ;;
       ret false.

(** The PDF branch of [clean_metadata]. *)
Definition clean_pdf (self : MetadataCleaner) (file_path : string) : M bool :=
  returned <-
    (if tool_available self "qpdf" then
       try_except
         (qpdf_linearize file_path)
         [Exception]
         (fun e => logger ERROR ("Error con QPDF: " +:+ exn_msg e) ;; ret false)
     else ret false) ;;
  if returned then ret true else ret false.

(** The [try] block of the image branch of [clean_metadata]. *)
Definition image_reencode (self : MetadataCleaner) (file_path : string) : M bool :=
  img <- read_fs (Image_open env file_path) ;;
  img <- lift img ;;
  data <- lift (img_getdata img) ;;
  let img_without_exif := Image_new_putdata (img_mode img) (img_size img) data in
  on_fs (Image_save env img_without_exif (temp_file self file_path)) ;;
  on_fs (shutil_move env (temp_file self file_path) file_path) ;;
  ret true.

(** The image branch of [clean_metadata]. *)
Definition clean_image (self : MetadataCleaner) (file_path : string) : M bool :=
  try_except
    (image_reencode self file_path)
    [Exception]
    (fun e =>
       logger ERROR ("Error al limpiar metadatos de imagen " +:+ file_path +:+ ": " +:+ exn_msg e) ;;
       ret false).

(** The per-extension methods of [clean_metadata], reached when ExifTool is
    not available or its attempt did not return. *)
Definition clean_by_extension (self : MetadataCleaner) (file_path : string) : M bool :=
  let extension := extension_of file_path in
  if String.eqb extension ".pdf" then clean_pdf self file_path
  else if Str.in_list extension image_extensions then clean_image self file_path
  else if Str.in_list extension office_extensions then
    logger WARNING ("Limpieza manual para archivos Office " +:+ extension) ;;
    ret false
  else if Str.in_list extension media_extensions then
    logger WARNING ("Limpieza de metadatos para archivos multimedia " +:+ extension
                    +:+ " no implementada") ;;
    ret false
  else
    logger WARNING ("No se implementó limpieza para el tipo de archivo: " +:+ extension) ;;
    ret false.

(** The body of the outer [try] of [clean_metadata]. *)
Definition clean_metadata_body (self : MetadataCleaner) (file_path : string) : M bool :=
  returned <- clean_with_exiftool self file_path ;;
  if returned then ret true else clean_by_extension self file_path.

(** [clean_metadata] *)
Definition clean_metadata (self : MetadataCleaner) (file_path : string) : M bool :=
  try_except
    (clean_metadata_body self file_path)
    [Exception]
    (fun e =>
       logger ERROR ("Error al limpiar metadatos de " +:+ file_path +:+ ": " +:+ exn_msg e) ;;
       ret false).

End Program.

(* ===================================================================== *)
(** * class MetadataEventHandler                                          *)
(* ===================================================================== *)

(** A watchdog event. *)
Record FileSystemEvent : Type :=
  { is_directory : bool; src_path : string }.

(** The attributes of the handler that are never reassigned; the set
    [recently_processed] lives in [World]. *)
Record MetadataEventHandler : Type :=
  { cleaner : MetadataCleaner; handler_temp_folder : string }.

Definition nl : string := String (ascii_of_nat 10) EmptyString.

Definition relevant_extensions : list string :=
  [".jpg"; ".jpeg"; ".png"; ".pdf"; ".docx"; ".doc";
   ".pptx"; ".xlsx"; ".xls"; ".mp3"; ".mp4"; ".avi"].

(** [event.is_directory or self.temp_folder in event.src_path] *)
Definition ignored (h : MetadataEventHandler) (event : FileSystemEvent) : bool :=
  is_directory event || Str.contains (handler_temp_folder h) (src_path event).

(** [p in self.recently_processed], [.add(p)], [.remove(p)] *)
Definition recently_contains (p : string) : M bool :=
  fun w => (Ok (bool_decide (p ∈ recently_processed w)), w).
Definition recently_add (p : string) : M unit :=
  fun w => (Ok tt, with_recently ({[p]} ∪ recently_processed w) w).
Definition recently_remove (p : string) : M unit :=
  fun w => if bool_decide (p ∈ recently_processed w)
           then (Ok tt, with_recently (recently_processed w ∖ {[p]}) w)
           else (Raise (mk_exn KeyError p), w).

Section Handler.

Variable env : Env.

(** [MetadataEventHandler.__init__] *)
Definition MetadataEventHandler_init (metadata_cleaner : MetadataCleaner) : M MetadataEventHandler :=
  fun w => (Ok {| cleaner := metadata_cleaner;
                  handler_temp_folder := temp_folder metadata_cleaner |},
            with_recently ∅ w).

(** The [if has_meta:] block, the same in [on_created] and [on_modified]
    but for the first line of the message.  [has_metadata] returns a dict,
    so [isinstance(metadata, dict)] holds; [json.dumps] escapes what is not
    ASCII, so the 500 characters of the cut are 500 bytes. *)
Definition report_and_clean (h : MetadataEventHandler) (title : string)
           (path : string) (metadata : pydict) : M unit :=
  relative_path <- lift (os_path_relpath env path (folder_path (cleaner h))) ;;
  metadata_str <- lift (render_metadata env metadata) ;;
  let metadata_str :=
    if (500 <? String.length metadata_str)%nat
    then Str.take 500 metadata_str +:+ "... [truncado]"
    else metadata_str in
  let message :=
    title +:+ nl +:+ "📁 " +:+ relative_path +:+ nl +:+
    "📊 <pre>" +:+ metadata_str +:+ "</pre>" in
  send_telegram_message env (cleaner h) message ;;
  cleaned <- clean_metadata env (cleaner h) path ;;
  if cleaned then
    send_telegram_message env (cleaner h) ("✅ Metadatos eliminados de: " +:+ relative_path) ;;
    logger INFO ("Metadatos eliminados de: " +:+ path)
  else
    send_telegram_message env (cleaner h) ("❌ Error al eliminar metadatos de: " +:+ relative_path) ;;
    logger ERROR ("Error al eliminar metadatos de: " +:+ path).

(** The [try] block of [on_created], with its [except Exception]. *)
Definition created_try (h : MetadataEventHandler) (event : FileSystemEvent) : M unit :=
  try_except
    (found <- os_path_exists (src_path event) ;;
     if found then
       logger INFO ("Nuevo archivo detectado: " +:+ src_path event) ;;
       r <- has_metadata env (cleaner h) (src_path event) ;;
       if fst r
       then report_and_clean h "🆕 <b>Nuevo archivo con metadatos:</b>" (src_path event) (snd r)
       else ret tt
     else ret tt)
    [Exception]
    (fun e => logger ERROR ("Error al procesar archivo creado " +:+ src_path event
                            +:+ ": " +:+ exn_msg e)).

(** The [try] block of [on_modified], with its [except Exception]. *)
Definition modified_try (h : MetadataEventHandler) (event : FileSystemEvent) : M unit :=
  try_except
    (let file_ext := extension_of (src_path event) in
     found <- os_path_exists (src_path event) ;;
     if found && Str.in_list file_ext relevant_extensions then
       logger INFO ("Archivo modificado: " +:+ src_path event) ;;
       r <- has_metadata env (cleaner h) (src_path event) ;;
       if fst r
       then report_and_clean h "🔄 <b>Archivo modificado con metadatos:</b>" (src_path event) (snd r)
       else ret tt
     else ret tt)
    [Exception]
    (fun e => logger ERROR ("Error al procesar archivo modificado " +:+ src_path event
                            +:+ ": " +:+ exn_msg e)).

(** The [finally] block of both handlers. *)
Definition release (p : string) : M unit :=
  time_sleep 4 ;;
  present <- recently_contains p ;;
  if present then recently_remove p else ret tt.

(** [on_created] *)
Definition on_created (h : MetadataEventHandler) (event : FileSystemEvent) : M unit :=
  if ignored h event then ret tt
  else
    duplicate <- recently_contains (src_path event) ;;
    if duplicate then ret tt
    else
      recently_add (src_path event) ;;
      time_sleep 1 ;;
      try_finally (created_try h event) (release (src_path event)).

(** [on_modified] *)
Definition on_modified (h : MetadataEventHandler) (event : FileSystemEvent) : M unit :=
  if ignored h event then ret tt
  else
    duplicate <- recently_contains (src_path event) ;;
    if duplicate then ret tt
    else
      recently_add (src_path event) ;;
      try_finally (modified_try h event) (release (src_path event)).

End Handler.

(* ===================================================================== *)
(** * Handlers as threads                                                 *)
(* ===================================================================== *)

(** The watch layer may run several handler calls at once.  A call is cut
    at the statements that read or write [recently_processed]; between two
    cuts another call can run.  The [try] block is one step: it does not
    touch the set. *)

Inductive handler_kind : Type := Created | Modified.

Inductive pc : Type :=
| AtGuard                              (* before the first [if] *)
| AtCheck                              (* before [if src_path in recently_processed] *)
| AtAdd                                (* before [recently_processed.add] *)
| AtTry                                (* before the [try] block *)
| AtFinally (pending : result unit)    (* before the [finally] block *)
| AtRemove (pending : result unit)     (* before [recently_processed.remove] *)
| Discarded                            (* returned by one of the two early [return]s *)
| Finished                             (* returned at the end *)
| Failed (e : exn).                    (* left by an exception *)

Definition finish (pending : result unit) : pc :=
  match pending with
  | Ok _ => Finished
  | Raise e => Failed e
  end.

Record thread : Type :=
  { th_kind : handler_kind; th_event : FileSystemEvent; th_pc : pc }.

(** The call has passed the duplicate check and entered its path in the set. *)
Definition admitted (t : thread) : bool :=
  match th_pc t with
  | AtTry | AtFinally _ | AtRemove _ | Finished | Failed _ => true
  | AtGuard | AtCheck | AtAdd | Discarded => false
  end.

Section Threads.

Variable env : Env.
Variable h : MetadataEventHandler.

(** The [try] block of the handler, after the [time.sleep(1)] that
    [on_created] has before it. *)
Definition try_block (kind : handler_kind) (event : FileSystemEvent) : M unit :=
  match kind with
  | Created => time_sleep 1 ;; created_try env h event
  | Modified => modified_try env h event
  end.

Definition thread_step (kind : handler_kind) (event : FileSystemEvent) (at_ : pc)
  : World → pc * World :=
  fun w =>
    match at_ with
    | AtGuard => (if ignored h event then Discarded else AtCheck, w)
    | AtCheck =>
        match recently_contains (src_path event) w with
        | (Ok true, w') => (Discarded, w')
        | (Ok false, w') => (AtAdd, w')
        | (Raise e, w') => (Failed e, w')
        end
    | AtAdd =>
        match recently_add (src_path event) w with
        | (Ok _, w') => (AtTry, w')
        | (Raise e, w') => (Failed e, w')
        end
    | AtTry =>
        match try_block kind event w with
        | (r, w') => (AtFinally r, w')
        end
    | AtFinally pending =>
        match (time_sleep 4 ;; recently_contains (src_path event)) w with
        | (Ok true, w') => (AtRemove pending, w')
        | (Ok false, w') => (finish pending, w')
        | (Raise e, w') => (Failed e, w')
        end
    | AtRemove pending =>
        match recently_remove (src_path event) w with
        | (Ok _, w') => (finish pending, w')
        | (Raise e, w') => (Failed e, w')
        end
    | Discarded | Finished | Failed _ => (at_, w)
    end.

(** One step of thread number [i]. *)
Definition sched_step (cfg : list thread * World) (i : nat) : list thread * World :=
  match fst cfg !! i with
  | Some t =>
      match thread_step (th_kind t) (th_event t) (th_pc t) (snd cfg) with
      | (at', w') =>
          (<[i := {| th_kind := th_kind t; th_event := th_event t; th_pc := at' |}]> (fst cfg), w')
      end
  | None => cfg
  end.

(** A schedule names the thread that takes each step. *)
Definition run_schedule (schedule : list nat) (cfg : list thread * World)
  : list thread * World :=
  fold_left sched_step schedule cfg.

(** A call that runs alone, from its first statement to its return. *)
Definition run_alone (kind : handler_kind) (event : FileSystemEvent) (w : World)
  : pc * World :=
  fold_left (fun st _ => thread_step kind event (fst st) (snd st))
            (seq 0 6) (AtGuard, w).

End Threads.

Definition new_thread (kind : handler_kind) (event : FileSystemEvent) : thread :=
  {| th_kind := kind; th_event := event; th_pc := AtGuard |}.

(** What the caller of a handler sees. *)
Definition outcome (at_ : pc) : result unit :=
  match at_ with
  | Failed e => Raise e
  | _ => Ok tt
  end.

(* ===================================================================== *)
(** * A small environment to run the program in                           *)
(* ===================================================================== *)

Module Sim.

(** A file whose content starts with [IMG] decodes as a 1x1 image. *)
Definition open_image (p : string) (f : FS) : result PILImage :=
  match f !! p with
  | None => Raise (mk_exn FileNotFoundError p)
  | Some c =>
      if String.prefix "IMG" c
      then Ok {| img_mode := "RGB"; img_size := (1, 1); img_getdata := Ok [0];
                 img_getexif := Some (Ok (Some [(274, VInt 6)]));
                 img_info := [(KStr "dpi", VTuple [VInt 72; VInt 72])] |}
      else Raise (mk_exn UnidentifiedImageError p)
  end.

Definition save_image (img : PILImage) (p : string) (f : FS) : result unit * FS :=
  (Ok tt, <[p := "IMG"]> f).

(** A rename: the source must exist. *)
Definition move (src dst : string) (f : FS) : result unit * FS :=
  match f !! src with
  | Some c => (Ok tt, <[dst := c]> (delete src f))
  | None => (Raise (mk_exn FileNotFoundError src), f)
  end.

Definition loads (s : string) : result pyval :=
  if String.eqb s "[]" then Ok (VList [])
  else if String.eqb s "[{}]" then Ok (VList [VDict []])
  else if String.eqb s "[sizes]"
  then Ok (VList [VDict [(KStr "FileSize", VStr "1 kB"); (KStr "MIMEType", VStr "image/png")]])
  else if String.eqb s "[author]"
  then Ok (VList [VDict [(KStr "FileName", VStr "a.pdf"); (KStr "Author", VStr "someone")]])
  else if String.eqb s "[5]" then Ok (VList [VInt 5])
  else Raise (mk_exn JSONDecodeError s).

(** [float] of a [Fraction] here: the value itself (rounding is not
    simulated), and an [OverflowError] from [2 ** 1024] on. *)
Definition to_double (q : Q) : result Q :=
  if 1024 <=? Z.log2 (Z.abs (Qnum q) / Z.pos (Qden q))
  then Raise (mk_exn OverflowError "integer division result too large for a float")
  else Ok q.

(** An environment around a given behaviour of the external programs. *)
Definition make (programs : list string → FS → result CompletedProcess * FS) : Env :=
  {| subprocess_run := programs;
     json_loads := loads;
     json_dumps := fun _ => Ok "{}";
     py_str := fun _ => "object";
     py_float := to_double;
     Image_open := open_image;
     Image_save := save_image;
     TAGS := fun n => if n =? 274 then Some "Orientation" else None;
     shutil_move := move;
     os_makedirs := fun _ f => (Ok tt, f);
     os_path_abspath := fun p => p;
     os_path_relpath := fun p _ => Ok p;
     requests_post := fun _ _ _ => Ok (200, "") |}.

Definition completed (rc : Z) (out : string) : CompletedProcess :=
  {| returncode := rc; stdout := out; stderr := "" |}.

Definition world (f : FS) : World :=
  {| fs := f; logs := []; posted := []; slept := 0; recently_processed := ∅ |}.

Definition a_cleaner (tools : gmap string bool) : MetadataCleaner :=
  {| folder_path := "/w"; telegram_token := "t"; chat_id := "c"; interval := 60;
     telegram_api_url := "https://api.telegram.org/bott/sendMessage";
     temp_folder := "/w/_temp_metadata_cleaner"; available_tools := tools |}.

Definition a_handler (tools : gmap string bool) : MetadataEventHandler :=
  {| cleaner := a_cleaner tools; handler_temp_folder := "/w/_temp_metadata_cleaner" |}.

(** No external program is installed. *)
Definition no_programs (argv : list string) (f : FS) : result CompletedProcess * FS :=
  (Raise (mk_exn FileNotFoundError "No such file or directory"), f).

(** The programs found on the search path, by name. *)
Definition install (tools : list (string * (list string → FS → result CompletedProcess * FS)))
           (argv : list string) (f : FS) : result CompletedProcess * FS :=
  match argv with
  | [] => no_programs argv f
  | name :: args =>
      match List.find (fun t => String.eqb (fst t) name) tools with
      | Some t => snd t args f
      | None => no_programs argv f
      end
  end.

(** A program that runs and exits with [status], whatever its arguments. *)
Definition exits_with (status : Z) (args : list string) (f : FS)
  : result CompletedProcess * FS :=
  (Ok (completed status ""), f).

(** A program that is found but cannot be executed. *)
Definition not_executable (args : list string) (f : FS) : result CompletedProcess * FS :=
  (Raise (mk_exn PermissionError "Permission denied"), f).

(** An ExifTool: [-o out] writes the stripped copy to [out] and refuses to
    overwrite. *)
Definition exiftool (args : list string) (f : FS) : result CompletedProcess * FS :=
  match args with
  | ["-ver"] => (Ok (completed 0 "12.40"), f)
  | ["-json"; p] =>
      match f !! p with
      | Some _ => (Ok (completed 0 "[author]"), f)
      | None => (Ok (completed 1 ""), f)
      end
  | ["-all="; "-o"; out; p] =>
      match f !! p, f !! out with
      | Some c, None => (Ok (completed 0 ""), <[out := "IMG"]> f)
      | _, _ => (Ok (completed 1 ""), f)
      end
  | _ => (Ok (completed 1 ""), f)
  end.

(** An ExifTool that answers the version query and cannot be started
    afterwards (the system is out of file descriptors, say). *)
Definition exiftool_unstartable (args : list string) (f : FS) : result CompletedProcess * FS :=
  match args with
  | ["-ver"] => (Ok (completed 0 "12.40"), f)
  | _ => (Raise (mk_exn OSError "Too many open files"), f)
  end.

(** A qpdf that rewrites its input in place and then exits with [status]
    (0: no problem met; 3: warnings were issued, the output was written),
    or exits with 2 and writes nothing when the input is missing. *)
Definition qpdf (status : Z) (args : list string) (f : FS) : result CompletedProcess * FS :=
  match args with
  | ["--version"] => (Ok (completed 0 "qpdf version 11"), f)
  | ["--linearize"; "--replace-input"; p] =>
      match f !! p with
      | Some c => (Ok (completed status ""), <[p := "linearized"]> f)
      | None => (Ok (completed 2 ""), f)
      end
  | _ => (Ok (completed 2 ""), f)
  end.

End Sim.

(* ===================================================================== *)
(** * Notions used in the statements                                     *)
(* ===================================================================== *)

(** The path lies in the staging directory of the handler. *)
Definition inside_staging (h : MetadataEventHandler) (path : string) : Prop :=
  ∃ rest, path = handler_temp_folder h +:+ "/" +:+ rest.


(** The output of the ExifTool query cannot be read as a snapshot: it is not
    JSON, or it is JSON of which the first element cannot be taken or is not
    a mapping. *)
Definition unreadable_output (env : Env) (out : string) : Prop :=
  match json_loads env out with
  | Raise _ => True
  | Ok metadata =>
      truthy metadata = true
      ∧ match subscript0 metadata with
        | Ok (VDict _) => False
        | Ok _ | Raise _ => True
        end
  end.

(** The ExifTool query of the inspector fails: the program cannot be run, it
    exits with a nonzero status, or its output cannot be read. *)
Definition exiftool_query_fails (env : Env) (file_path : string) (f : FS) : Prop :=
  match fst (subprocess_run env ["exiftool"; "-json"; file_path] f) with
  | Raise _ => True
  | Ok result => returncode result ≠ 0 ∨ unreadable_output env (stdout result)
  end.

(** The command line of the ExifTool attempt of the redactor. *)
Definition exiftool_strip_argv (self : MetadataCleaner) (file_path : string) : list string :=
  ["exiftool"; "-all="; "-o"; temp_file self file_path; file_path].

(** The command line of the PDF branch of the redactor. *)
Definition qpdf_argv (file_path : string) : list string :=
  ["qpdf"; "--linearize"; "--replace-input"; file_path].

(** The ExifTool invocation of the redactor fails: the program cannot be run
    or exits with a nonzero status. *)
Definition exiftool_strip_fails (env : Env) (self : MetadataCleaner) (file_path : string)
           (f : FS) : Prop :=
  match fst (subprocess_run env (exiftool_strip_argv self file_path) f) with
  | Raise _ => True
  | Ok result => returncode result ≠ 0
  end.

(** The qpdf invocation runs and exits with status 0. *)
Definition qpdf_succeeds (env : Env) (file_path : string) (f : FS) : Prop :=
  ∃ result, fst (subprocess_run env (qpdf_argv file_path) f) = Ok result
            ∧ returncode result = 0.

(** The fields that the design document calls structural, by the names
    it gives them. *)
Definition structural_field (k : pykey) : Prop :=
  k = KStr "FileSize" ∨ k = KStr "FileName" ∨ k = KStr "FileType"
  ∨ k = KStr "MIMEType" ∨ k = KStr "ExifToolVersion".

(** All keys of the dict are structural fields. *)
Definition only_excluded_fields (d : pydict) : Prop :=
  ∀ kv, In kv d → structural_field (fst kv).

(** A version query of the probe that the probe can deal with: the program
    runs, with whatever exit status, or launching it raises one of the two
    exceptions the probe catches. *)
Definition launch_handled (r : result CompletedProcess) : Prop :=
  match r with
  | Ok _ => True
  | Raise e => caught_by [FileNotFoundError; SubprocessError] e = true
  end.

(** The program was launched and ran to its end. *)
Definition launched (r : result CompletedProcess) : bool :=
  match r with
  | Ok _ => true
  | Raise _ => false
  end.

(** [c in s] for a character. *)
Fixpoint has_char (c : ascii) (s : string) : bool :=
  match s with
  | EmptyString => false
  | String a r => Ascii.eqb a c || has_char c r
  end.

(** What the redactor relies on in the programs it calls, for the file
    [file_path] and its staging path. *)

(** [exiftool -all= -o <staging> <file>] writes nowhere but at the staging
    path. *)
Definition exiftool_writes_staging_only (env : Env) (self : MetadataCleaner)
           (file_path : string) : Prop :=
  ∀ f p,
    p ≠ temp_file self file_path →
    snd (subprocess_run env (exiftool_strip_argv self file_path) f) !! p = f !! p.

(** [Image.save] to the staging path writes nowhere else. *)
Definition save_writes_staging_only (env : Env) (self : MetadataCleaner)
           (file_path : string) : Prop :=
  ∀ img f p,
    p ≠ temp_file self file_path →
    snd (Image_save env img (temp_file self file_path) f) !! p = f !! p.

(** A [shutil.move] of the staged copy that raises leaves the file as it
    was. *)
Definition failed_move_keeps_original (env : Env) (self : MetadataCleaner)
           (file_path : string) : Prop :=
  ∀ f e f',
    shutil_move env (temp_file self file_path) file_path f = (Raise e, f') →
    f' !! file_path = f !! file_path.

(** The in-place qpdf run of the PDF branch, started in the file system
    [f], did not end with status 0: qpdf could not be run, or it exited
    with another status; [f'] is the file system it left. *)
Definition qpdf_failed_in_place (env : Env) (self : MetadataCleaner) (file_path : string)
           (f f' : FS) : Prop :=
  extension_of file_path = ".pdf"
  ∧ tool_available self "qpdf" = true
  ∧ snd (subprocess_run env (qpdf_argv file_path) f) = f'
  ∧ match fst (subprocess_run env (qpdf_argv file_path) f) with
    | Ok result => returncode result ≠ 0
    | Raise _ => True
    end.

(** The step returns [True], or it leaves the file at [p] as it was. *)
Definition true_or_untouched (p : string) (m : M bool) : Prop :=
  ∀ w, fst (m w) = Ok true ∨ fs (snd (m w)) !! p = fs w !! p.

(** The computation leaves [recently_processed] as it was. *)
Definition keeps_recently {A} (m : M A) : Prop :=
  ∀ w, recently_processed (snd (m w)) = recently_processed w.

Definition path_of (t : thread) : string := src_path (th_event t).

(** The call has entered its path in the set and has not removed it yet:
    the settling window of the path is open. *)
Definition holding (t : thread) : bool :=
  match th_pc t with
  | AtTry | AtFinally _ | AtRemove _ => true
  | _ => false
  end.

(** The call has not passed the duplicate check. *)
Definition waiting (t : thread) : bool :=
  match th_pc t with
  | AtGuard | AtCheck | Discarded => true
  | _ => false
  end.

(** The number of calls for the path [p] that were admitted. *)
Definition admitted_for (p : string) (ts : list thread) : nat :=
  length (List.filter (fun t => admitted t && String.eqb (path_of t) p) ts).

(** Three properties of a configuration, for a path [p] and the call
    number [i0] that holds it. *)

(** Call [i0] is for [p] and was admitted. *)
Definition holder_admitted (p : string) (i0 : nat) (cfg : list thread * World) : Prop :=
  ∃ t0, fst cfg !! i0 = Some t0 ∧ path_of t0 = p ∧ admitted t0 = true.

(** Call [i0] still holds its path. *)
Definition holder_holding (i0 : nat) (cfg : list thread * World) : Prop :=
  ∃ t0, fst cfg !! i0 = Some t0 ∧ holding t0 = true.

(** [p] is in the set and no other call for [p] has passed the check. *)
Definition others_wait (p : string) (i0 : nat) (cfg : list thread * World) : Prop :=
  p ∈ recently_processed (snd cfg)
  ∧ ∀ j t, fst cfg !! j = Some t → j ≠ i0 → path_of t = p → waiting t = true.

(** The three ways in which [clean_metadata] replaces the original, from
    the file system [f] to the file system [f']. *)

(** ExifTool wrote the staged copy and exited with status 0, and the copy
    was moved over the original. *)
Definition replaced_by_exiftool (env : Env) (self : MetadataCleaner) (file_path : string)
           (f f' : FS) : Prop :=
  tool_available self "exiftool" = true
  ∧ ∃ result f1,
      subprocess_run env (exiftool_strip_argv self file_path) f = (Ok result, f1)
      ∧ returncode result = 0
      ∧ shutil_move env (temp_file self file_path) file_path f1 = (Ok tt, f').

(** The image was decoded, its pixels were saved at the staging path, and
    that file was moved over the original. *)
Definition replaced_by_reencoding (env : Env) (self : MetadataCleaner) (file_path : string)
           (f f' : FS) : Prop :=
  Str.in_list (extension_of file_path) image_extensions = true
  ∧ ∃ img data f1,
      Image_open env file_path f = Ok img
      ∧ img_getdata img = Ok data
      ∧ Image_save env (Image_new_putdata (img_mode img) (img_size img) data)
                   (temp_file self file_path) f = (Ok tt, f1)
      ∧ shutil_move env (temp_file self file_path) file_path f1 = (Ok tt, f').

(** qpdf rewrote the file in place and exited with status 0. *)
Definition rewritten_by_qpdf (env : Env) (self : MetadataCleaner) (file_path : string)
           (f f' : FS) : Prop :=
  extension_of file_path = ".pdf"
  ∧ tool_available self "qpdf" = true
  ∧ ∃ result,
      subprocess_run env (qpdf_argv file_path) f = (Ok result, f')
      ∧ returncode result = 0.

From Stdlib Require DecimalString.

(* ===================================================================== *)
(** * The full scan                                                       *)
(* ===================================================================== *)

(** [if len(metadata_str) > 500: metadata_str = metadata_str[:500] + "... [truncado]"] *)
Definition truncate_metadata (metadata_str : string) : string :=
  if (500 <? String.length metadata_str)%nat
  then Str.take 500 metadata_str +:+ "... [truncado]"
  else metadata_str.

(** [str(n)] for a count. *)
Definition str_of_count (n : nat) : string :=
  DecimalString.NilZero.string_of_uint (Nat.to_uint n).

Section Scan.

Variable env : Env.

(** The body of the inner loop of [scan_folder] for one file of the
    directory [root]; [files_with_metadata] is the counter. *)
Definition scan_file (self : MetadataCleaner) (root file : string)
           (files_with_metadata : nat) : M nat :=
  let file_path := PosixPath.join root file in
  r <- has_metadata env self file_path ;;
  if fst r then
    let files_with_metadata := S files_with_metadata in
    relative_path <- lift (os_path_relpath env file_path (folder_path self)) ;;
    metadata_str <- lift (render_metadata env (snd r)) ;;
    let metadata_str := truncate_metadata metadata_str in
    let message :=
      "🔍 <b>Archivo con metadatos detectado:</b>" +:+ nl +:+
      "📁 " +:+ relative_path +:+ nl +:+
      "📊 <pre>" +:+ metadata_str +:+ "</pre>" in
    send_telegram_message env self message ;;
    logger INFO ("Encontrados metadatos en: " +:+ file_path) ;;
    cleaned <- clean_metadata env self file_path ;;
    (if cleaned then
       send_telegram_message env self ("✅ Metadatos eliminados de: " +:+ relative_path) ;;
       logger INFO ("Metadatos eliminados de: " +:+ file_path)
     else
       send_telegram_message env self ("❌ Error al eliminar metadatos de: " +:+ relative_path) ;;
       logger ERROR ("Error al eliminar metadatos de: " +:+ file_path)) ;;
    ret files_with_metadata
  else ret files_with_metadata.

(** [for file in files: ...] *)
Fixpoint scan_files (self : MetadataCleaner) (root : string) (files : list string)
         (files_with_metadata : nat) : M nat :=
  match files with
  | [] => ret files_with_metadata
  | file :: rest =>
      n <- scan_file self root file files_with_metadata ;;
      scan_files self root rest n
  end.

(** [for root, _, files in os.walk(self.folder_path): ...], over the
    triples that [os.walk] yields during the scan, in the order in which it
    yields them. *)
Fixpoint scan_roots (self : MetadataCleaner)
         (walked : list (string * list string * list string))
         (files_with_metadata : nat) : M nat :=
  match walked with
  | [] => ret files_with_metadata
  | (root, _, files) :: rest =>
      if Str.contains (temp_folder self) root
      then scan_roots self rest files_with_metadata
      else
        n <- scan_files self root files files_with_metadata ;;
        scan_roots self rest n
  end.

(** [scan_folder] *)
Definition scan_folder (self : MetadataCleaner)
           (walked : list (string * list string * list string)) : M nat :=
  logger INFO ("Escaneando carpeta: " +:+ folder_path self) ;;
  let files_with_metadata := O in
  files_with_metadata <- scan_roots self walked files_with_metadata ;;
  (if (files_with_metadata =? 0)%nat
   then logger INFO "No se encontraron archivos con metadatos"
   else logger INFO ("Se encontraron " +:+ str_of_count files_with_metadata
                     +:+ " archivos con metadatos")) ;;
  ret files_with_metadata.

End Scan.

(* ===================================================================== *)
(** * Notions used in the further statements                              *)
(* ===================================================================== *)

(** Every run of [m] takes a world to a world that [R] relates to it. *)
Definition within (R : World → World → Prop) {A} (m : M A) : Prop :=
  ∀ w, R w (snd (m w)).

(** From [w] to [w'] nothing but the log has changed. *)
Definition only_logs (w w' : World) : Prop :=
  fs w' = fs w ∧ posted w' = posted w ∧ slept w' = slept w
  ∧ recently_processed w' = recently_processed w.

(** From [w] to [w'] nothing but the log and the file system has changed:
    nothing was sent, no time was spent asleep, and the set of recent paths
    is the same. *)
Definition only_logs_and_files (w w' : World) : Prop :=
  posted w' = posted w ∧ slept w' = slept w
  ∧ recently_processed w' = recently_processed w.

(** From [w] to [w'] no time was spent asleep and the set of recent paths
    is the same. *)
Definition awake_and_same_set (w w' : World) : Prop :=
  slept w' = slept w ∧ recently_processed w' = recently_processed w.

(** The requests sent from [w] to [w'] are [sent], in this order. *)
Definition has_posted (sent : list (string * string * string)) (w w' : World) : Prop :=
  posted w' = (posted w ++ sent)%list.

(** The value is made, at every depth, of numbers, booleans, strings,
    lists, tuples and dicts only: no [None], no [Fraction], no other
    object.  Keys are not looked at. *)
Fixpoint json_safe (v : pyval) : bool :=
  match v with
  | VBool _ | VInt _ | VFloat _ | VStr _ => true
  | VList l | VTuple l => forallb json_safe l
  | VDict d => forallb (fun kv => json_safe (snd kv)) d
  | VNone | VFraction _ | VObject _ => false
  end.

(** The second message of a report: the outcome of the redaction. *)
Definition outcome_message (cleaned : bool) (relative_path : string) : string :=
  if cleaned
  then "✅ Metadatos eliminados de: " +:+ relative_path
  else "❌ Error al eliminar metadatos de: " +:+ relative_path.

(** The first message of a report. *)
Definition detection_message (title relative_path rendered : string) : string :=
  title +:+ nl +:+ "📁 " +:+ relative_path +:+ nl +:+
  "📊 <pre>" +:+ truncate_metadata rendered +:+ "</pre>".

(** The paths that a scan inspects: the files of the directories that
    [os.walk] yields, those with the staging folder in their path apart. *)
Definition scanned_files (self : MetadataCleaner)
           (walked : list (string * list string * list string)) : list string :=
  flat_map (fun triple =>
              if Str.contains (temp_folder self) (fst (fst triple))
              then []
              else List.map (PosixPath.join (fst (fst triple))) (snd triple))
           walked.

(** The result of [m] and the file system it leaves depend on the world
    through its file system only. *)
Definition fs_only {A} (m : M A) : Prop :=
  ∀ w w', fs w = fs w' →
          fst (m w) = fst (m w') ∧ fs (snd (m w)) = fs (snd (m w')).

(** What a scan finds among [paths]: the files for which [has_metadata]
    answers [True], in the order of the scan and each with its snapshot,
    where every file is inspected in the world that the inspections and the
    redactions of the files before it have left; and the world left at the
    end.  Reports and log lines of the scan are not part of it. *)
Fixpoint inspections (env : Env) (self : MetadataCleaner) (paths : list string) (w : World)
  : list (string * pydict) * World :=
  match paths with
  | [] => ([], w)
  | path :: rest =>
      let asked := has_metadata env self path w in
      match fst asked with
      | Ok (true, snapshot) =>
          let later :=
            inspections env self rest (snd (clean_metadata env self path (snd asked))) in
          ((path, snapshot) :: fst later, snd later)
      | _ => inspections env self rest (snd asked)
      end
  end.

(** For a file found with its snapshot, the relative path and the rendering
    of the snapshot are obtained. *)
Definition rendered (env : Env) (self : MetadataCleaner) (entry : string * pydict) : Prop :=
  (∃ relative_path, os_path_relpath env (fst entry) (folder_path self) = Ok relative_path)
  ∧ ∃ metadata_str, render_metadata env (snd entry) = Ok metadata_str.

(** The Fractions in a value, at every depth. *)
Fixpoint fractions_of (v : pyval) : list Q :=
  match v with
  | VFraction q => [q]
  | VList l | VTuple l => flat_map fractions_of l
  | VDict d => flat_map (fun kv => fractions_of (snd kv)) d
  | _ => []
  end.

(** From [w] to [w'], [n] requests were sent. *)
Definition posted_count (n : nat) (w w' : World) : Prop :=
  length (posted w') = (length (posted w) + n)%nat.

(** Every path in the set of recent paths is the path of a call that has
    entered it and not left its handler yet. *)
Definition set_is_held (cfg : list thread * World) : Prop :=
  ∀ p, p ∈ recently_processed (snd cfg) →
       ∃ i t, fst cfg !! i = Some t ∧ path_of t = p ∧ holding t = true.

(** The call has returned or raised. *)
Definition terminated (t : thread) : bool :=
  match th_pc t with
  | Discarded | Finished | Failed _ => true
  | _ => false
  end.

(** The keys of [img.info] that say nothing about the picture, by name. *)
Definition structural_info_key (k : pykey) : Prop :=
  k = KStr "dpi" ∨ k = KStr "jfif" ∨ k = KStr "jfif_version"
  ∨ k = KStr "jfif_unit" ∨ k = KStr "jfif_density".

(** [img._getexif], where the image has it, returns. *)
Definition getexif_returns (img : PILImage) : Prop :=
  match img_getexif img with
  | Some (Raise _) => False
  | _ => True
  end.

(** [img._getexif()] returns a dict that is not empty. *)
Definition has_exif (img : PILImage) : Prop :=
  ∃ item items, img_getexif img = Some (Ok (Some (item :: items))).

(** An image without EXIF entries whose [info] has structural keys only. *)
Definition bare (img : PILImage) : Prop :=
  (img_getexif img = None ∨ img_getexif img = Some (Ok None)
   ∨ img_getexif img = Some (Ok (Some [])))
  ∧ ∀ kv, In kv (img_info img) → structural_info_key (fst kv).

(** The environment [env] with another [Image.open], [json.dumps] or
    [requests.post]. *)
Definition with_Image_open (open : string → FS → result PILImage) (env : Env) : Env :=
  {| subprocess_run := subprocess_run env; json_loads := json_loads env;
     json_dumps := json_dumps env; py_str := py_str env;
     py_float := py_float env;
     Image_open := open; Image_save := Image_save env; TAGS := TAGS env;
     shutil_move := shutil_move env; os_makedirs := os_makedirs env;
     os_path_abspath := os_path_abspath env; os_path_relpath := os_path_relpath env;
     requests_post := requests_post env |}.

Definition with_json_dumps (dumps : pyval → result string) (env : Env) : Env :=
  {| subprocess_run := subprocess_run env; json_loads := json_loads env;
     json_dumps := dumps; py_str := py_str env;
     py_float := py_float env;
     Image_open := Image_open env; Image_save := Image_save env; TAGS := TAGS env;
     shutil_move := shutil_move env; os_makedirs := os_makedirs env;
     os_path_abspath := os_path_abspath env; os_path_relpath := os_path_relpath env;
     requests_post := requests_post env |}.

Definition with_requests_post (post : string → string → string → result (Z * string))
           (env : Env) : Env :=
  {| subprocess_run := subprocess_run env; json_loads := json_loads env;
     json_dumps := json_dumps env; py_str := py_str env;
     py_float := py_float env;
     Image_open := Image_open env; Image_save := Image_save env; TAGS := TAGS env;
     shutil_move := shutil_move env; os_makedirs := os_makedirs env;
     os_path_abspath := os_path_abspath env; os_path_relpath := os_path_relpath env;
     requests_post := post |}.

(** An [Image.open] that tells a file with EXIF data (content [IMG+exif])
    from one with pixels alone (content [IMG], as [Sim.save_image] writes
    it).  The latter still has the [info] entries of its format: [jfif] and
    [dpi], and for a TIFF file [compression] and [dpi]. *)
Definition open_by_content (p : string) (f : FS) : result PILImage :=
  match f !! p with
  | None => Raise (mk_exn FileNotFoundError p)
  | Some c =>
      if String.eqb c "IMG+exif"
      then Ok {| img_mode := "RGB"; img_size := (1, 1); img_getdata := Ok [0];
                 img_getexif := Some (Ok (Some [(274, VInt 6)]));
                 img_info := [(KStr "dpi", VTuple [VInt 72; VInt 72])] |}
      else if String.eqb c "IMG"
      then Ok {| img_mode := "RGB"; img_size := (1, 1); img_getdata := Ok [0];
                 img_getexif := Some (Ok None);
                 img_info :=
                   if Str.in_list (extension_of p) [".tif"; ".tiff"]
                   then [(KStr "compression", VStr "raw");
                         (KStr "dpi", VTuple [VInt 72; VInt 72])]
                   else [(KStr "jfif", VInt 257); (KStr "dpi", VTuple [VInt 72; VInt 72])] |}
      else Raise (mk_exn UnidentifiedImageError p)
  end.
(* ===================================================================== *)
(** * The model on small inputs                                          *)
(* ===================================================================== *)

Example splitext_plain : PosixPath.splitext "/w/a/Photo.JPG" = ("/w/a/Photo", ".JPG").
Proof. reflexivity. Qed.
Example splitext_dotfile : PosixPath.splitext "/w/.bashrc" = ("/w/.bashrc", "").
Proof. reflexivity. Qed.
Example splitext_dir_dot : PosixPath.splitext "/w.d/readme" = ("/w.d/readme", "").
Proof. reflexivity. Qed.
Example splitext_two : PosixPath.splitext "a.tar.gz" = ("a.tar", ".gz").
Proof. reflexivity. Qed.
Example splitext_trailing_dot : PosixPath.splitext "/w/a." = ("/w/a", ".").
Proof. reflexivity. Qed.
Example splitext_only_dots : PosixPath.splitext "/w/..." = ("/w/...", "").
Proof. reflexivity. Qed.
Example basename_plain : PosixPath.basename "/w/a/x.jpg" = "x.jpg".
Proof. reflexivity. Qed.
Example basename_none : PosixPath.basename "x.jpg" = "x.jpg".
Proof. reflexivity. Qed.
Example join_plain : PosixPath.join "/w" "_temp_metadata_cleaner" = "/w/_temp_metadata_cleaner".
Proof. reflexivity. Qed.
Example join_root : PosixPath.join "/" "x" = "/x".
Proof. reflexivity. Qed.
Example lower_ext : Str.lower ".JpEg" = ".jpeg".
Proof. reflexivity. Qed.
Example contains_mid : Str.contains "/w/_t" "/w/_t/x.jpg" = true.
Proof. reflexivity. Qed.
Example permission_is_oserror : issubclass PermissionError OSError = true.
Proof. reflexivity. Qed.
Example probe_catches_timeout :
  caught_by [FileNotFoundError; SubprocessError] (mk_exn TimeoutExpired "") = true.
Proof. reflexivity. Qed.
Example probe_misses_permission :
  caught_by [FileNotFoundError; SubprocessError] (mk_exn PermissionError "") = false.
Proof. reflexivity. Qed.

(* ===================================================================== *)
(** * Lemmas on strings and lists                                         *)
(* ===================================================================== *)

Lemma prefix_append (t s : string) : String.prefix t (t +:+ s) = true.
Proof.
  induction t as [|a t IH]; simpl.
  - destruct s; reflexivity.
  - destruct (ascii_dec a a); [exact IH | congruence].
Qed.

Lemma contains_prefix (t s : string) : String.prefix t s = true → Str.contains t s = true.
Proof. intros H. destruct s; simpl in *; rewrite H; reflexivity. Qed.

Lemma contains_append (t s : string) : Str.contains t (t +:+ s) = true.
Proof. apply contains_prefix, prefix_append. Qed.

Lemma in_list_In (x : string) (l : list string) : Str.in_list x l = true ↔ In x l.
Proof.
  unfold Str.in_list. rewrite existsb_exists. split.
  - intros (y & Hy & Heq). apply String.eqb_eq in Heq. subst. exact Hy.
  - intros Hin. exists x. split; [exact Hin | apply String.eqb_refl].
Qed.

(** Unfolds the monad; what is left is a case analysis on the environment. *)
Ltac unfold_M :=
  unfold try_except, try_finally, bind, ret, raise, lift, on_fs, read_fs,
         logger, time_sleep, os_path_exists in *.

(* ===================================================================== *)
(** * Events from the staging directory                                   *)
(* ===================================================================== *)

Lemma inside_staging_ignored (h : MetadataEventHandler) (event : FileSystemEvent) :
  inside_staging h (src_path event) → ignored h event = true.
Proof.
  intros [rest Hrest]. unfold ignored. rewrite Hrest, contains_append.
  apply orb_true_r.
Qed.

(** The staging directory of a cleaner built by [__init__] is
    [<watched-root>/_temp_metadata_cleaner], and the handler copies it. *)
Lemma init_temp_folder (env : Env) (folder token chat : string) (ival : Z)
      (w w' : World) (self : MetadataCleaner) :
  MetadataCleaner_init env folder token chat ival w = (Ok self, w') →
  temp_folder self = PosixPath.join (os_path_abspath env folder) "_temp_metadata_cleaner"
  ∧ folder_path self = os_path_abspath env folder.
Proof.
  unfold MetadataCleaner_init. unfold_M. intros H.
  destruct (os_makedirs env _ (fs w)) as [[[]|e] f1]; [|discriminate].
  destruct (_check_required_tools env _) as [[tools|e] w1]; [|discriminate].
  cbv beta in H.
  destruct (send_telegram_message env _ _ _) as [[b|e] w2]; [|discriminate].
  injection H as <- _. split; reflexivity.
Qed.

Lemma handler_init_temp_folder (c : MetadataCleaner) (w : World) :
  ∃ h, MetadataEventHandler_init c w = (Ok h, with_recently ∅ w)
       ∧ handler_temp_folder h = temp_folder c ∧ cleaner h = c.
Proof. eexists. split; [reflexivity | split; reflexivity]. Qed.

(** C8.  A create or modify event whose path lies inside the staging
    directory [<watched-root>/_temp_metadata_cleaner/] is discarded at the
    first test of the handler: the call returns with the world as it was,
    so nothing was logged, inspected, rewritten, sent or delayed, and the
    set of recent paths is untouched. *)
Theorem staging_event_discarded (env : Env) (h : MetadataEventHandler)
        (event : FileSystemEvent) (w : World) :
  inside_staging h (src_path event) →
  on_created env h event w = (Ok tt, w)
  ∧ on_modified env h event w = (Ok tt, w)
  ∧ ∀ kind, thread_step env h kind event AtGuard w = (Discarded, w).
Proof.
  intros Hin. apply inside_staging_ignored in Hin.
  unfold on_created, on_modified, thread_step. rewrite Hin.
  repeat split; reflexivity.
Qed.

Lemma staging_event_discarded_witness :
  let h := Sim.a_handler ∅ in
  let event := {| is_directory := false;
                  src_path := "/w/_temp_metadata_cleaner/holiday.jpg" |} in
  let w := Sim.world (<["/w/_temp_metadata_cleaner/holiday.jpg" := "IMG"]> ∅) in
  inside_staging h (src_path event)
  ∧ on_created (Sim.make Sim.no_programs) h event w = (Ok tt, w)
  ∧ on_modified (Sim.make Sim.no_programs) h event w = (Ok tt, w).
Proof.
  intros h event w.
  assert (Hin : inside_staging h (src_path event)) by (exists "holiday.jpg"; reflexivity).
  split; [exact Hin |].
  destruct (staging_event_discarded (Sim.make Sim.no_programs) h event w Hin) as (Hc & Hm & _).
  split; [exact Hc | exact Hm].
Defined.

(* ===================================================================== *)
(** * The inspector                                                       *)
(* ===================================================================== *)

Lemma caught_by_Exception (e : exn) : caught_by [Exception] e = true.
Proof. destruct e as [c m]. destruct c; reflexivity. Qed.

Lemma try_except_Exception {A} (m : M A) (handler : exn → M A) (w : World) :
  try_except m [Exception] handler w =
  match m w with
  | (Ok a, w') => (Ok a, w')
  | (Raise e, w') => handler e w'
  end.
Proof.
  unfold try_except. destruct (m w) as [[a|e] w']; [reflexivity |].
  rewrite caught_by_Exception. reflexivity.
Qed.

(** [get_metadata_with_exiftool] has no exceptional exit. *)
Lemma get_metadata_with_exiftool_returns (env : Env) (self : MetadataCleaner)
      (file_path : string) (w : World) :
  ∃ v w', get_metadata_with_exiftool env self file_path w = (Ok v, w').
Proof.
  unfold get_metadata_with_exiftool.
  destruct (negb (tool_available self "exiftool")); [eexists _, _; reflexivity |].
  rewrite try_except_Exception.
  destruct (exiftool_query env file_path w) as [[v|e] w']; eexists _, _; reflexivity.
Qed.

(** C5.  With ExifTool available, a failure to run the query, a nonzero
    exit status or output that cannot be read as a snapshot (it is not JSON,
    or the first element of the JSON value cannot be taken or is not a
    mapping) makes [has_metadata] return [(False, {})]; the failure is
    logged as one error, and the world is otherwise what the run of
    ExifTool has left. *)
Theorem inspector_fails_open (env : Env) (self : MetadataCleaner)
        (file_path : string) (w : World) :
  tool_available self "exiftool" = true →
  exiftool_query_fails env file_path (fs w) →
  ∃ msg,
    has_metadata env self file_path w =
    (Ok (false, []),
     with_logs (logs w ++ [(ERROR, msg)])
               (with_fs (snd (subprocess_run env ["exiftool"; "-json"; file_path] (fs w))) w)).
Proof.
  intros Havail Hfail.
  unfold exiftool_query_fails in Hfail.
  unfold has_metadata, has_metadata_body. rewrite Havail.
  unfold get_metadata_with_exiftool. rewrite Havail. cbn [negb].
  rewrite try_except_Exception.
  unfold bind at 1. rewrite try_except_Exception.
  unfold exiftool_query, run. unfold_M.
  destruct (subprocess_run env _ (fs w)) as [[result|e] f1]; cbn [fst snd] in *.
  - destruct Hfail as [Hrc | Hout].
    + apply Z.eqb_neq in Hrc. rewrite Hrc. cbn. eexists. reflexivity.
    + destruct (returncode result =? 0); cbn; [| eexists; reflexivity].
      unfold unreadable_output in Hout.
      destruct (json_loads env (stdout result)) as [metadata|e]; cbn;
        [| eexists; reflexivity].
      destruct Hout as [Htruthy Hshape]. rewrite Htruthy.
      destruct (subscript0 metadata) as [first|e]; cbn; [| eexists; reflexivity].
      destruct first; try contradiction; cbn; eexists; reflexivity.
  - cbn. eexists. reflexivity.
Qed.

Lemma inspector_fails_open_witness :
  let env := Sim.make (fun argv f => (Ok (Sim.completed 1 ""), f)) in
  let self := Sim.a_cleaner (<["exiftool" := true]> ∅) in
  let w := Sim.world (<["/w/broken.jpg" := "???"]> ∅) in
  tool_available self "exiftool" = true
  ∧ exiftool_query_fails env "/w/broken.jpg" (fs w)
  ∧ ∃ msg, has_metadata env self "/w/broken.jpg" w =
           (Ok (false, []), with_logs (logs w ++ [(ERROR, msg)]) w).
Proof.
  intros env self w.
  assert (Ha : tool_available self "exiftool" = true) by reflexivity.
  assert (Hf : exiftool_query_fails env "/w/broken.jpg" (fs w)) by (left; discriminate).
  split; [exact Ha |]. split; [exact Hf |].
  exact (inspector_fails_open env self "/w/broken.jpg" w Ha Hf).
Defined.

(** The test [k not in [...]] of the code against the names of the design
    document. *)
Lemma key_in_excluded_fields (k : pykey) :
  key_in k excluded_fields = true ↔ structural_field k.
Proof.
  unfold structural_field. destruct k as [s|n]; cbn [key_in].
  - rewrite in_list_In. cbn [excluded_fields In]. split.
    + intros [<- | [<- | [<- | [<- | [<- | []]]]]]; auto 6.
    + intros [H | [H | [H | [H | H]]]]; injection H as ->; auto 6.
  - split; [discriminate | intros [H | [H | [H | [H | H]]]]; discriminate].
Qed.

(** What the comprehension keeps: the entries whose key is not a structural
    field, and only those. *)
Lemma filter_excluded_spec (d : pydict) (kv : pykey * pyval) :
  In kv (filter_excluded d) ↔ In kv d ∧ ¬ structural_field (fst kv).
Proof.
  unfold filter_excluded. rewrite List.filter_In, <- key_in_excluded_fields.
  destruct (key_in (fst kv) excluded_fields); cbn [negb]; intuition congruence.
Qed.

Lemma filter_excluded_sublist (d : pydict) : sublist (filter_excluded d) d.
Proof.
  unfold filter_excluded. induction d as [|kv d IH]; cbn [List.filter]; [constructor |].
  destruct (negb _); [apply sublist_skip | apply sublist_cons]; exact IH.
Qed.

Lemma filter_excluded_nonempty (d : pydict) :
  filter_excluded d ≠ [] ↔ ∃ kv, In kv d ∧ ¬ structural_field (fst kv).
Proof.
  split.
  - destruct (filter_excluded d) as [|kv rest] eqn:Hf; [congruence |]. intros _.
    exists kv. apply filter_excluded_spec. rewrite Hf. left. reflexivity.
  - intros (kv & Hkv). apply filter_excluded_spec in Hkv. intros Hnil.
    rewrite Hnil in Hkv. exact Hkv.
Qed.

Lemma filter_excluded_only (d : pydict) :
  only_excluded_fields d → filter_excluded d = [].
Proof.
  intros Hall. destruct (filter_excluded d) as [|kv rest] eqn:Hf; [reflexivity |].
  assert (Hin : In kv (filter_excluded d)) by (rewrite Hf; left; reflexivity).
  apply filter_excluded_spec in Hin as [Hin Hkeep]. contradiction (Hkeep (Hall kv Hin)).
Qed.

Lemma dict_nonempty_true (d : pydict) : dict_nonempty d = true ↔ d ≠ [].
Proof. destruct d; simpl; split; congruence. Qed.

(** With ExifTool available [has_metadata] is decided by the value that
    [get_metadata_with_exiftool] returns. *)
Lemma has_metadata_exiftool_unfold (env : Env) (self : MetadataCleaner)
      (file_path : string) (w : World) :
  tool_available self "exiftool" = true →
  has_metadata env self file_path w =
  match get_metadata_with_exiftool env self file_path w with
  | (Ok (VDict d), w') => (Ok (dict_nonempty (filter_excluded d), filter_excluded d), w')
  | (Ok _, w') =>
      (Ok (false, []),
       with_logs (logs w' ++ [(ERROR, "Error al verificar metadatos de " +:+ file_path +:+ ": "
                                      +:+ "object has no attribute 'items'")]) w')
  | (Raise e, w') =>
      (Ok (false, []),
       with_logs (logs w' ++ [(ERROR, "Error al verificar metadatos de " +:+ file_path +:+ ": "
                                      +:+ exn_msg e)]) w')
  end.
Proof.
  intros Havail. unfold has_metadata, has_metadata_body. rewrite Havail.
  rewrite try_except_Exception. unfold bind at 1.
  destruct (get_metadata_with_exiftool env self file_path w) as [[v|e] w']; [|reflexivity].
  destruct v; reflexivity.
Qed.

(** C7.  With ExifTool available, [has_metadata] answers [True] exactly when
    the mapping obtained from the tool has a field that is not one of
    FileSize, FileName, FileType, MIMEType and ExifToolVersion.  The
    snapshot it returns holds the fields of the mapping that are not among
    these five, with their values and in their order, and no other; so a
    mapping that is empty or has only these fields gives [(False, {})]. *)
Theorem inspector_filters_structural_fields (env : Env) (self : MetadataCleaner)
        (file_path : string) (w : World) :
  tool_available self "exiftool" = true →
  (∀ d w', get_metadata_with_exiftool env self file_path w = (Ok (VDict d), w') →
           ∃ answer snapshot,
             has_metadata env self file_path w = (Ok (answer, snapshot), w')
             ∧ (answer = true ↔ ∃ kv, In kv d ∧ ¬ structural_field (fst kv))
             ∧ (∀ kv, In kv snapshot ↔ In kv d ∧ ¬ structural_field (fst kv))
             ∧ sublist snapshot d)
  ∧ (∃ answer snapshot w',
       has_metadata env self file_path w = (Ok (answer, snapshot), w')
       ∧ (answer = true ↔
          ∃ d, fst (get_metadata_with_exiftool env self file_path w) = Ok (VDict d)
               ∧ ∃ kv, In kv d ∧ ¬ structural_field (fst kv)))
  ∧ (∀ d w', get_metadata_with_exiftool env self file_path w = (Ok (VDict d), w') →
             only_excluded_fields d →
             has_metadata env self file_path w = (Ok (false, []), w')).
Proof.
  intros Havail.
  pose proof (has_metadata_exiftool_unfold env self file_path w Havail) as Hunf.
  split; [|split].
  - intros d w' Hget. rewrite Hunf, Hget. eexists _, _. split; [reflexivity |].
    split; [| split].
    + rewrite dict_nonempty_true. apply filter_excluded_nonempty.
    + apply filter_excluded_spec.
    + apply filter_excluded_sublist.
  - destruct (get_metadata_with_exiftool env self file_path w) as [[v|e] w1] eqn:Hget.
    + destruct v;
        try (eexists _, _, _; split; [exact Hunf |];
             split; [discriminate | intros (d & Hd & _); cbn in Hd; discriminate]).
      eexists _, _, _. split; [exact Hunf |].
      rewrite dict_nonempty_true, filter_excluded_nonempty. cbn [fst]. split.
      * intros Hne. exists d. split; [reflexivity | exact Hne].
      * intros (d' & Hd' & Hne). injection Hd' as <-. exact Hne.
    + eexists _, _, _. split; [exact Hunf |].
      split; [discriminate | intros (d & Hd & _); cbn in Hd; discriminate].
  - intros d w' Hget Honly. rewrite Hunf, Hget.
    rewrite (filter_excluded_only d Honly). reflexivity.
Qed.

Lemma inspector_filters_structural_fields_witness :
  let env := Sim.make (fun argv f => (Ok (Sim.completed 0 "[sizes]"), f)) in
  let self := Sim.a_cleaner (<["exiftool" := true]> ∅) in
  let w := Sim.world (<["/w/plain.png" := "IMG"]> ∅) in
  tool_available self "exiftool" = true
  ∧ has_metadata env self "/w/plain.png" w = (Ok (false, []), w).
Proof.
  intros env self w.
  assert (Ha : tool_available self "exiftool" = true) by reflexivity.
  split; [exact Ha |].
  destruct (inspector_filters_structural_fields env self "/w/plain.png" w Ha) as (_ & _ & H).
  apply (H [(KStr "FileSize", VStr "1 kB"); (KStr "MIMEType", VStr "image/png")]).
  - reflexivity.
  - intros kv [<- | [<- | []]]; unfold structural_field; cbn [fst]; auto 6.
Defined.

Example has_metadata_author_field :
  fst (has_metadata (Sim.make (fun argv f => (Ok (Sim.completed 0 "[author]"), f)))
                    (Sim.a_cleaner (<["exiftool" := true]> ∅)) "/w/a.pdf" (Sim.world ∅))
  = Ok (true, [(KStr "Author", VStr "someone")]).
Proof. reflexivity. Qed.

Example not_a_mapping_is_a_failure :
  exiftool_query_fails (Sim.make (fun argv f => (Ok (Sim.completed 0 "[5]"), f)))
                       "/w/a.pdf" ∅.
Proof. right. split; [reflexivity | exact I]. Qed.

Example has_metadata_not_a_mapping :
  fst (has_metadata (Sim.make (fun argv f => (Ok (Sim.completed 0 "[5]"), f)))
                    (Sim.a_cleaner (<["exiftool" := true]> ∅)) "/w/a.pdf" (Sim.world ∅))
  = Ok (false, []).
Proof. reflexivity. Qed.

(** Splits membership in a literal list into one goal for each element. *)
Ltac each_extension H ext :=
  apply in_list_In in H; simpl in H;
  repeat (destruct H as [H | H]; [rewrite <- H; clear H ext |]);
  try contradiction.

(** C6.  Without ExifTool, a file whose lower-cased extension is in the
    document list or in the media list is reported as having metadata, with
    the fixed warning of its list as snapshot; a file whose extension is in
    none of the image, document and media lists is reported clean with an
    empty snapshot.  Neither case touches the world. *)
Theorem inspector_without_exiftool (env : Env) (self : MetadataCleaner)
        (file_path : string) (w : World) :
  tool_available self "exiftool" = false →
  (Str.in_list (extension_of file_path) document_extensions = true →
   has_metadata env self file_path w =
   (Ok (true, [(KStr "warning", VStr "Archivo potencialmente con metadatos")]), w))
  ∧ (Str.in_list (extension_of file_path) media_extensions = true →
     has_metadata env self file_path w =
     (Ok (true, [(KStr "warning", VStr "Archivo multimedia potencialmente con metadatos")]), w))
  ∧ (Str.in_list (extension_of file_path) image_extensions = false →
     Str.in_list (extension_of file_path) document_extensions = false →
     Str.in_list (extension_of file_path) media_extensions = false →
     has_metadata env self file_path w = (Ok (false, []), w)).
Proof.
  intros Havail. unfold has_metadata, has_metadata_body.
  rewrite Havail, try_except_Exception.
  remember (extension_of file_path) as ext eqn:Hext. clear Hext.
  split; [|split].
  - intros Hdoc. each_extension Hdoc ext; reflexivity.
  - intros Hmedia. each_extension Hmedia ext; reflexivity.
  - intros Himg Hdoc Hmedia. rewrite Himg, Hdoc, Hmedia. reflexivity.
Qed.

Lemma inspector_without_exiftool_witness :
  let env := Sim.make Sim.no_programs in
  let self := Sim.a_cleaner (<["exiftool" := false]> ∅) in
  let w := Sim.world ∅ in
  tool_available self "exiftool" = false
  ∧ has_metadata env self "/w/Report.DOCX" w =
    (Ok (true, [(KStr "warning", VStr "Archivo potencialmente con metadatos")]), w)
  ∧ has_metadata env self "/w/song.mp3" w =
    (Ok (true, [(KStr "warning", VStr "Archivo multimedia potencialmente con metadatos")]), w)
  ∧ has_metadata env self "/w/notes.txt" w = (Ok (false, []), w).
Proof.
  intros env self w.
  assert (Ha : tool_available self "exiftool" = false) by reflexivity.
  split; [exact Ha |].
  split; [| split].
  - apply (inspector_without_exiftool env self "/w/Report.DOCX" w Ha). reflexivity.
  - apply (inspector_without_exiftool env self "/w/song.mp3" w Ha). reflexivity.
  - apply (inspector_without_exiftool env self "/w/notes.txt" w Ha); reflexivity.
Defined.

(* ===================================================================== *)
(** * The redactor                                                        *)
(* ===================================================================== *)

(** The ExifTool attempt when the invocation fails: the failure is logged,
    nothing is moved, and control falls through. *)
Lemma clean_with_exiftool_failed (env : Env) (self : MetadataCleaner)
      (file_path : string) (w : World) :
  tool_available self "exiftool" = true →
  exiftool_strip_fails env self file_path (fs w) →
  ∃ msg, clean_with_exiftool env self file_path w =
         (Ok false,
          with_logs (logs w ++ [(ERROR, msg)])
                    (with_fs (snd (subprocess_run env (exiftool_strip_argv self file_path) (fs w))) w)).
Proof.
  intros Havail Hfail. unfold exiftool_strip_fails, exiftool_strip_argv in *.
  unfold clean_with_exiftool. rewrite Havail, try_except_Exception.
  unfold exiftool_strip, run. unfold_M.
  destruct (subprocess_run env _ (fs w)) as [[result|e] f1]; cbn [fst snd] in *.
  - apply Z.eqb_neq in Hfail. rewrite Hfail. cbn. eexists. reflexivity.
  - eexists. reflexivity.
Qed.

(** C4.  For a file with extension [.pdf] (in any case), when ExifTool is
    available but its invocation fails, and qpdf is available and exits
    with status 0, [clean_metadata] returns [True]. *)
Theorem pdf_fallback_chain (env : Env) (self : MetadataCleaner)
        (file_path : string) (w : World) :
  extension_of file_path = ".pdf" →
  tool_available self "exiftool" = true →
  tool_available self "qpdf" = true →
  exiftool_strip_fails env self file_path (fs w) →
  qpdf_succeeds env file_path
                (snd (subprocess_run env (exiftool_strip_argv self file_path) (fs w))) →
  fst (clean_metadata env self file_path w) = Ok true.
Proof.
  intros Hext Hexif Hqpdf Hfail (result & Hrun & Hrc).
  destruct (clean_with_exiftool_failed env self file_path w Hexif Hfail) as [msg Hstep].
  unfold clean_metadata. rewrite try_except_Exception.
  unfold clean_metadata_body. unfold bind at 1. rewrite Hstep.
  unfold clean_by_extension. rewrite Hext.
  cbn [String.eqb Ascii.eqb Bool.eqb].
  unfold clean_pdf. rewrite Hqpdf. unfold bind at 1. rewrite try_except_Exception.
  unfold qpdf_linearize, run, qpdf_argv in *. unfold_M. cbn [fs with_logs with_fs].
  destruct (subprocess_run env _ _) as [r f2]. cbn [fst] in Hrun. subst r.
  apply Z.eqb_eq in Hrc. rewrite Hrc. reflexivity.
Qed.

Lemma pdf_fallback_chain_witness :
  let env := Sim.make (Sim.install [("exiftool", Sim.exits_with 1); ("qpdf", Sim.qpdf 0)]) in
  let self := Sim.a_cleaner (<["qpdf" := true]> (<["exiftool" := true]> ∅)) in
  let w := Sim.world (<["/w/docs/Paper.PDF" := "%PDF"]> ∅) in
  extension_of "/w/docs/Paper.PDF" = ".pdf"
  ∧ exiftool_strip_fails env self "/w/docs/Paper.PDF" (fs w)
  ∧ fst (clean_metadata env self "/w/docs/Paper.PDF" w) = Ok true.
Proof.
  intros env self w.
  assert (Hext : extension_of "/w/docs/Paper.PDF" = ".pdf") by reflexivity.
  assert (Hfail : exiftool_strip_fails env self "/w/docs/Paper.PDF" (fs w))
    by (vm_compute; discriminate).
  split; [exact Hext |]. split; [exact Hfail |].
  apply (pdf_fallback_chain env self "/w/docs/Paper.PDF" w Hext); try reflexivity.
  - exact Hfail.
  - exists (Sim.completed 0 ""). split; vm_compute; reflexivity.
Defined.

(* ===================================================================== *)
(** * The capability probe                                                *)
(* ===================================================================== *)

(** C3, as the code has it.  When each of the two version queries either
    runs, with whatever exit status, or fails with [FileNotFoundError] or a
    [SubprocessError], the probe returns normally, and it records a tool as
    installed exactly when its query ran: a missing binary gives [False], a
    binary that runs and exits with a nonzero status gives [True]. *)
Theorem probe_classifies_by_launch (env : Env) (w : World) :
  let exiftool := subprocess_run env ["exiftool"; "-ver"] (fs w) in
  let qpdf := subprocess_run env ["qpdf"; "--version"] (snd exiftool) in
  launch_handled (fst exiftool) →
  launch_handled (fst qpdf) →
  ∃ w', _check_required_tools env w =
        (Ok (<["qpdf" := launched (fst qpdf)]> (<["exiftool" := launched (fst exiftool)]> ∅)), w')
        ∧ fs w' = snd qpdf.
Proof.
  intros exiftool qpdf H1 H2. subst exiftool qpdf.
  unfold _check_required_tools, run. unfold_M.
  destruct (subprocess_run env ["exiftool"; "-ver"] (fs w)) as [[r1|e1] f1];
    cbn [fst snd launch_handled launched] in *.
  - cbn [fs with_logs with_fs].
    destruct (subprocess_run env ["qpdf"; "--version"] f1) as [[r2|e2] f2];
      cbn [fst snd launch_handled launched] in *.
    + eexists. split; reflexivity.
    + rewrite H2. eexists. split; reflexivity.
  - rewrite H1. cbn [fs with_logs with_fs].
    destruct (subprocess_run env ["qpdf"; "--version"] f1) as [[r2|e2] f2];
      cbn [fst snd launch_handled launched] in *.
    + eexists. split; reflexivity.
    + rewrite H2. eexists. split; reflexivity.
Qed.

Lemma probe_classifies_by_launch_witness :
  let env := Sim.make (Sim.install [("qpdf", Sim.qpdf 0)]) in
  let w := Sim.world ∅ in
  launch_handled (fst (subprocess_run env ["exiftool"; "-ver"] (fs w)))
  ∧ ∃ w', _check_required_tools env w =
          (Ok (<["qpdf" := true]> (<["exiftool" := false]> ∅)), w').
Proof.
  intros env w.
  assert (H1 : launch_handled (fst (subprocess_run env ["exiftool"; "-ver"] (fs w))))
    by reflexivity.
  split; [exact H1 |].
  destruct (probe_classifies_by_launch env w H1 I) as (w' & Hrun & _).
  exists w'. exact Hrun.
Defined.

(** C3 as stated fails: a binary that is present and exits with a nonzero
    status is recorded as installed, and a binary that is present but cannot
    be executed makes the probe raise. *)
Lemma probe_nonzero_exit_is_installed :
  (∃ tools w',
      _check_required_tools (Sim.make (Sim.install [("exiftool", Sim.exits_with 1)]))
                            (Sim.world ∅) = (Ok tools, w')
      ∧ tools !! "exiftool" = Some true)
  ∧ (∃ e w',
        _check_required_tools (Sim.make (Sim.install [("exiftool", Sim.not_executable)]))
                              (Sim.world ∅) = (Raise e, w')
        ∧ exn_cls e = PermissionError).
Proof.
  split.
  - eexists _, _. split; [vm_compute; reflexivity | vm_compute; reflexivity].
  - eexists _, _. split; [vm_compute; reflexivity | reflexivity].
Qed.

(* ===================================================================== *)
(** * Staging paths                                                       *)
(* ===================================================================== *)

(** What follows the index found by [rfind] does not hold the character. *)
Lemma rfind_from_drop (c : ascii) (s : string) (i last : Z) :
  last < i →
  has_char c (Str.drop (Z.to_nat (Str.rfind_from c s i last + 1 - i)) s) = false
  ∧ (Str.rfind_from c s i last = last ∨ i ≤ Str.rfind_from c s i last).
Proof.
  revert i last. induction s as [|a s IH]; intros i last Hlt; simpl.
  - split; [destruct (Z.to_nat _); reflexivity | left; reflexivity].
  - set (last' := if Ascii.eqb a c then i else last).
    assert (Hlt' : last' < i + 1) by (subst last'; destruct (Ascii.eqb a c); lia).
    destruct (IH (i + 1) last' Hlt') as [Hdrop Hpos].
    set (r := Str.rfind_from c s (i + 1) last') in *.
    destruct Hpos as [Heq | Hge].
    + subst last'. destruct (Ascii.eqb a c) eqn:Hac.
      * rewrite Heq in *. replace (i + 1 - i) with 1 by lia.
        replace (i + 1 - (i + 1)) with 0 in Hdrop by lia.
        simpl in *. split; [exact Hdrop | right; lia].
      * rewrite Heq in *.
        replace (Z.to_nat (last + 1 - i)) with 0%nat by lia.
        replace (Z.to_nat (last + 1 - (i + 1))) with 0%nat in Hdrop by lia.
        simpl in *. rewrite Hac, Hdrop. split; [reflexivity | left; reflexivity].
    + replace (Z.to_nat (r + 1 - i)) with (S (Z.to_nat (r + 1 - (i + 1)))) by lia.
      simpl. split; [exact Hdrop | right; lia].
Qed.

Lemma basename_no_separator (p : string) : has_char "/" (PosixPath.basename p) = false.
Proof.
  unfold PosixPath.basename, Str.slice_from, Str.rfind.
  destruct (rfind_from_drop "/" p 0 (-1)) as [H _]; [lia |].
  replace (Str.rfind_from "/" p 0 (-1) + 1 - 0) with (Str.rfind_from "/" p 0 (-1) + 1) in H by lia.
  exact H.
Qed.

Lemma no_separator_not_absolute (b : string) :
  has_char "/" b = false → Str.startswith "/" b = false.
Proof.
  destruct b as [|a b]; [reflexivity |]. intros H. simpl in H.
  apply orb_false_iff in H as [Ha _].
  unfold Str.startswith.
  change (String.prefix "/" (String a b))
    with (if ascii_dec "/" a then String.prefix "" b else false).
  destruct (ascii_dec "/" a) as [<-|]; [discriminate | reflexivity].
Qed.

Lemma append_inj_l (t a b : string) : t +:+ a = t +:+ b → a = b.
Proof.
  induction t as [|c t IH]; simpl; intros H; [exact H |].
  injection H as H. exact (IH H).
Qed.

(** [join] is injective in a relative second argument. *)
Lemma join_inj_relative (t a b : string) :
  Str.startswith "/" a = false → Str.startswith "/" b = false →
  PosixPath.join t a = PosixPath.join t b → a = b.
Proof.
  intros Ha Hb. unfold PosixPath.join. rewrite Ha, Hb.
  destruct (String.eqb t "" || Str.endswith_char "/" t); intros H.
  - exact (append_inj_l _ _ _ H).
  - apply append_inj_l in H. simpl in H. injection H as H. exact H.
Qed.

(** C9, as the code has it.  The staging path of a file depends only on the
    base name of its path: two source paths get the same staging path
    exactly when their base names are equal, so files with different base
    names never share a staging path, and files of the same name in
    different directories do. *)
Theorem staging_path_by_basename (self : MetadataCleaner) (p1 p2 : string) :
  temp_file self p1 = temp_file self p2 ↔ PosixPath.basename p1 = PosixPath.basename p2.
Proof.
  unfold temp_file. split.
  - apply join_inj_relative; apply no_separator_not_absolute, basename_no_separator.
  - intros ->. reflexivity.
Qed.

(** C9 as stated fails: two distinct files of the same name in two
    sub-directories of the watched root get one staging path. *)
Lemma staging_paths_collide :
  "/w/album/img_001.jpg" ≠ "/w/backup/img_001.jpg"
  ∧ temp_file (Sim.a_cleaner ∅) "/w/album/img_001.jpg"
    = temp_file (Sim.a_cleaner ∅) "/w/backup/img_001.jpg".
Proof. split; [discriminate | reflexivity]. Qed.

Example staging_path_value :
  temp_file (Sim.a_cleaner ∅) "/w/album/img_001.jpg" = "/w/_temp_metadata_cleaner/img_001.jpg".
Proof. reflexivity. Qed.

(* ===================================================================== *)
(** * No exception leaves the inspector or the redactor                   *)
(* ===================================================================== *)

Lemma has_metadata_returns (env : Env) (self : MetadataCleaner) (file_path : string)
      (w : World) :
  ∃ answer snapshot w', has_metadata env self file_path w = (Ok (answer, snapshot), w').
Proof.
  unfold has_metadata. rewrite try_except_Exception.
  destruct (has_metadata_body env self file_path w) as [[[answer snapshot]|e] w'];
    eexists _, _, _; reflexivity.
Qed.

Lemma clean_pdf_returns (env : Env) (self : MetadataCleaner) (file_path : string)
      (w : World) :
  ∃ cleaned w', clean_pdf env self file_path w = (Ok cleaned, w').
Proof.
  unfold clean_pdf. unfold bind at 1.
  destruct (tool_available self "qpdf").
  - rewrite try_except_Exception.
    destruct (qpdf_linearize env file_path w) as [[[]|e] w']; eexists _, _; reflexivity.
  - eexists _, _; reflexivity.
Qed.

Lemma clean_image_returns (env : Env) (self : MetadataCleaner) (file_path : string)
      (w : World) :
  ∃ cleaned w', clean_image env self file_path w = (Ok cleaned, w').
Proof.
  unfold clean_image. rewrite try_except_Exception.
  destruct (image_reencode env self file_path w) as [[b|e] w']; eexists _, _; reflexivity.
Qed.

Lemma clean_by_extension_returns (env : Env) (self : MetadataCleaner) (file_path : string)
      (w : World) :
  ∃ cleaned w', clean_by_extension env self file_path w = (Ok cleaned, w').
Proof.
  unfold clean_by_extension.
  destruct (String.eqb _ ".pdf"); [apply clean_pdf_returns |].
  destruct (Str.in_list _ image_extensions); [apply clean_image_returns |].
  destruct (Str.in_list _ office_extensions); [eexists _, _; reflexivity |].
  destruct (Str.in_list _ media_extensions); eexists _, _; reflexivity.
Qed.

Lemma clean_with_exiftool_returns (env : Env) (self : MetadataCleaner) (file_path : string)
      (w : World) :
  ∃ returned w', clean_with_exiftool env self file_path w = (Ok returned, w').
Proof.
  unfold clean_with_exiftool.
  destruct (tool_available self "exiftool"); [| eexists _, _; reflexivity].
  rewrite try_except_Exception.
  destruct (exiftool_strip env self file_path w) as [[b|e] w']; eexists _, _; reflexivity.
Qed.

Lemma clean_metadata_body_returns (env : Env) (self : MetadataCleaner) (file_path : string)
      (w : World) :
  ∃ cleaned w', clean_metadata_body env self file_path w = (Ok cleaned, w').
Proof.
  unfold clean_metadata_body. unfold bind at 1.
  destruct (clean_with_exiftool_returns env self file_path w) as (b & w1 & ->).
  destruct b; [eexists _, _; reflexivity | apply clean_by_extension_returns].
Qed.

Lemma clean_metadata_returns (env : Env) (self : MetadataCleaner) (file_path : string)
      (w : World) :
  ∃ cleaned w', clean_metadata env self file_path w = (Ok cleaned, w').
Proof.
  unfold clean_metadata. rewrite try_except_Exception.
  destruct (clean_metadata_body_returns env self file_path w) as (b & w' & ->).
  eexists _, _; reflexivity.
Qed.

(** C10, as the code has it.  [has_metadata] and [clean_metadata] return
    normally on every path and in every world.  In [has_metadata] an
    exception raised by the ExifTool query, by the image probe or anywhere
    else in its body gives [(False, {})].  In [clean_metadata] an exception
    raised by the qpdf step or by the image re-encoding gives [False]; an
    exception raised by the ExifTool attempt is logged and the result is
    that of the per-extension method, which can be [True]. *)
Theorem inspector_and_redactor_return (env : Env) (self : MetadataCleaner)
        (file_path : string) (w : World) :
  (∃ answer snapshot w', has_metadata env self file_path w = (Ok (answer, snapshot), w'))
  ∧ (∃ cleaned w', clean_metadata env self file_path w = (Ok cleaned, w'))
  ∧ (∀ e w1, has_metadata_body env self file_path w = (Raise e, w1) →
             fst (has_metadata env self file_path w) = Ok (false, []))
  ∧ (∀ e w1, tool_available self "exiftool" = true →
             exiftool_query env file_path w = (Raise e, w1) →
             fst (has_metadata env self file_path w) = Ok (false, []))
  ∧ (∀ e w1, tool_available self "exiftool" = false →
             Str.in_list (extension_of file_path) image_extensions = true →
             image_probe env file_path w = (Raise e, w1) →
             fst (has_metadata env self file_path w) = Ok (false, []))
  ∧ (∀ w0 e w1, extension_of file_path = ".pdf" →
                qpdf_linearize env file_path w0 = (Raise e, w1) →
                fst (clean_by_extension env self file_path w0) = Ok false)
  ∧ (∀ w0 e w1, Str.in_list (extension_of file_path) image_extensions = true →
                image_reencode env self file_path w0 = (Raise e, w1) →
                fst (clean_by_extension env self file_path w0) = Ok false)
  ∧ (∀ e w1, tool_available self "exiftool" = true →
             exiftool_strip env self file_path w = (Raise e, w1) →
             clean_metadata env self file_path w =
             clean_by_extension env self file_path
               (with_logs (logs w1 ++ [(ERROR, "Error con ExifTool: " +:+ exn_msg e)]) w1)).
Proof.
  split; [apply has_metadata_returns |].
  split; [apply clean_metadata_returns |].
  split; [| split; [| split; [| split; [| split]]]].
  - intros e w1 Hbody. unfold has_metadata.
    rewrite try_except_Exception, Hbody. reflexivity.
  - intros e w1 Havail Hquery.
    rewrite (has_metadata_exiftool_unfold env self file_path w Havail).
    unfold get_metadata_with_exiftool. rewrite Havail. cbn [negb].
    rewrite try_except_Exception, Hquery. reflexivity.
  - intros e w1 Havail Himg Hprobe. unfold has_metadata, has_metadata_body.
    rewrite Havail, Himg, !try_except_Exception, Hprobe. reflexivity.
  - intros w0 e w1 Hext Hq. unfold clean_by_extension. rewrite Hext.
    cbn [String.eqb Ascii.eqb Bool.eqb]. unfold clean_pdf. unfold bind at 1.
    destruct (tool_available self "qpdf"); [| reflexivity].
    rewrite try_except_Exception, Hq. reflexivity.
  - intros w0 e w1 Himg Hre. unfold clean_by_extension.
    destruct (String.eqb _ ".pdf") eqn:Hpdf.
    + apply String.eqb_eq in Hpdf. rewrite Hpdf in Himg. discriminate.
    + rewrite Himg. unfold clean_image. rewrite try_except_Exception, Hre. reflexivity.
  - intros e w1 Havail Hstrip. unfold clean_metadata.
    rewrite try_except_Exception. unfold clean_metadata_body. unfold bind at 1.
    unfold clean_with_exiftool. rewrite Havail, try_except_Exception, Hstrip.
    unfold_M.
    destruct (clean_by_extension_returns env self file_path
                (with_logs (logs w1 ++ [(ERROR, "Error con ExifTool: " +:+ exn_msg e)]) w1))
      as (b & w' & Hrest).
    cbn beta iota. rewrite Hrest. reflexivity.
Qed.

(** C10 as stated fails for the redactor: ExifTool cannot be started, the
    exception is caught, and qpdf then cleans the file: the call returns
    [True], not [False]. *)
Lemma redactor_exception_then_cleaned :
  let env := Sim.make (Sim.install [("exiftool", Sim.exiftool_unstartable);
                                    ("qpdf", Sim.qpdf 0)]) in
  let self := Sim.a_cleaner (<["qpdf" := true]> (<["exiftool" := true]> ∅)) in
  let w := Sim.world (<["/w/a.pdf" := "%PDF"]> ∅) in
  exiftool_strip env self "/w/a.pdf" w = (Raise (mk_exn OSError "Too many open files"), w)
  ∧ fst (clean_metadata env self "/w/a.pdf" w) = Ok true
  ∧ logs (snd (clean_metadata env self "/w/a.pdf" w))
    = [(ERROR, "Error con ExifTool: Too many open files")].
Proof. repeat split; vm_compute; reflexivity. Qed.

(* ===================================================================== *)
(** * A failed redaction and the original file                            *)
(* ===================================================================== *)

Section Original.

Variable env : Env.
Variable self : MetadataCleaner.
Variable file_path : string.

Hypothesis exiftool_contract : exiftool_writes_staging_only env self file_path.
Hypothesis save_contract : save_writes_staging_only env self file_path.
Hypothesis move_contract : failed_move_keeps_original env self file_path.
Hypothesis staging_elsewhere : temp_file self file_path ≠ file_path.

(** The ExifTool attempt: it returned [True] after the move, or the file
    is as before. *)
Lemma clean_with_exiftool_untouched :
  true_or_untouched file_path (clean_with_exiftool env self file_path).
Proof.
  intros w. unfold clean_with_exiftool.
  destruct (tool_available self "exiftool"); [| right; reflexivity].
  rewrite !try_except_Exception. unfold exiftool_strip, run. unfold_M.
  pose proof (exiftool_contract (fs w) file_path (not_eq_sym staging_elsewhere)) as Hrun.
  unfold exiftool_strip_argv in Hrun.
  destruct (subprocess_run env _ (fs w)) as [[result|e] f1]; cbn [fst snd] in *.
  - destruct (returncode result =? 0); cbn [negb fst snd fs with_logs with_fs].
    + pose proof (move_contract f1) as Hmove.
      destruct (shutil_move env _ _ f1) as [[[]|e] f2]; cbn [fst snd fs with_logs with_fs].
      * left. reflexivity.
      * right. rewrite (Hmove e f2 eq_refl). exact Hrun.
    + right. exact Hrun.
  - right. exact Hrun.
Qed.

Lemma clean_image_untouched :
  true_or_untouched file_path (clean_image env self file_path).
Proof.
  intros w. unfold clean_image. rewrite !try_except_Exception.
  unfold image_reencode. unfold_M.
  destruct (Image_open env file_path (fs w)) as [img|e]; [| right; reflexivity].
  destruct (img_getdata img) as [data|e]; [| right; reflexivity].
  pose proof (save_contract (Image_new_putdata (img_mode img) (img_size img) data)
                            (fs w) file_path (not_eq_sym staging_elsewhere)) as Hsave.
  destruct (Image_save env _ _ (fs w)) as [[[]|e] f1]; cbn [fst snd fs with_logs with_fs] in *.
  - pose proof (move_contract f1) as Hmove.
    destruct (shutil_move env _ _ f1) as [[[]|e] f2]; cbn [fst snd fs with_logs with_fs].
    + left. reflexivity.
    + right. rewrite (Hmove e f2 eq_refl). exact Hsave.
  - right. exact Hsave.
Qed.

(** The PDF branch needs no contract: it returned [True], or it did not
    touch the file system, or qpdf ran in place and did not end with
    status 0. *)
Lemma clean_pdf_outcomes (w : World) :
  extension_of file_path = ".pdf" →
  fst (clean_pdf env self file_path w) = Ok true
  ∨ fs (snd (clean_pdf env self file_path w)) = fs w
  ∨ qpdf_failed_in_place env self file_path (fs w) (fs (snd (clean_pdf env self file_path w))).
Proof.
  intros Hext. unfold clean_pdf, qpdf_failed_in_place. unfold bind.
  destruct (tool_available self "qpdf"); [| right; left; reflexivity].
  rewrite !try_except_Exception. unfold qpdf_linearize, run, qpdf_argv. unfold_M.
  destruct (subprocess_run env _ (fs w)) as [[result|e] f1]; cbn [fst snd fs with_logs with_fs].
  - destruct (returncode result =? 0) eqn:Hrc; cbn [fst snd fs with_logs with_fs].
    + left. reflexivity.
    + right. right. split; [exact Hext |]. split; [reflexivity |].
      split; [reflexivity | apply Z.eqb_neq; exact Hrc].
  - right. right. split; [exact Hext |]. split; [reflexivity |].
    split; [reflexivity | exact I].
Qed.

Lemma clean_by_extension_outcomes (w : World) :
  fst (clean_by_extension env self file_path w) = Ok true
  ∨ fs (snd (clean_by_extension env self file_path w)) !! file_path = fs w !! file_path
  ∨ qpdf_failed_in_place env self file_path (fs w)
                         (fs (snd (clean_by_extension env self file_path w))).
Proof.
  unfold clean_by_extension.
  destruct (String.eqb _ ".pdf") eqn:Hpdf.
  { apply String.eqb_eq in Hpdf.
    destruct (clean_pdf_outcomes w Hpdf) as [H | [H | H]];
      [left; exact H | right; left; rewrite H; reflexivity | right; right; exact H]. }
  destruct (Str.in_list _ image_extensions).
  { destruct (clean_image_untouched w) as [H | H]; [left | right; left]; exact H. }
  destruct (Str.in_list _ office_extensions); [right; left; reflexivity |].
  destruct (Str.in_list _ media_extensions); right; left; reflexivity.
Qed.

Lemma clean_metadata_outcomes (w : World) :
  let after_exiftool := fs (snd (clean_with_exiftool env self file_path w)) in
  let final := fs (snd (clean_metadata env self file_path w)) in
  fst (clean_metadata env self file_path w) = Ok true
  ∨ final !! file_path = fs w !! file_path
  ∨ (after_exiftool !! file_path = fs w !! file_path
     ∧ qpdf_failed_in_place env self file_path after_exiftool final).
Proof.
  cbv zeta. unfold clean_metadata. rewrite !try_except_Exception.
  unfold clean_metadata_body. unfold bind.
  destruct (clean_with_exiftool_untouched w) as [Hexif | Hexif];
    destruct (clean_with_exiftool_returns env self file_path w) as (b & w1 & Hb);
    rewrite Hb in *; cbn [fst snd] in *.
  - injection Hexif as ->. left. reflexivity.
  - destruct b; [left; reflexivity |].
    destruct (clean_by_extension_outcomes w1) as [Hext | [Hext | Hext]];
      destruct (clean_by_extension_returns env self file_path w1) as (c & w2 & Hc);
      rewrite Hc in *; cbn [fst snd] in *.
    + left. exact Hext.
    + right. left. rewrite Hext. exact Hexif.
    + right. right. split; [exact Hexif | exact Hext].
Qed.

End Original.

(** How a call that returns [True] has replaced the original. *)

Lemma clean_with_exiftool_true (env : Env) (self : MetadataCleaner) (file_path : string)
      (w w1 : World) :
  clean_with_exiftool env self file_path w = (Ok true, w1) →
  replaced_by_exiftool env self file_path (fs w) (fs w1).
Proof.
  unfold clean_with_exiftool, replaced_by_exiftool, exiftool_strip_argv.
  destruct (tool_available self "exiftool"); [| discriminate].
  rewrite try_except_Exception. unfold exiftool_strip, run. unfold_M.
  destruct (subprocess_run env _ (fs w)) as [[result|e] f1] eqn:Hrun; [| discriminate].
  destruct (returncode result =? 0) eqn:Hrc; cbn [negb fs with_fs with_logs]; [| discriminate].
  destruct (shutil_move env _ _ f1) as [[[]|e] f2] eqn:Hmove; [| discriminate].
  intros H. injection H as <-. cbn [fs with_fs].
  split; [reflexivity |]. exists result, f1.
  split; [first [exact Hrun | reflexivity] |].
  split; [apply Z.eqb_eq, Hrc | first [exact Hmove | reflexivity]].
Qed.

Lemma clean_pdf_true (env : Env) (self : MetadataCleaner) (file_path : string)
      (w w' : World) :
  extension_of file_path = ".pdf" →
  clean_pdf env self file_path w = (Ok true, w') →
  rewritten_by_qpdf env self file_path (fs w) (fs w').
Proof.
  intros Hext. unfold clean_pdf, rewritten_by_qpdf, qpdf_argv. unfold bind.
  destruct (tool_available self "qpdf"); [| discriminate].
  rewrite try_except_Exception. unfold qpdf_linearize, run. unfold_M.
  destruct (subprocess_run env _ (fs w)) as [[result|e] f1] eqn:Hrun; [| discriminate].
  destruct (returncode result =? 0) eqn:Hrc; cbn [fs with_fs with_logs]; [| discriminate].
  intros H. injection H as <-. cbn [fs with_fs].
  split; [exact Hext |]. split; [reflexivity |].
  exists result. split; [first [exact Hrun | reflexivity] | apply Z.eqb_eq, Hrc].
Qed.

Lemma clean_image_true (env : Env) (self : MetadataCleaner) (file_path : string)
      (w w' : World) :
  Str.in_list (extension_of file_path) image_extensions = true →
  clean_image env self file_path w = (Ok true, w') →
  replaced_by_reencoding env self file_path (fs w) (fs w').
Proof.
  intros Himg. unfold clean_image, replaced_by_reencoding.
  rewrite try_except_Exception. unfold image_reencode. unfold_M.
  destruct (Image_open env file_path (fs w)) as [img|e] eqn:Hopen; [| discriminate].
  destruct (img_getdata img) as [data|e] eqn:Hdata; [| discriminate].
  destruct (Image_save env _ _ (fs w)) as [[[]|e] f1] eqn:Hsave; [| discriminate].
  cbn [fs with_fs with_logs].
  destruct (shutil_move env _ _ f1) as [[[]|e] f2] eqn:Hmove; [| discriminate].
  intros H. injection H as <-. cbn [fs with_fs].
  split; [exact Himg |]. exists img, data, f1.
  split; [reflexivity |]. split; [first [exact Hdata | reflexivity] |].
  split; [first [exact Hsave | reflexivity] | first [exact Hmove | reflexivity]].
Qed.

Lemma clean_by_extension_true (env : Env) (self : MetadataCleaner) (file_path : string)
      (w w' : World) :
  clean_by_extension env self file_path w = (Ok true, w') →
  replaced_by_reencoding env self file_path (fs w) (fs w')
  ∨ rewritten_by_qpdf env self file_path (fs w) (fs w').
Proof.
  unfold clean_by_extension.
  destruct (String.eqb _ ".pdf") eqn:Hpdf.
  { apply String.eqb_eq in Hpdf. intros H. right. exact (clean_pdf_true _ _ _ _ _ Hpdf H). }
  destruct (Str.in_list _ image_extensions) eqn:Himg.
  { intros H. left. exact (clean_image_true _ _ _ _ _ Himg H). }
  destruct (Str.in_list _ office_extensions); [discriminate |].
  destruct (Str.in_list _ media_extensions); discriminate.
Qed.

Lemma clean_metadata_true (env : Env) (self : MetadataCleaner) (file_path : string)
      (w : World) :
  fst (clean_metadata env self file_path w) = Ok true →
  let after_exiftool := fs (snd (clean_with_exiftool env self file_path w)) in
  let final := fs (snd (clean_metadata env self file_path w)) in
  replaced_by_exiftool env self file_path (fs w) final
  ∨ replaced_by_reencoding env self file_path after_exiftool final
  ∨ rewritten_by_qpdf env self file_path after_exiftool final.
Proof.
  unfold clean_metadata. rewrite try_except_Exception.
  unfold clean_metadata_body. unfold bind.
  destruct (clean_with_exiftool env self file_path w) as [[[]|e] w1] eqn:Hexif; cbn [fst snd].
  - intros _. left. exact (clean_with_exiftool_true _ _ _ _ _ Hexif).
  - destruct (clean_by_extension env self file_path w1) as [[[]|e] w2] eqn:Hext;
      cbn [fst snd]; try discriminate.
    intros _. right. exact (clean_by_extension_true _ _ _ _ _ Hext).
  - discriminate.
Qed.

(** C1, as the code has it.  Take a file whose staging path is not the
    path itself, and for which [exiftool -o] and [Image.save] write only
    the staging file and a [shutil.move] that raises leaves its destination
    alone.  When [clean_metadata] does not return [True], the file at the
    path is what it was before the call, with one exception: the file is a
    PDF, qpdf is available, the file reached the PDF branch unchanged, and
    the qpdf run in place there could not be started or did not exit with
    status 0; the file is then what that run left.  So for a file that is
    no PDF, or without qpdf, a call that does not return [True] leaves the
    original as it was, whatever qpdf does.  A call that returns [True] has
    replaced the original in one of three ways: ExifTool exited with status
    0 after writing the staged copy, which was then moved over the
    original; or the image was saved at the staging path and that file was
    moved over the original; or, for a PDF, qpdf rewrote the file in place,
    with no staged copy. *)
Theorem failed_redaction_keeps_original (env : Env) (self : MetadataCleaner)
        (file_path : string) (w : World) :
  exiftool_writes_staging_only env self file_path →
  save_writes_staging_only env self file_path →
  failed_move_keeps_original env self file_path →
  temp_file self file_path ≠ file_path →
  let after_exiftool := fs (snd (clean_with_exiftool env self file_path w)) in
  let final := fs (snd (clean_metadata env self file_path w)) in
  (fst (clean_metadata env self file_path w) ≠ Ok true →
   final !! file_path = fs w !! file_path
   ∨ (after_exiftool !! file_path = fs w !! file_path
      ∧ qpdf_failed_in_place env self file_path after_exiftool final))
  ∧ (fst (clean_metadata env self file_path w) ≠ Ok true →
     extension_of file_path ≠ ".pdf" ∨ tool_available self "qpdf" = false →
     final !! file_path = fs w !! file_path)
  ∧ (fst (clean_metadata env self file_path w) = Ok true →
     replaced_by_exiftool env self file_path (fs w) final
     ∨ replaced_by_reencoding env self file_path after_exiftool final
     ∨ rewritten_by_qpdf env self file_path after_exiftool final).
Proof.
  intros Hexif Hsave Hmove Hstaging after_exiftool final.
  pose proof (clean_metadata_outcomes env self file_path Hexif Hsave Hmove Hstaging w)
    as Hout.
  cbv zeta in Hout. fold after_exiftool final in Hout.
  split; [| split].
  - intros Hfailed. destruct Hout as [Htrue | Hrest]; [contradiction | exact Hrest].
  - intros Hfailed Hnot.
    destruct Hout as [Htrue | [Hsame | (_ & Hpdf & Hqpdf & _)]];
      [contradiction | exact Hsame |].
    destruct Hnot as [Hnot | Hnot]; [contradiction | congruence].
  - apply clean_metadata_true.
Qed.

(** The small environment keeps to the contracts, whatever its qpdf does. *)
Lemma sim_save_contract programs self file_path :
  save_writes_staging_only (Sim.make programs) self file_path.
Proof.
  intros img f p Hne. cbn. apply lookup_insert_ne. congruence.
Qed.

Lemma sim_move_contract programs self file_path :
  failed_move_keeps_original (Sim.make programs) self file_path.
Proof.
  intros f e f'. cbn. unfold Sim.move.
  destruct (f !! temp_file self file_path); intros H; [discriminate |].
  injection H as _ <-. reflexivity.
Qed.

Lemma sim_exiftool_contract qpdf_status self file_path :
  exiftool_writes_staging_only
    (Sim.make (Sim.install [("exiftool", Sim.exiftool); ("qpdf", Sim.qpdf qpdf_status)]))
    self file_path.
Proof.
  intros f p Hne. unfold exiftool_strip_argv. cbn.
  destruct (f !! file_path); [| reflexivity].
  destruct (f !! temp_file self file_path); [reflexivity |].
  cbn. apply lookup_insert_ne. congruence.
Qed.

Lemma failed_redaction_keeps_original_witness :
  let env := Sim.make (Sim.install [("exiftool", Sim.exiftool); ("qpdf", Sim.qpdf 3)]) in
  let self := Sim.a_cleaner (<["qpdf" := true]> (<["exiftool" := true]> ∅)) in
  let w := Sim.world (<["/w/_temp_metadata_cleaner/talk.pptx" := "stale"]>
                        (<["/w/talk.pptx" := "PK"]> ∅)) in
  temp_file self "/w/talk.pptx" ≠ "/w/talk.pptx"
  ∧ fst (clean_metadata env self "/w/talk.pptx" w) = Ok false
  ∧ fs (snd (clean_metadata env self "/w/talk.pptx" w)) !! "/w/talk.pptx" = Some "PK".
Proof.
  intros env self w.
  assert (Hstaging : temp_file self "/w/talk.pptx" ≠ "/w/talk.pptx") by discriminate.
  assert (Hfalse : fst (clean_metadata env self "/w/talk.pptx" w) = Ok false)
    by (vm_compute; reflexivity).
  split; [exact Hstaging |]. split; [exact Hfalse |].
  rewrite (proj1 (proj2 (failed_redaction_keeps_original env self "/w/talk.pptx" w
                           (sim_exiftool_contract 3 _ _) (sim_save_contract _ _ _)
                           (sim_move_contract _ _ _) Hstaging))).
  - vm_compute. reflexivity.
  - rewrite Hfalse. discriminate.
  - left. vm_compute. discriminate.
Defined.

(** C1 as stated fails on the PDF method, which rewrites the file in
    place: qpdf writes its output over the input and reports warnings with
    exit status 3, [clean_metadata] answers [False], and the file is no
    longer the one that was there; no staged copy was ever made. *)
Lemma failed_redaction_changes_pdf :
  let env := Sim.make (Sim.install [("qpdf", Sim.qpdf 3)]) in
  let self := Sim.a_cleaner (<["qpdf" := true]> (<["exiftool" := false]> ∅)) in
  let w := Sim.world (<["/w/scan.pdf" := "%PDF"]> ∅) in
  fst (clean_metadata env self "/w/scan.pdf" w) = Ok false
  ∧ fs w !! "/w/scan.pdf" = Some "%PDF"
  ∧ fs (snd (clean_metadata env self "/w/scan.pdf" w)) !! "/w/scan.pdf" = Some "linearized"
  ∧ fs (snd (clean_metadata env self "/w/scan.pdf" w)) !! temp_file self "/w/scan.pdf" = None.
Proof. repeat split; vm_compute; reflexivity. Qed.

(** The PDF method replaces the original without a staged copy also when
    it succeeds. *)
Example pdf_rewritten_in_place :
  let env := Sim.make (Sim.install [("qpdf", Sim.qpdf 0)]) in
  let self := Sim.a_cleaner (<["qpdf" := true]> (<["exiftool" := false]> ∅)) in
  let w := Sim.world (<["/w/scan.pdf" := "%PDF"]> ∅) in
  clean_metadata env self "/w/scan.pdf" w
  = (Ok true, Sim.world (<["/w/scan.pdf" := "linearized"]> ∅)).
Proof. vm_compute. reflexivity. Qed.

(** The staged methods at work: ExifTool, and the image re-encoding. *)
Example exiftool_staged_copy_moved :
  let env := Sim.make (Sim.install [("exiftool", Sim.exiftool)]) in
  let self := Sim.a_cleaner (<["exiftool" := true]> ∅) in
  let w := Sim.world (<["/w/a.jpg" := "IMG+exif"]> ∅) in
  clean_metadata env self "/w/a.jpg" w = (Ok true, Sim.world (<["/w/a.jpg" := "IMG"]> ∅)).
Proof. vm_compute. reflexivity. Qed.

(* ===================================================================== *)
(** * The set of recent paths                                             *)
(* ===================================================================== *)

(** Only the handlers touch [recently_processed]. *)

Lemma keeps_ret {A} (a : A) : keeps_recently (ret a).
Proof. intros w. reflexivity. Qed.

Lemma keeps_lift {A} (r : result A) : keeps_recently (lift r).
Proof. intros w. reflexivity. Qed.

Lemma keeps_logger (lvl : log_level) (msg : string) : keeps_recently (logger lvl msg).
Proof. intros w. reflexivity. Qed.

Lemma keeps_time_sleep (n : Z) : keeps_recently (time_sleep n).
Proof. intros w. reflexivity. Qed.

Lemma keeps_on_fs {A} (f : FS → result A * FS) : keeps_recently (on_fs f).
Proof. intros w. unfold on_fs. destruct (f (fs w)). reflexivity. Qed.

Lemma keeps_read_fs {A} (f : FS → A) : keeps_recently (read_fs f).
Proof. intros w. reflexivity. Qed.

Lemma keeps_bind {A B} (m : M A) (k : A → M B) :
  keeps_recently m → (∀ a, keeps_recently (k a)) → keeps_recently (bind m k).
Proof.
  intros Hm Hk w. unfold bind. specialize (Hm w).
  destruct (m w) as [[a|e] w1]; cbn [snd] in *; [| exact Hm].
  rewrite (Hk a w1). exact Hm.
Qed.

Lemma keeps_try_except {A} (m : M A) (classes : list exn_class) (handler : exn → M A) :
  keeps_recently m → (∀ e, keeps_recently (handler e)) →
  keeps_recently (try_except m classes handler).
Proof.
  intros Hm Hh w. unfold try_except. specialize (Hm w).
  destruct (m w) as [[a|e] w1]; cbn [snd] in *; [exact Hm |].
  destruct (caught_by classes e); [| exact Hm].
  rewrite (Hh e w1). exact Hm.
Qed.

Create HintDb keeps.
#[local] Hint Resolve keeps_ret keeps_lift keeps_logger keeps_time_sleep
  keeps_on_fs keeps_read_fs : keeps.

(** Walks through a program of the monad. *)
Ltac keeps :=
  cbv zeta;
  repeat first
    [ solve [auto with keeps]
    | apply keeps_bind; [| intros ?]
    | apply keeps_try_except; [| intros ?]
    | match goal with
      | |- keeps_recently (if ?b then _ else _) => destruct b
      | |- keeps_recently (match ?x with _ => _ end) => destruct x
      end
    | solve [intros ?; reflexivity] ].

Lemma keeps_send_telegram_message env self message :
  keeps_recently (send_telegram_message env self message).
Proof. unfold send_telegram_message. keeps. Qed.

Lemma keeps_has_metadata env self file_path :
  keeps_recently (has_metadata env self file_path).
Proof.
  unfold has_metadata, has_metadata_body, get_metadata_with_exiftool, exiftool_query,
    image_probe, image_metadata, run.
  keeps.
Qed.

Lemma keeps_clean_metadata env self file_path :
  keeps_recently (clean_metadata env self file_path).
Proof.
  unfold clean_metadata, clean_metadata_body, clean_with_exiftool, exiftool_strip,
    clean_by_extension, clean_pdf, qpdf_linearize, clean_image, image_reencode, run.
  keeps.
Qed.

#[local] Hint Resolve keeps_send_telegram_message keeps_has_metadata
  keeps_clean_metadata : keeps.

Lemma keeps_report_and_clean env h title path metadata :
  keeps_recently (report_and_clean env h title path metadata).
Proof. unfold report_and_clean. keeps. Qed.

#[local] Hint Resolve keeps_report_and_clean : keeps.

Lemma keeps_created_try env h event : keeps_recently (created_try env h event).
Proof. unfold created_try, os_path_exists. keeps. Qed.

Lemma keeps_modified_try env h event : keeps_recently (modified_try env h event).
Proof. unfold modified_try, os_path_exists. keeps. Qed.

(* ===================================================================== *)
(** * Duplicate events                                                    *)
(* ===================================================================== *)

Ltac step_inv H := cbn in H; injection H as <- <-.

Ltac world_fields :=
  cbn [with_slept with_recently recently_processed fs logs posted slept] in *.

(** Names the six steps of a call that runs alone. *)
Ltac six_steps env h kind event w :=
  cbv beta iota delta [run_alone fold_left seq fst snd];
  destruct (thread_step env h kind event AtGuard w) as [pc1 w1] eqn:H1;
  destruct (thread_step env h kind event pc1 w1) as [pc2 w2] eqn:H2;
  destruct (thread_step env h kind event pc2 w2) as [pc3 w3] eqn:H3;
  destruct (thread_step env h kind event pc3 w3) as [pc4 w4] eqn:H4;
  destruct (thread_step env h kind event pc4 w4) as [pc5 w5] eqn:H5;
  destruct (thread_step env h kind event pc5 w5) as [pc6 w6] eqn:H6.

(** The end of both handlers: the [finally] block after the [try] block. *)
Ltac finally_steps r w' event H5 H6 :=
  cbn [thread_step] in H5; unfold release;
  unfold bind, time_sleep, recently_contains in *; world_fields;
  let Hin := fresh "Hin" in
  destruct (bool_decide (src_path event ∈ recently_processed w')) eqn:Hin;
  [ injection H5 as <- <-; cbn [thread_step] in H6;
    unfold recently_remove in *; world_fields;
    rewrite Hin in *; injection H6 as <- <-; destruct r as [[]|?]; reflexivity
  | injection H5 as <- <-; cbn [ret];
    destruct r as [[]|?]; cbn in H6; injection H6 as <- <-; reflexivity ].

(** A call that runs alone is the handler of the source. *)
Lemma run_alone_created env h event w :
  on_created env h event w =
  (outcome (fst (run_alone env h Created event w)), snd (run_alone env h Created event w)).
Proof.
  unfold on_created. six_steps env h Created event w.
  cbn [thread_step] in H1.
  destruct (ignored h event).
  { step_inv H1. step_inv H2. step_inv H3. step_inv H4. step_inv H5. step_inv H6.
    reflexivity. }
  injection H1 as <- <-.
  unfold bind at 1. cbn [thread_step] in H2. unfold recently_contains in *.
  destruct (bool_decide (src_path event ∈ recently_processed w)).
  { step_inv H2. step_inv H3. step_inv H4. step_inv H5. step_inv H6. reflexivity. }
  step_inv H2. step_inv H3.
  unfold bind at 1. unfold recently_add at 1. unfold bind at 1. unfold time_sleep at 1.
  unfold try_finally.
  cbn [thread_step] in H4. unfold try_block, bind, time_sleep in H4.
  world_fields.
  destruct (created_try env h event _) as [r w']. injection H4 as <- <-.
  finally_steps r w' event H5 H6.
Qed.

Lemma run_alone_modified env h event w :
  on_modified env h event w =
  (outcome (fst (run_alone env h Modified event w)), snd (run_alone env h Modified event w)).
Proof.
  unfold on_modified. six_steps env h Modified event w.
  cbn [thread_step] in H1.
  destruct (ignored h event).
  { step_inv H1. step_inv H2. step_inv H3. step_inv H4. step_inv H5. step_inv H6.
    reflexivity. }
  injection H1 as <- <-.
  unfold bind at 1. cbn [thread_step] in H2. unfold recently_contains in *.
  destruct (bool_decide (src_path event ∈ recently_processed w)).
  { step_inv H2. step_inv H3. step_inv H4. step_inv H5. step_inv H6. reflexivity. }
  step_inv H2. step_inv H3.
  unfold bind at 1. unfold recently_add at 1.
  unfold try_finally.
  cbn [thread_step] in H4. unfold try_block in H4. world_fields.
  destruct (modified_try env h event _) as [r w']. injection H4 as <- <-.
  finally_steps r w' event H5 H6.
Qed.

Section Window.

Variable env : Env.
Variable h : MetadataEventHandler.

(** ** One step of one call *)

Lemma keeps_try_block kind event : keeps_recently (try_block env h kind event).
Proof.
  destruct kind; cbn [try_block].
  - apply keeps_bind; [apply keeps_time_sleep | intros _; apply keeps_created_try].
  - apply keeps_modified_try.
Qed.

Lemma step_admitted kind event at_ w :
  admitted (Build_thread kind event at_) = true →
  admitted (Build_thread kind event (fst (thread_step env h kind event at_ w))) = true.
Proof.
  destruct at_; cbn [admitted th_pc]; try discriminate; intros _; cbn [thread_step].
  - destruct (try_block env h kind event w). reflexivity.
  - unfold bind, time_sleep, recently_contains.
    destruct (bool_decide _); [reflexivity | destruct pending; reflexivity].
  - unfold recently_remove. destruct (bool_decide _); [| reflexivity].
    destruct pending; reflexivity.
  - reflexivity.
  - reflexivity.
Qed.

Lemma step_holding_back kind event at_ w :
  admitted (Build_thread kind event at_) = true →
  holding (Build_thread kind event (fst (thread_step env h kind event at_ w))) = true →
  holding (Build_thread kind event at_) = true.
Proof.
  destruct at_; cbn [admitted holding th_pc thread_step fst]; try discriminate;
    intros _ H; try reflexivity; exact H.
Qed.

Lemma step_holding_keeps kind event at_ w :
  holding (Build_thread kind event at_) = true →
  holding (Build_thread kind event (fst (thread_step env h kind event at_ w))) = true →
  recently_processed (snd (thread_step env h kind event at_ w)) = recently_processed w.
Proof.
  destruct at_; cbn [holding th_pc]; try discriminate; intros _; cbn [thread_step].
  - intros _.
    pose proof (keeps_try_block kind event w) as Hk.
    destruct (try_block env h kind event w). exact Hk.
  - intros _. unfold bind, time_sleep, recently_contains.
    destruct (bool_decide _); reflexivity.
  - unfold recently_remove. destruct (bool_decide _); cbn [fst holding th_pc].
    + destruct pending; discriminate.
    + discriminate.
Qed.

Lemma step_waiting kind event at_ w :
  waiting (Build_thread kind event at_) = true →
  src_path event ∈ recently_processed w →
  waiting (Build_thread kind event (fst (thread_step env h kind event at_ w))) = true
  ∧ snd (thread_step env h kind event at_ w) = w.
Proof.
  destruct at_; cbn [waiting th_pc]; try discriminate; intros _ Hin; cbn [thread_step].
  - destruct (ignored h event); split; reflexivity.
  - unfold recently_contains. rewrite (bool_decide_eq_true_2 _ Hin). split; reflexivity.
  - split; reflexivity.
Qed.

Lemma step_other_path kind event at_ w p :
  src_path event ≠ p →
  p ∈ recently_processed w →
  p ∈ recently_processed (snd (thread_step env h kind event at_ w)).
Proof.
  intros Hne Hin. destruct at_; cbn [thread_step].
  - exact Hin.
  - unfold recently_contains. destruct (bool_decide _); exact Hin.
  - cbn. set_solver.
  - pose proof (keeps_try_block kind event w) as Hk.
    destruct (try_block env h kind event w).
    cbn [snd] in *. rewrite Hk. exact Hin.
  - unfold bind, time_sleep, recently_contains. destruct (bool_decide _); exact Hin.
  - unfold recently_remove. destruct (bool_decide _); cbn; [set_solver | exact Hin].
  - exact Hin.
  - exact Hin.
  - exact Hin.
Qed.

(** ** One step of a configuration *)

Lemma sched_step_lookup cfg i j :
  fst (sched_step env h cfg i) !! j =
  if decide (j = i)
  then (λ t, Build_thread (th_kind t) (th_event t)
               (fst (thread_step env h (th_kind t) (th_event t) (th_pc t) (snd cfg))))
         <$> fst cfg !! i
  else fst cfg !! j.
Proof.
  unfold sched_step. destruct (fst cfg !! i) as [t|] eqn:Hi.
  - cbn [fmap option_fmap option_map].
    destruct (thread_step env h _ _ _ _) as [at' w']. cbn [fst].
    case_decide as Hj.
    + subst j. apply list_lookup_insert_eq. eapply lookup_lt_Some. exact Hi.
    + apply list_lookup_insert_ne. congruence.
  - case_decide as Hj; [subst j; rewrite Hi |]; reflexivity.
Qed.

Lemma sched_step_world cfg i :
  snd (sched_step env h cfg i) =
  match fst cfg !! i with
  | Some t => snd (thread_step env h (th_kind t) (th_event t) (th_pc t) (snd cfg))
  | None => snd cfg
  end.
Proof.
  unfold sched_step. destruct (fst cfg !! i) as [t|]; [| reflexivity].
  destruct (thread_step env h _ _ _ _). reflexivity.
Qed.

Lemma holder_admitted_step p i0 cfg i :
  holder_admitted p i0 cfg → holder_admitted p i0 (sched_step env h cfg i).
Proof.
  intros (t0 & Hl & Hp & Ha). unfold holder_admitted.
  rewrite sched_step_lookup. case_decide as Hi.
  - subst i. rewrite Hl. cbn. eexists. split; [reflexivity |].
    split; [exact Hp |]. destruct t0 as [k ev at0]. apply step_admitted. exact Ha.
  - exists t0. auto.
Qed.

Lemma holder_holding_back p i0 cfg i :
  holder_admitted p i0 cfg →
  holder_holding i0 (sched_step env h cfg i) → holder_holding i0 cfg.
Proof.
  intros (t0 & Hl & _ & Ha) (t0' & Hl' & Hh). unfold holder_holding.
  rewrite sched_step_lookup in Hl'. case_decide as Hi.
  - subst i. rewrite Hl in Hl'. cbn in Hl'. injection Hl' as <-.
    exists t0. split; [exact Hl |]. destruct t0 as [k ev at0].
    eapply step_holding_back; [exact Ha | exact Hh].
  - exists t0'. auto.
Qed.

Lemma others_wait_step p i0 cfg i :
  holder_admitted p i0 cfg →
  holder_holding i0 cfg →
  others_wait p i0 cfg →
  holder_holding i0 (sched_step env h cfg i) →
  others_wait p i0 (sched_step env h cfg i).
Proof.
  intros (t0 & Hl & Hp & Ha) (t0h & Hlh & Hh) [Hin Hothers] (t0' & Hl' & Hh').
  rewrite Hl in Hlh. injection Hlh as <-.
  unfold others_wait. rewrite sched_step_world.
  destruct (fst cfg !! i) as [t|] eqn:Hi.
  2:{ split; [exact Hin |]. intros j tj Hj Hnej Hpj. rewrite sched_step_lookup in Hj.
      case_decide as Hji; [subst j; rewrite Hi in Hj; discriminate |].
      apply (Hothers j); assumption. }
  destruct (decide (i = i0)) as [-> | Hne].
  - (* the holder steps and still holds: the set is as before *)
    rewrite Hl in Hi. injection Hi as <-.
    rewrite sched_step_lookup in Hl'. rewrite decide_True in Hl' by reflexivity.
    rewrite Hl in Hl'. cbn in Hl'. injection Hl' as <-.
    destruct t0 as [k ev at0]. cbn [th_kind th_event th_pc] in *.
    split.
    + rewrite (step_holding_keeps k ev at0 (snd cfg) Hh Hh'). exact Hin.
    + intros j tj Hj Hne Hpj. rewrite sched_step_lookup in Hj.
      rewrite decide_False in Hj by exact Hne. apply (Hothers j); assumption.
  - destruct (decide (path_of t = p)) as [Hpt | Hpt].
    + (* another call for the path: it is discarded or still waits *)
      pose proof (Hothers i t Hi Hne Hpt) as Hw.
      destruct t as [k ev at_]. cbn [th_kind th_event th_pc] in *.
      unfold path_of in Hpt. cbn [th_event] in Hpt.
      assert (Hin' : src_path ev ∈ recently_processed (snd cfg)) by (rewrite Hpt; exact Hin).
      destruct (step_waiting k ev at_ (snd cfg) Hw Hin') as [Hw' Hsame].
      rewrite Hsame. split; [exact Hin |].
      intros j tj Hj Hnej Hpj. rewrite sched_step_lookup in Hj.
      case_decide as Hji.
      * subst j. rewrite Hi in Hj. cbn in Hj. injection Hj as <-. exact Hw'.
      * apply (Hothers j); assumption.
    + (* a call for another path: the path stays in the set *)
      destruct t as [k ev at_]. cbn [th_kind th_event th_pc] in *.
      unfold path_of in Hpt. cbn [th_event] in Hpt.
      split; [apply step_other_path; assumption |].
      intros j tj Hj Hnej Hpj. rewrite sched_step_lookup in Hj.
      case_decide as Hji.
      * subst j. rewrite Hi in Hj. cbn in Hj. injection Hj as <-.
        unfold path_of in Hpj. cbn [th_event] in Hpj. contradiction.
      * apply (Hothers j); assumption.
Qed.

(** ** A whole schedule *)

Lemma holder_admitted_run p i0 schedule cfg :
  holder_admitted p i0 cfg → holder_admitted p i0 (run_schedule env h schedule cfg).
Proof.
  revert cfg. induction schedule as [|i schedule IH]; intros cfg Ha; [exact Ha |].
  cbn. apply IH, holder_admitted_step, Ha.
Qed.

(** A holder that holds at the end held all along. *)
Lemma holder_holding_run_back p i0 schedule cfg :
  holder_admitted p i0 cfg →
  holder_holding i0 (run_schedule env h schedule cfg) → holder_holding i0 cfg.
Proof.
  revert cfg. induction schedule as [|i schedule IH]; intros cfg Ha Hh; [exact Hh |].
  cbn in Hh. apply (holder_holding_back p i0 cfg i Ha).
  apply IH; [apply holder_admitted_step, Ha | exact Hh].
Qed.

Lemma others_wait_run p i0 schedule cfg :
  holder_admitted p i0 cfg →
  others_wait p i0 cfg →
  holder_holding i0 (run_schedule env h schedule cfg) →
  others_wait p i0 (run_schedule env h schedule cfg).
Proof.
  revert cfg. induction schedule as [|i schedule IH]; intros cfg Ha Hw Hh; [exact Hw |].
  cbn in *.
  pose proof (holder_admitted_step p i0 cfg i Ha) as Ha1.
  pose proof (holder_holding_run_back p i0 schedule _ Ha1 Hh) as Hh1.
  pose proof (holder_holding_back p i0 cfg i Ha Hh1) as Hh0.
  apply IH; [exact Ha1 | | exact Hh].
  apply others_wait_step; assumption.
Qed.

End Window.

(** One element of the list satisfies the test and no other does. *)
Lemma filter_unique {A} (test : A → bool) (l : list A) (i0 : nat) (x0 : A) :
  l !! i0 = Some x0 → test x0 = true →
  (∀ j x, l !! j = Some x → j ≠ i0 → test x = false) →
  length (List.filter test l) = 1%nat.
Proof.
  revert i0. induction l as [|x l IH]; intros i0 Hl Hx0 Hothers; [discriminate |].
  destruct i0 as [|i0]; cbn in Hl.
  - injection Hl as ->. cbn. rewrite Hx0. cbn. f_equal.
    assert (Hnil : List.filter test l = []).
    { clear IH Hx0. induction l as [|y l IHl]; [reflexivity |]. cbn.
      rewrite (Hothers 1%nat y eq_refl) by lia.
      apply IHl. intros j z Hj Hne. destruct j as [|j]; [done |].
      apply (Hothers (S (S j)) z); [exact Hj | lia]. }
    rewrite Hnil. reflexivity.
  - cbn. rewrite (Hothers 0%nat x eq_refl) by lia.
    apply (IH i0 Hl Hx0). intros j y Hj Hne.
    apply (Hothers (S j) y); [exact Hj | lia].
Qed.

Lemma waiting_not_admitted (t : thread) : waiting t = true → admitted t = false.
Proof. unfold waiting, admitted. destruct (th_pc t); congruence. Qed.

Lemma holding_admitted (t : thread) : holding t = true → admitted t = true.
Proof. unfold holding, admitted. destruct (th_pc t); congruence. Qed.

(** A call whose membership test runs while its path is in the set is
    discarded, and the handler run alone returns at once. *)
Lemma pending_path_not_dispatched env h kind event w :
  ignored h event = false →
  src_path event ∈ recently_processed w →
  thread_step env h kind event AtCheck w = (Discarded, w)
  ∧ on_created env h event w = (Ok tt, w)
  ∧ on_modified env h event w = (Ok tt, w).
Proof.
  intros Hig Hin. unfold on_created, on_modified. rewrite Hig.
  cbn [thread_step]. unfold bind, recently_contains.
  rewrite (bool_decide_eq_true_2 _ Hin). repeat split; reflexivity.
Qed.

(** What the set does suppress, when handler calls overlap.  Take a call
    that has entered its path [p] in the set while every other call for [p]
    has not yet passed the membership test.  Whatever the order in which
    the calls then take their steps, and whatever calls for other paths do,
    as long as the first call has not removed [p] from the set: [p] is in
    the set, every other call for [p] that ran its test was discarded, and
    one call for [p] is admitted. *)
Lemma one_admission_per_window (env : Env) (h : MetadataEventHandler) (p : string)
        (i0 : nat) (t0 : thread) (ts : list thread) (w : World) (schedule : list nat) :
  ts !! i0 = Some t0 →
  path_of t0 = p →
  holding t0 = true →
  others_wait p i0 (ts, w) →
  holder_holding i0 (run_schedule env h schedule (ts, w)) →
  admitted_for p (fst (run_schedule env h schedule (ts, w))) = 1%nat
  ∧ others_wait p i0 (run_schedule env h schedule (ts, w)).
Proof.
  intros Hl Hp Hh Hw Hend.
  assert (Ha : holder_admitted p i0 (ts, w)).
  { exists t0. split; [exact Hl |]. split; [exact Hp | apply holding_admitted, Hh]. }
  pose proof (others_wait_run env h p i0 schedule (ts, w) Ha Hw Hend) as Hw'.
  split; [| exact Hw'].
  destruct (holder_admitted_run env h p i0 schedule (ts, w) Ha) as (t0' & Hl' & Hp' & Ha').
  destruct Hw' as [_ Hothers].
  unfold admitted_for. apply (filter_unique _ _ i0 t0' Hl').
  - rewrite Ha', Hp'. cbn. apply String.eqb_refl.
  - intros j t Hj Hne.
    destruct (String.eqb (path_of t) p) eqn:Hpt; [| apply andb_false_r].
    apply String.eqb_eq in Hpt.
    rewrite (waiting_not_admitted t (Hothers j t Hj Hne Hpt)). reflexivity.
Qed.

Lemma one_admission_per_window_witness :
  let env := Sim.make Sim.no_programs in
  let h := Sim.a_handler ∅ in
  let event := {| is_directory := false; src_path := "/w/a.jpg" |} in
  let other := {| is_directory := false; src_path := "/w/b.jpg" |} in
  let ts := [Build_thread Created event AtTry; new_thread Created event;
             new_thread Modified event; new_thread Created other;
             new_thread Created event] in
  let w := with_recently {["/w/a.jpg"]}
             (Sim.world (<["/w/b.jpg" := "IMG"]> (<["/w/a.jpg" := "IMG"]> ∅))) in
  let schedule := [1; 1; 3; 2; 3; 3; 0; 2; 4; 3; 4; 3]%nat in
  others_wait "/w/a.jpg" 0 (ts, w)
  ∧ holder_holding 0 (run_schedule env h schedule (ts, w))
  ∧ admitted_for "/w/a.jpg" (fst (run_schedule env h schedule (ts, w))) = 1%nat.
Proof.
  intros env h event other ts w schedule.
  assert (Hw : others_wait "/w/a.jpg" 0 (ts, w)).
  { split.
    - cbn. set_solver.
    - intros j t Hj Hne Hp.
      destruct j as [|[|[|[|[|j]]]]]; cbn in Hj; try discriminate; try contradiction;
        injection Hj as <-; try reflexivity; discriminate. }
  assert (Hend : holder_holding 0 (run_schedule env h schedule (ts, w))).
  { eexists. split; [vm_compute; reflexivity | reflexivity]. }
  split; [exact Hw |]. split; [exact Hend |].
  exact (proj1 (one_admission_per_window env h "/w/a.jpg" 0 _ ts w schedule
                  eq_refl eq_refl eq_refl Hw Hend)).
Defined.

(** The configuration of the witness is reached from fresh calls when the
    first call takes its first three steps before the others start. *)
Example window_opens :
  let event := {| is_directory := false; src_path := "/w/a.jpg" |} in
  run_schedule (Sim.make Sim.no_programs) (Sim.a_handler ∅) [0; 0; 0]%nat
               ([new_thread Created event; new_thread Created event], Sim.world ∅)
  = ([Build_thread Created event AtTry; new_thread Created event],
     with_recently {["/w/a.jpg"]} (Sim.world ∅)).
Proof. vm_compute. reflexivity. Qed.

(** C2, the code at the failing input.  The set [recently_processed] is
    there to keep a path from being processed twice within five seconds,
    as the comments on it say, but a call removes its path in its own
    [finally] block before it returns.  Two create events for one path,
    delivered one after the other as the observer thread of watchdog
    delivers them: the first call leaves the set empty after its five
    seconds of sleep, the second call finds nothing in it, and the file is
    inspected twice.  Delivered to two calls that overlap, both calls run
    the membership test before either has added the path: both are
    admitted and both inspect the file, the second while the path is in
    the set. *)
Theorem duplicate_events_admitted_twice :
  let env := Sim.make Sim.no_programs in
  let h := Sim.a_handler ∅ in
  let event := {| is_directory := false; src_path := "/w/a.jpg" |} in
  let w := Sim.world (<["/w/a.jpg" := "IMG"]> ∅) in
  let detections (w' : World) :=
    List.filter (λ entry, String.eqb (snd entry) "Nuevo archivo detectado: /w/a.jpg")
                (logs w') in
  let twice := [(INFO, "Nuevo archivo detectado: /w/a.jpg");
                (INFO, "Nuevo archivo detectado: /w/a.jpg")] in
  let first := snd (on_created env h event w) in
  let second := snd (on_created env h event first) in
  let start := ([new_thread Created event; new_thread Created event], w) in
  let entered := run_schedule env h [0; 0; 1; 1; 0; 1]%nat start in
  let processed := run_schedule env h [0; 1]%nat entered in
  (recently_processed first = ∅
   ∧ slept first = 5
   ∧ slept second = 10
   ∧ detections second = twice)
  ∧ (admitted_for "/w/a.jpg" (fst entered) = 2%nat
     ∧ bool_decide ("/w/a.jpg" ∈ recently_processed (snd entered)) = true
     ∧ detections (snd processed) = twice).
Proof. repeat split; vm_compute; reflexivity. Qed.

(** A modify event for a file whose extension is not a recognised one
    passes the duplicate check and is not inspected at all. *)
Example modify_unrecognised_not_inspected :
  on_modified (Sim.make Sim.no_programs) (Sim.a_handler ∅)
              {| is_directory := false; src_path := "/w/notes.txt" |}
              (Sim.world (<["/w/notes.txt" := "text"]> ∅))
  = (Ok tt, with_slept 4 (Sim.world (<["/w/notes.txt" := "text"]> ∅))).
Proof. vm_compute. reflexivity. Qed.

(* ===================================================================== *)
(** * What a computation can change                                       *)
(* ===================================================================== *)

Section Within.

Variable R : World → World → Prop.
Context {R_pre : PreOrder R}.

Lemma within_ret {A} (a : A) : within R (ret a).
Proof. intros w. reflexivity. Qed.

Lemma within_lift {A} (r : result A) : within R (lift r).
Proof. intros w. reflexivity. Qed.

Lemma within_read_fs {A} (f : FS → A) : within R (read_fs f).
Proof. intros w. reflexivity. Qed.

Lemma within_bind {A B} (m : M A) (k : A → M B) :
  within R m → (∀ a, within R (k a)) → within R (bind m k).
Proof.
  intros Hm Hk w. unfold bind. specialize (Hm w).
  destruct (m w) as [[a|e] w1]; cbn [snd] in *; [| exact Hm].
  etransitivity; [exact Hm | apply Hk].
Qed.

Lemma within_try_except {A} (m : M A) (classes : list exn_class) (handler : exn → M A) :
  within R m → (∀ e, within R (handler e)) → within R (try_except m classes handler).
Proof.
  intros Hm Hh w. unfold try_except. specialize (Hm w).
  destruct (m w) as [[a|e] w1]; cbn [snd] in *; [exact Hm |].
  destruct (caught_by classes e); [| exact Hm].
  etransitivity; [exact Hm | apply Hh].
Qed.

Lemma within_try_finally {A} (m : M A) (f : M unit) :
  within R m → within R f → within R (try_finally m f).
Proof.
  intros Hm Hf w. unfold try_finally. specialize (Hm w).
  destruct (m w) as [r w1]. specialize (Hf w1).
  destruct (f w1) as [[[]|e] w2]; cbn [snd] in *; etransitivity; eassumption.
Qed.

End Within.

#[local] Instance only_logs_pre : PreOrder only_logs.
Proof.
  split.
  - intros w. repeat split.
  - intros a b c (H1 & H2 & H3 & H4) (H1' & H2' & H3' & H4').
    repeat split; congruence.
Qed.

#[local] Instance only_logs_and_files_pre : PreOrder only_logs_and_files.
Proof.
  split.
  - intros w. repeat split.
  - intros a b c (H2 & H3 & H4) (H2' & H3' & H4'). repeat split; congruence.
Qed.

#[local] Instance awake_and_same_set_pre : PreOrder awake_and_same_set.
Proof.
  split.
  - intros w. repeat split.
  - intros a b c (H3 & H4) (H3' & H4'). repeat split; congruence.
Qed.

Lemma only_logs_weaken (w w' : World) : only_logs w w' → only_logs_and_files w w'.
Proof. intros (_ & H2 & H3 & H4). repeat split; assumption. Qed.

Lemma only_logs_and_files_weaken (w w' : World) :
  only_logs_and_files w w' → awake_and_same_set w w'.
Proof. intros (_ & H3 & H4). repeat split; assumption. Qed.

Create HintDb frame.
#[local] Hint Resolve within_ret within_lift within_read_fs : frame.

(** A primitive of the monad, by computation. *)
Ltac frame_primitive :=
  solve [ let w := fresh "w" in
          intros w; unfold logger, time_sleep, on_fs;
          try match goal with
              | |- context [ let '(_, _) := ?x in _ ] => destruct x
              end;
          repeat split; reflexivity ].

(** Walks through a program of the monad. *)
Ltac frame :=
  cbv zeta;
  repeat first
    [ solve [auto with frame]
    | apply within_bind; [typeclasses eauto | | intros ?]
    | apply within_try_except; [typeclasses eauto | | intros ?]
    | match goal with
      | |- within _ (if ?b then _ else _) => destruct b
      | |- within _ (match ?x with _ => _ end) => destruct x
      end
    | frame_primitive ].

(* ===================================================================== *)
(** * The inspector and the redactor keep to the files and the log        *)
(* ===================================================================== *)

Lemma has_metadata_quiet env self file_path :
  within only_logs_and_files (has_metadata env self file_path).
Proof.
  unfold has_metadata, has_metadata_body, get_metadata_with_exiftool, exiftool_query,
    image_probe, image_metadata, run.
  frame.
Qed.

Lemma clean_metadata_quiet env self file_path :
  within only_logs_and_files (clean_metadata env self file_path).
Proof.
  unfold clean_metadata, clean_metadata_body, clean_with_exiftool, exiftool_strip,
    clean_by_extension, clean_pdf, qpdf_linearize, clean_image, image_reencode, run.
  frame.
Qed.

(** Neither [has_metadata] nor [clean_metadata] sends a message, sleeps or
    touches the set of recent paths: all they change is files and the log. *)
Theorem inspector_and_redactor_are_quiet (env : Env) (self : MetadataCleaner)
        (file_path : string) (w : World) :
  only_logs_and_files w (snd (has_metadata env self file_path w))
  ∧ only_logs_and_files w (snd (clean_metadata env self file_path w)).
Proof. split; [apply has_metadata_quiet | apply clean_metadata_quiet]. Qed.

(** Without ExifTool the inspector only reads: whatever the file and its
    extension, [has_metadata] leaves the file system as it was, and changes
    nothing but the log. *)
Theorem inspector_without_exiftool_reads_only (env : Env) (self : MetadataCleaner)
        (file_path : string) (w : World) :
  tool_available self "exiftool" = false →
  only_logs w (snd (has_metadata env self file_path w)).
Proof.
  intros Havail. revert w. change (within only_logs (has_metadata env self file_path)).
  unfold has_metadata, has_metadata_body. rewrite Havail.
  unfold image_probe, image_metadata.
  frame.
Qed.

(* ===================================================================== *)
(** * The notifier                                                        *)
(* ===================================================================== *)

Lemma send_telegram_message_cases (env : Env) (self : MetadataCleaner)
      (message : string) (w : World) :
  ∃ ok w',
    send_telegram_message env self message w = (Ok ok, w')
    ∧ has_posted [(telegram_api_url self, chat_id self, message)] w w'
    ∧ fs w' = fs w ∧ slept w' = slept w
    ∧ recently_processed w' = recently_processed w
    ∧ (ok = true ↔
       ∃ text, requests_post env (telegram_api_url self) (chat_id self) message
               = Ok (200, text))
    ∧ (if ok then logs w' = logs w
       else ∃ msg, logs w' = (logs w ++ [(ERROR, msg)])%list).
Proof.
  unfold send_telegram_message, has_posted. rewrite try_except_Exception. unfold_M.
  destruct (requests_post env _ _ message) as [[status text]|e]; cbn [fst snd].
  - destruct (status =? 200) eqn:Hs; cbn [negb].
    + apply Z.eqb_eq in Hs. subst status.
      eexists true, _. split; [reflexivity |]. cbn.
      repeat split; try reflexivity. intros _. exists text. reflexivity.
    + eexists false, _. split; [reflexivity |]. cbn.
      repeat split; try reflexivity; try discriminate.
      * intros (text' & Heq). injection Heq as -> _. discriminate.
      * eexists. reflexivity.
  - eexists false, _. split; [reflexivity |]. cbn.
    repeat split; try reflexivity; try discriminate.
    + intros (text' & Heq). discriminate.
    + eexists. reflexivity.
Qed.

(** [send_telegram_message] never raises.  It sends exactly one request,
    to the URL of the bot with the chat id and the text; it answers [True]
    exactly when the request came back with status 200, and then logs
    nothing; otherwise it logs one error.  Files, clock and set are left
    alone. *)
Theorem send_telegram_message_outcome (env : Env) (self : MetadataCleaner)
        (message : string) (w : World) :
  ∃ ok w',
    send_telegram_message env self message w = (Ok ok, w')
    ∧ has_posted [(telegram_api_url self, chat_id self, message)] w w'
    ∧ fs w' = fs w ∧ slept w' = slept w
    ∧ recently_processed w' = recently_processed w
    ∧ (ok = true ↔
       ∃ text, requests_post env (telegram_api_url self) (chat_id self) message
               = Ok (200, text))
    ∧ (if ok then logs w' = logs w
       else ∃ msg, logs w' = (logs w ++ [(ERROR, msg)])%list).
Proof. apply send_telegram_message_cases. Qed.

Lemma send_telegram_message_posts env self message w :
  has_posted [(telegram_api_url self, chat_id self, message)] w
             (snd (send_telegram_message env self message w))
  ∧ awake_and_same_set w (snd (send_telegram_message env self message w))
  ∧ ∃ ok, fst (send_telegram_message env self message w) = Ok ok.
Proof.
  destruct (send_telegram_message_cases env self message w)
    as (ok & w' & -> & Hp & _ & Hs & Hr & _).
  cbn [fst snd]. repeat split; try assumption. exists ok. reflexivity.
Qed.

(* ===================================================================== *)
(** * More on the inspector and the redactor                              *)
(* ===================================================================== *)

Lemma image_probe_answer env file_path w :
  match fst (image_probe env file_path w) with
  | Ok (answer, snapshot) => answer = dict_nonempty snapshot
  | Raise _ => True
  end.
Proof.
  unfold image_probe, image_metadata. unfold_M.
  destruct (Image_open env file_path (fs w)) as [img|e]; [| exact I].
  destruct (img_getexif img) as [[[[|tv items]|]|e]|]; cbn; try reflexivity; exact I.
Qed.

(** On every path and in every world, the answer of [has_metadata] is
    [True] exactly when the snapshot it returns with it is not empty. *)
Theorem has_metadata_answer_matches_snapshot (env : Env) (self : MetadataCleaner)
        (file_path : string) (w : World) :
  match fst (has_metadata env self file_path w) with
  | Ok (answer, snapshot) => answer = dict_nonempty snapshot
  | Raise _ => False
  end.
Proof.
  destruct (tool_available self "exiftool") eqn:Havail.
  - rewrite (has_metadata_exiftool_unfold env self file_path w Havail).
    destruct (get_metadata_with_exiftool env self file_path w) as [[v|e] w'];
      [destruct v |]; reflexivity.
  - unfold has_metadata, has_metadata_body. rewrite Havail, try_except_Exception.
    destruct (Str.in_list _ image_extensions).
    + rewrite try_except_Exception.
      pose proof (image_probe_answer env file_path w) as Hp.
      destruct (image_probe env file_path w) as [[[answer snapshot]|e] w']; cbn in *;
        [exact Hp | reflexivity].
    + destruct (Str.in_list _ document_extensions); [reflexivity |].
      destruct (Str.in_list _ media_extensions); reflexivity.
Qed.

(** Without ExifTool, a file that is no image, and that is no PDF or for
    which qpdf is missing as well, cannot be cleaned: [clean_metadata]
    answers [False] and changes nothing but the log. *)
Theorem redactor_without_strategy (env : Env) (self : MetadataCleaner)
        (file_path : string) (w : World) :
  tool_available self "exiftool" = false →
  Str.in_list (extension_of file_path) image_extensions = false →
  extension_of file_path ≠ ".pdf" ∨ tool_available self "qpdf" = false →
  fst (clean_metadata env self file_path w) = Ok false
  ∧ only_logs w (snd (clean_metadata env self file_path w)).
Proof.
  intros Hexif Himg Hpdf.
  unfold clean_metadata, clean_metadata_body, clean_with_exiftool, clean_by_extension.
  rewrite try_except_Exception, Hexif, Himg. unfold bind at 1. cbn [ret].
  destruct (String.eqb (extension_of file_path) ".pdf") eqn:Heq.
  - apply String.eqb_eq in Heq. destruct Hpdf as [Hne | Hq]; [contradiction |].
    unfold clean_pdf. rewrite Hq. cbn. repeat split; reflexivity.
  - destruct (Str.in_list _ office_extensions); [cbn; repeat split; reflexivity |].
    destruct (Str.in_list _ media_extensions); cbn; repeat split; reflexivity.
Qed.

Lemma redactor_without_strategy_witness :
  let env := Sim.make Sim.no_programs in
  let self := Sim.a_cleaner ∅ in
  let w := Sim.world (<["/w/talk.pptx" := "PK"]> ∅) in
  tool_available self "exiftool" = false
  ∧ fst (clean_metadata env self "/w/talk.pptx" w) = Ok false
  ∧ only_logs w (snd (clean_metadata env self "/w/talk.pptx" w)).
Proof.
  intros env self w. split; [reflexivity |].
  apply (redactor_without_strategy env self "/w/talk.pptx" w);
    [reflexivity | reflexivity | left; vm_compute; discriminate].
Defined.

Lemma inspector_without_exiftool_reads_only_witness :
  let env := Sim.make Sim.no_programs in
  let self := Sim.a_cleaner ∅ in
  let w := Sim.world (<["/w/a.jpg" := "IMG"]> ∅) in
  tool_available self "exiftool" = false
  ∧ fs (snd (has_metadata env self "/w/a.jpg" w)) = fs w.
Proof.
  intros env self w. split; [reflexivity |].
  exact (proj1 (inspector_without_exiftool_reads_only env self "/w/a.jpg" w eq_refl)).
Defined.

(** Without ExifTool, a file whose extension is in the document list (the
    PDF apart) or in the media list is reported as having metadata in every
    state of the world, and [clean_metadata] answers [False] for it: no
    redaction ever ends the reports. *)
Theorem documents_reported_and_never_cleaned (env : Env) (self : MetadataCleaner)
        (file_path : string) (w w2 : World) :
  tool_available self "exiftool" = false →
  Str.in_list (extension_of file_path) (document_extensions ++ media_extensions)%list = true →
  extension_of file_path ≠ ".pdf" →
  (∃ warning, fst (has_metadata env self file_path w)
              = Ok (true, [(KStr "warning", VStr warning)]))
  ∧ fst (clean_metadata env self file_path w) = Ok false
  ∧ fst (has_metadata env self file_path w2) = fst (has_metadata env self file_path w).
Proof.
  intros Havail Hext Hpdf.
  unfold has_metadata, has_metadata_body, clean_metadata, clean_metadata_body,
    clean_with_exiftool, clean_by_extension.
  rewrite !try_except_Exception, Havail. unfold bind at 1. cbn [ret].
  remember (extension_of file_path) as ext eqn:Heq. clear Heq.
  apply in_list_In in Hext. simpl in Hext.
  repeat (destruct Hext as [Hext | Hext];
          [subst ext; try contradiction;
           (split; [eexists; reflexivity | split; reflexivity]) |]).
  contradiction.
Qed.

Lemma documents_reported_and_never_cleaned_witness :
  let env := Sim.make Sim.no_programs in
  let self := Sim.a_cleaner ∅ in
  let w := Sim.world (<["/w/old.DOC" := "doc"]> ∅) in
  tool_available self "exiftool" = false
  ∧ fst (has_metadata env self "/w/old.DOC" w)
    = Ok (true, [(KStr "warning", VStr "Archivo potencialmente con metadatos")])
  ∧ fst (clean_metadata env self "/w/old.DOC" w) = Ok false.
Proof.
  intros env self w. split; [reflexivity |].
  destruct (documents_reported_and_never_cleaned env self "/w/old.DOC" w w
              eq_refl eq_refl ltac:(discriminate)) as ((warning & Hh) & Hc & _).
  split; [| exact Hc].
  rewrite Hh. vm_compute in Hh. injection Hh as <-. reflexivity.
Defined.

(* ===================================================================== *)
(** * The staging file and the handlers                                   *)
(* ===================================================================== *)

Lemma join_keeps_prefix (t b : string) :
  Str.startswith "/" b = false → String.prefix t (PosixPath.join t b) = true.
Proof.
  intros Hb. unfold PosixPath.join. rewrite Hb.
  destruct (String.eqb t "" || Str.endswith_char "/" t); apply prefix_append.
Qed.

(** The staging file of any source path is a path that both handlers
    ignore: what the redactor writes while it builds the clean copy never
    starts a new inspection.  The handler takes its staging folder from the
    cleaner. *)
Theorem staging_file_is_ignored (env : Env) (h : MetadataEventHandler)
        (file_path : string) (directory : bool) (w : World) :
  handler_temp_folder h = temp_folder (cleaner h) →
  let event := {| is_directory := directory;
                  src_path := temp_file (cleaner h) file_path |} in
  ignored h event = true
  ∧ on_created env h event w = (Ok tt, w)
  ∧ on_modified env h event w = (Ok tt, w).
Proof.
  intros Hfolder event.
  assert (Hig : ignored h event = true).
  { unfold ignored, event, temp_file. cbn [src_path is_directory]. rewrite Hfolder.
    rewrite contains_prefix; [apply orb_true_r |].
    apply join_keeps_prefix, no_separator_not_absolute, basename_no_separator. }
  unfold on_created, on_modified. rewrite Hig. repeat split; reflexivity.
Qed.

Lemma staging_file_is_ignored_witness :
  let h := Sim.a_handler ∅ in
  let w := Sim.world ∅ in
  handler_temp_folder h = temp_folder (cleaner h)
  ∧ on_created (Sim.make Sim.no_programs) h
               {| is_directory := false;
                  src_path := "/w/_temp_metadata_cleaner/img_001.jpg" |} w
    = (Ok tt, w).
Proof.
  intros h w. split; [reflexivity |].
  exact (proj1 (proj2 (staging_file_is_ignored (Sim.make Sim.no_programs) h
                         "/w/album/img_001.jpg" false w eq_refl))).
Defined.

(* ===================================================================== *)
(** * The handlers, one call at a time                                    *)
(* ===================================================================== *)

Lemma send_telegram_message_awake env self message :
  within awake_and_same_set (send_telegram_message env self message).
Proof. intros w. apply send_telegram_message_posts. Qed.

Lemma has_metadata_awake env self file_path :
  within awake_and_same_set (has_metadata env self file_path).
Proof. intros w. apply only_logs_and_files_weaken, has_metadata_quiet. Qed.

Lemma clean_metadata_awake env self file_path :
  within awake_and_same_set (clean_metadata env self file_path).
Proof. intros w. apply only_logs_and_files_weaken, clean_metadata_quiet. Qed.

#[local] Hint Resolve send_telegram_message_awake has_metadata_awake
  clean_metadata_awake : frame.

Lemma report_and_clean_awake env h title path metadata :
  within awake_and_same_set (report_and_clean env h title path metadata).
Proof. unfold report_and_clean. frame. Qed.

#[local] Hint Resolve report_and_clean_awake : frame.

Lemma created_try_awake env h event : within awake_and_same_set (created_try env h event).
Proof. unfold created_try, os_path_exists. frame. Qed.

Lemma modified_try_awake env h event : within awake_and_same_set (modified_try env h event).
Proof. unfold modified_try, os_path_exists. frame. Qed.

Lemma created_try_returns env h event w : fst (created_try env h event w) = Ok tt.
Proof.
  unfold created_try. rewrite try_except_Exception.
  match goal with |- context [match ?m w with _ => _ end] => destruct (m w) as [[[]|e] w'] end;
    reflexivity.
Qed.

Lemma modified_try_returns env h event w : fst (modified_try env h event w) = Ok tt.
Proof.
  unfold modified_try. rewrite try_except_Exception.
  match goal with |- context [match ?m w with _ => _ end] => destruct (m w) as [[[]|e] w'] end;
    reflexivity.
Qed.

(** The end of an admitted call that runs alone: the path is still in the
    set after the [try] block, so the [finally] block removes it. *)
Lemma admitted_call_alone (block : M unit) (p : string) (w : World) (naps : Z) :
  (∀ w0, fst (block w0) = Ok tt) →
  within awake_and_same_set block →
  p ∉ recently_processed w →
  ∃ w', try_finally block (release p)
          (with_slept (slept w + naps) (with_recently ({[p]} ∪ recently_processed w) w))
        = (Ok tt, w')
        ∧ recently_processed w' = recently_processed w
        ∧ slept w' = slept w + naps + 4.
Proof.
  intros Hret Hframe Hnew. unfold try_finally.
  specialize (Hret (with_slept (slept w + naps)
                      (with_recently ({[p]} ∪ recently_processed w) w))).
  specialize (Hframe (with_slept (slept w + naps)
                        (with_recently ({[p]} ∪ recently_processed w) w))).
  destruct (block _) as [r w1]. cbn [fst snd] in *. subst r.
  destruct Hframe as [Hslept Hset]. cbn in Hslept, Hset.
  unfold release, bind, time_sleep, recently_contains, recently_remove.
  cbn [recently_processed with_slept].
  assert (Hin : p ∈ recently_processed w1) by (rewrite Hset; set_solver).
  rewrite (bool_decide_eq_true_2 _ Hin). cbn [recently_processed with_slept].
  rewrite (bool_decide_eq_true_2 _ Hin).
  eexists. split; [reflexivity |]. cbn. split; [| lia].
  rewrite Hset. set_solver.
Qed.

(** A handler call that runs alone never raises and leaves the set of
    recent paths exactly as it found it.  A call that is skipped (a
    directory, a path with the staging folder in it, a path that is in the
    set) changes nothing at all; any other call keeps its thread for five
    seconds ([on_created]) or four ([on_modified]) on top of the work. *)
Theorem handler_call_alone (env : Env) (h : MetadataEventHandler)
        (event : FileSystemEvent) (w : World) :
  let skipped :=
    ignored h event || bool_decide (src_path event ∈ recently_processed w) in
  (∃ w', on_created env h event w = (Ok tt, w')
         ∧ recently_processed w' = recently_processed w
         ∧ (if skipped then w' = w else slept w' = slept w + 5))
  ∧ (∃ w', on_modified env h event w = (Ok tt, w')
           ∧ recently_processed w' = recently_processed w
           ∧ (if skipped then w' = w else slept w' = slept w + 4)).
Proof.
  intros skipped. subst skipped. unfold on_created, on_modified.
  destruct (ignored h event); cbn [orb].
  { split; exists w; repeat split; reflexivity. }
  unfold bind, recently_contains, recently_add, time_sleep.
  destruct (bool_decide (src_path event ∈ recently_processed w)) eqn:Hin.
  { split; exists w; repeat split; reflexivity. }
  apply bool_decide_eq_false_1 in Hin.
  cbn [slept with_recently recently_processed fs logs posted].
  split.
  - destruct (admitted_call_alone (created_try env h event) (src_path event) w 1
                (created_try_returns env h event) (created_try_awake env h event) Hin)
      as (w' & Hrun & Hset & Hslept).
    exists w'. split; [exact Hrun |]. split; [exact Hset | lia].
  - destruct (admitted_call_alone (modified_try env h event) (src_path event) w 0
                (modified_try_returns env h event) (modified_try_awake env h event) Hin)
      as (w' & Hrun & Hset & Hslept).
    replace (slept w + 0) with (slept w) in Hrun by lia.
    assert (Hw : with_slept (slept w)
                   (with_recently ({[src_path event]} ∪ recently_processed w) w)
                 = with_recently ({[src_path event]} ∪ recently_processed w) w)
      by (destruct w; reflexivity).
    rewrite Hw in Hrun.
    exists w'. split; [exact Hrun |]. split; [exact Hset | lia].
Qed.

(** A create call whose path is not in the set is admitted: it sleeps its
    five seconds and leaves the set as it found it. *)
Lemma created_call_admitted (env : Env) (h : MetadataEventHandler)
      (event : FileSystemEvent) (w : World) :
  ignored h event = false →
  src_path event ∉ recently_processed w →
  ∃ w', on_created env h event w = (Ok tt, w')
        ∧ recently_processed w' = recently_processed w
        ∧ slept w' = slept w + 5.
Proof.
  intros Hig Hin. unfold on_created. rewrite Hig.
  unfold bind, recently_contains, recently_add, time_sleep.
  rewrite (bool_decide_eq_false_2 _ Hin).
  cbn [slept with_recently recently_processed fs logs posted].
  destruct (admitted_call_alone (created_try env h event) (src_path event) w 1
              (created_try_returns env h event) (created_try_awake env h event) Hin)
    as (w' & Hrun & Hset & Hslept).
  exists w'. split; [exact Hrun |]. split; [exact Hset | lia].
Qed.

(** Create calls for one path that run one after the other are all
    admitted, however many: each has removed the path when it returns, so
    the next one finds the set as the first one did. *)
Lemma sequential_calls_all_admitted (env : Env) (h : MetadataEventHandler)
      (event : FileSystemEvent) (n : nat) (w : World) :
  ignored h event = false →
  src_path event ∉ recently_processed w →
  let after := Nat.iter n (fun w0 => snd (on_created env h event w0)) w in
  slept after = slept w + 5 * Z.of_nat n
  ∧ recently_processed after = recently_processed w.
Proof.
  intros Hig Hin. cbv zeta. induction n as [|n [IHslept IHset]].
  - cbn [Nat.iter nat_rect]. split; [lia | reflexivity].
  - rewrite Nat.iter_succ.
    destruct (created_call_admitted env h event
                (Nat.iter n (fun w0 => snd (on_created env h event w0)) w) Hig)
      as (w' & Hrun & Hset & Hslept); [rewrite IHset; exact Hin |].
    rewrite Hrun. cbn [snd]. split; [lia | congruence].
Qed.

(* ===================================================================== *)
(** * The two messages of a report                                        *)
(* ===================================================================== *)

Lemma has_posted_trans (a b : list (string * string * string)) (w1 w2 w3 : World) :
  has_posted a w1 w2 → has_posted b w2 w3 → has_posted (a ++ b) w1 w3.
Proof. unfold has_posted. intros H1 H2. rewrite H2, H1, app_assoc. reflexivity. Qed.

Lemma has_posted_nil_quiet (w w' : World) : only_logs_and_files w w' → has_posted [] w w'.
Proof. intros (H & _). unfold has_posted. rewrite H, app_nil_r. reflexivity. Qed.

(** When the relative path and the rendering of the snapshot are obtained,
    the report of a handler sends exactly two messages and returns: first
    the detection, with the path and the rendering cut to 500 characters,
    then the outcome, which says cleaned exactly when [clean_metadata]
    answered [True]. *)
Theorem report_sends_detection_then_outcome (env : Env) (h : MetadataEventHandler)
        (title path : string) (metadata : pydict) (w : World)
        (relative_path rendered : string) :
  os_path_relpath env path (folder_path (cleaner h)) = Ok relative_path →
  render_metadata env metadata = Ok rendered →
  let self := cleaner h in
  let first := detection_message title relative_path rendered in
  let w1 := snd (send_telegram_message env self first w) in
  ∃ cleaned w',
    fst (clean_metadata env self path w1) = Ok cleaned
    ∧ report_and_clean env h title path metadata w = (Ok tt, w')
    ∧ has_posted [(telegram_api_url self, chat_id self, first);
                  (telegram_api_url self, chat_id self,
                   outcome_message cleaned relative_path)] w w'.
Proof.
  intros Hrel Hdumps self first w1. subst w1.
  unfold report_and_clean. unfold bind at 1. unfold lift at 1. rewrite Hrel.
  unfold bind at 1. unfold lift at 1. rewrite Hdumps. cbv zeta.
  fold (truncate_metadata rendered). fold (detection_message title relative_path rendered).
  fold self. fold first.
  destruct (send_telegram_message_posts env self first w) as (Hp1 & _ & ok1 & Hok1).
  unfold bind at 1.
  destruct (send_telegram_message env self first w) as [r1 w1]. cbn [fst snd] in *.
  subst r1.
  destruct (clean_metadata_returns env self path w1) as (cleaned & w2 & Hclean).
  pose proof (clean_metadata_quiet env self path w1) as Hq. rewrite Hclean in Hq.
  cbn [snd] in Hq. apply has_posted_nil_quiet in Hq.
  unfold bind at 1. rewrite Hclean. cbn [fst].
  exists cleaned.
  destruct cleaned; unfold outcome_message.
  - destruct (send_telegram_message_posts env self
                ("✅ Metadatos eliminados de: " +:+ relative_path) w2)
      as (Hp2 & _ & ok2 & Hok2).
    unfold bind, logger.
    destruct (send_telegram_message env self _ w2) as [r2 w3]. cbn [fst snd] in *.
    subst r2. eexists. split; [reflexivity |]. split; [reflexivity |].
    unfold has_posted in *. cbn [posted with_logs].
    rewrite Hp2, Hq, Hp1, app_nil_r, <- app_assoc. reflexivity.
  - destruct (send_telegram_message_posts env self
                ("❌ Error al eliminar metadatos de: " +:+ relative_path) w2)
      as (Hp2 & _ & ok2 & Hok2).
    unfold bind, logger.
    destruct (send_telegram_message env self _ w2) as [r2 w3]. cbn [fst snd] in *.
    subst r2. eexists. split; [reflexivity |]. split; [reflexivity |].
    unfold has_posted in *. cbn [posted with_logs].
    rewrite Hp2, Hq, Hp1, app_nil_r, <- app_assoc. reflexivity.
Qed.

(* ===================================================================== *)
(** * The full scan                                                       *)
(* ===================================================================== *)

Lemma posted_count_of_has_posted sent w w' :
  has_posted sent w w' → posted_count (length sent) w w'.
Proof. unfold has_posted, posted_count. intros ->. apply length_app. Qed.

Lemma posted_count_quiet w w' : only_logs_and_files w w' → posted_count 0 w w'.
Proof. intros (H & _). unfold posted_count. rewrite H. lia. Qed.

Lemma posted_count_trans a b w1 w2 w3 :
  posted_count a w1 w2 → posted_count b w2 w3 → posted_count (a + b) w1 w3.
Proof. unfold posted_count. lia. Qed.

(** ** What depends on the file system only *)

Lemma fs_only_ret {A} (a : A) : fs_only (ret a).
Proof. intros w w' H. split; [reflexivity | exact H]. Qed.

Lemma fs_only_lift {A} (r : result A) : fs_only (lift r).
Proof. intros w w' H. split; [reflexivity | exact H]. Qed.

Lemma fs_only_read_fs {A} (f : FS → A) : fs_only (read_fs f).
Proof. intros w w' H. unfold read_fs. cbn [fst snd]. rewrite H. split; reflexivity. Qed.

Lemma fs_only_on_fs {A} (f : FS → result A * FS) : fs_only (on_fs f).
Proof.
  intros w w' H. unfold on_fs. rewrite H. destruct (f (fs w')) as [r f'].
  split; reflexivity.
Qed.

Lemma fs_only_logger lvl msg : fs_only (logger lvl msg).
Proof. intros w w' H. split; [reflexivity | exact H]. Qed.

Lemma fs_only_bind {A B} (m : M A) (k : A → M B) :
  fs_only m → (∀ a, fs_only (k a)) → fs_only (bind m k).
Proof.
  intros Hm Hk w w' H. unfold bind. destruct (Hm w w' H) as [Hr Hf].
  destruct (m w) as [[a|e] w1], (m w') as [[a'|e'] w1']; cbn [fst snd] in *;
    try discriminate.
  - injection Hr as <-. exact (Hk a w1 w1' Hf).
  - injection Hr as <-. split; [reflexivity | exact Hf].
Qed.

Lemma fs_only_try_except {A} (m : M A) (classes : list exn_class) (handler : exn → M A) :
  fs_only m → (∀ e, fs_only (handler e)) → fs_only (try_except m classes handler).
Proof.
  intros Hm Hh w w' H. unfold try_except. destruct (Hm w w' H) as [Hr Hf].
  destruct (m w) as [[a|e] w1], (m w') as [[a'|e'] w1']; cbn [fst snd] in *;
    try discriminate.
  - split; [exact Hr | exact Hf].
  - injection Hr as <-. destruct (caught_by classes e).
    + exact (Hh e w1 w1' Hf).
    + split; [reflexivity | exact Hf].
Qed.

Create HintDb files.
#[local] Hint Resolve fs_only_ret fs_only_lift fs_only_read_fs fs_only_on_fs
  fs_only_logger : files.

(** Walks through a program of the monad. *)
Ltac by_files :=
  cbv zeta;
  repeat first
    [ solve [auto with files]
    | apply fs_only_bind; [| intros ?]
    | apply fs_only_try_except; [| intros ?]
    | match goal with
      | |- fs_only (if ?b then _ else _) => destruct b
      | |- fs_only (match ?x with _ => _ end) => destruct x
      end ].

Lemma has_metadata_by_files env self file_path : fs_only (has_metadata env self file_path).
Proof.
  unfold has_metadata, has_metadata_body, get_metadata_with_exiftool, exiftool_query,
    image_probe, image_metadata, run.
  by_files.
Qed.

Lemma clean_metadata_by_files env self file_path :
  fs_only (clean_metadata env self file_path).
Proof.
  unfold clean_metadata, clean_metadata_body, clean_with_exiftool, exiftool_strip,
    clean_by_extension, clean_pdf, qpdf_linearize, clean_image, image_reencode, run.
  by_files.
Qed.

(** ** The scan against the inspections *)

Lemma inspections_app env self (before after : list string) (w : World) :
  inspections env self (before ++ after) w
  = ((fst (inspections env self before w)
      ++ fst (inspections env self after (snd (inspections env self before w))))%list,
     snd (inspections env self after (snd (inspections env self before w)))).
Proof.
  revert w. induction before as [|path before IH]; intros w; cbn [inspections app].
  - cbn [fst snd]. destruct (inspections env self after w). reflexivity.
  - destruct (fst (has_metadata env self path w)) as [[[] snapshot]|e];
      cbn [fst snd]; rewrite IH; reflexivity.
Qed.

Lemma inspections_length env self (paths : list string) (w : World) :
  (length (fst (inspections env self paths w)) ≤ length paths)%nat.
Proof.
  revert w. induction paths as [|path paths IH]; intros w; cbn [inspections];
    [cbn; lia |].
  destruct (fst (has_metadata env self path w)) as [[[] snapshot]|e]; cbn [fst length];
    match goal with |- context [inspections env self paths ?w0] => specialize (IH w0) end;
    lia.
Qed.

(** Two results that differ in the way the count is written. *)
Ltac same_count :=
  unfold ret; apply f_equal2; [apply f_equal; lia | reflexivity].

Section ScanProofs.

Variable env : Env.
Variable self : MetadataCleaner.

Lemma send_counts message w :
  ∃ ok w', send_telegram_message env self message w = (Ok ok, w')
           ∧ fs w' = fs w ∧ posted_count 1 w w' ∧ awake_and_same_set w w'.
Proof.
  destruct (send_telegram_message_cases env self message w)
    as (ok & w' & -> & Hp & Hf & Hs & Hr & _).
  exists ok, w'. split; [reflexivity |]. split; [exact Hf |].
  split; [exact (posted_count_of_has_posted _ _ _ Hp) | split; assumption].
Qed.

(** A file for which [has_metadata] answers [False] is passed over. *)
Lemma scan_file_passes root file n w snapshot w1 :
  has_metadata env self (PosixPath.join root file) w = (Ok (false, snapshot), w1) →
  scan_file env self root file n w = (Ok n, w1).
Proof. intros Hh. unfold scan_file. cbv zeta. unfold bind. rewrite Hh. reflexivity. Qed.

(** A file for which it answers [True] is counted, reported in two
    messages and handed to [clean_metadata], which meets the file system
    that [has_metadata] has left. *)
Lemma scan_file_reports root file n w snapshot w1 ws :
  let path := PosixPath.join root file in
  has_metadata env self path w = (Ok (true, snapshot), w1) →
  rendered env self (path, snapshot) →
  fs ws = fs w1 →
  ∃ w', scan_file env self root file n w = (Ok (S n), w')
        ∧ fs w' = fs (snd (clean_metadata env self path ws))
        ∧ posted_count 2 w1 w'
        ∧ awake_and_same_set w1 w'.
Proof.
  intros path Hh [[rel Hr] [s Hs]] Hfs. cbn [fst snd] in Hr, Hs.
  unfold scan_file. cbv zeta. fold path. unfold bind at 1. rewrite Hh. cbn [fst snd].
  unfold bind at 1. unfold lift at 1. rewrite Hr.
  unfold bind at 1. unfold lift at 1. rewrite Hs.
  unfold bind at 1.
  match goal with
  | |- context [send_telegram_message env self ?m w1] =>
      destruct (send_counts m w1) as (ok1 & w2 & -> & Hf1 & Hp1 & Ha1)
  end.
  unfold bind at 1. unfold logger at 1.
  unfold bind at 1.
  match goal with
  | |- context [clean_metadata env self path ?w0] =>
      destruct (clean_metadata_by_files env self path ws w0) as [Hsame Hleft];
      [cbn [fs with_logs]; congruence |];
      destruct (clean_metadata_returns env self path w0) as (cleaned & w3 & Hc);
      pose proof (clean_metadata_quiet env self path w0) as Hq3;
      rewrite Hc in *; cbn [fst snd] in Hq3, Hleft
  end.
  unfold bind at 1.
  assert (Hlast : ∃ w4, (if cleaned
                         then send_telegram_message env self
                                ("✅ Metadatos eliminados de: " +:+ rel);;
                              logger INFO ("Metadatos eliminados de: " +:+ path)
                         else send_telegram_message env self
                                ("❌ Error al eliminar metadatos de: " +:+ rel);;
                              logger ERROR ("Error al eliminar metadatos de: " +:+ path)) w3
                        = (Ok tt, w4)
                        ∧ fs w4 = fs w3 ∧ posted_count 1 w3 w4 ∧ awake_and_same_set w3 w4).
  { destruct cleaned; unfold bind, logger;
      match goal with
      | |- context [send_telegram_message env self ?m w3] =>
          destruct (send_counts m w3) as (ok2 & w4 & -> & Hf2 & Hp2 & Ha2)
      end;
      (eexists; split; [reflexivity |]; split; [exact Hf2 |]; split; [exact Hp2 | exact Ha2]). }
  destruct Hlast as (w4 & -> & Hf4 & Hp4 & Ha4). cbn [ret].
  exists w4. split; [reflexivity |]. split; [congruence |].
  split.
  - replace 2%nat with (1 + (0 + 1))%nat by lia.
    apply (posted_count_trans _ _ w1 w2); [exact Hp1 |].
    apply (posted_count_trans _ _ w2 w3); [| exact Hp4].
    apply posted_count_quiet. destruct Hq3 as (H1 & H2 & H3). repeat split; assumption.
  - etransitivity; [exact Ha1 |].
    etransitivity; [| exact Ha4].
    apply only_logs_and_files_weaken. exact Hq3.
Qed.

(** The files of one directory.  [w] is the world of the scan and [ws] a
    world with the same files. *)
Lemma scan_files_inspects root files :
  ∀ n w ws,
    fs w = fs ws →
    let paths := List.map (PosixPath.join root) files in
    Forall (rendered env self) (fst (inspections env self paths ws)) →
    ∃ w', scan_files env self root files n w
          = (Ok (n + length (fst (inspections env self paths ws)))%nat, w')
          ∧ fs w' = fs (snd (inspections env self paths ws))
          ∧ posted_count (2 * length (fst (inspections env self paths ws))) w w'
          ∧ awake_and_same_set w w'.
Proof.
  induction files as [|file files IH]; intros n w ws Hfs paths Hall; subst paths;
    cbn [scan_files List.map inspections] in *.
  - exists w. cbn [fst snd length]. split; [same_count |].
    split; [exact Hfs |]. split; [unfold posted_count; lia | reflexivity].
  - destruct (has_metadata_by_files env self (PosixPath.join root file) w ws Hfs)
      as [Hanswer Hleft].
    destruct (has_metadata_returns env self (PosixPath.join root file) w)
      as (answer & snapshot & w1 & Hh).
    pose proof (has_metadata_quiet env self (PosixPath.join root file) w) as Hq.
    rewrite Hh in Hanswer, Hleft, Hq. cbn [fst snd] in Hanswer, Hleft, Hq.
    rewrite <- Hanswer in *. unfold bind.
    destruct answer.
    + cbn [fst snd] in Hall. apply Forall_cons in Hall as [Hone Hall].
      destruct (scan_file_reports root file n w snapshot w1
                  (snd (has_metadata env self (PosixPath.join root file) ws))
                  Hh Hone (eq_sym Hleft))
        as (w2 & -> & Hf2 & Hp2 & Ha2).
      destruct (IH (S n) w2 _ Hf2 Hall) as (w3 & -> & Hf3 & Hp3 & Ha3).
      exists w3. cbn [fst snd length]. split; [same_count |].
      split; [exact Hf3 |]. split.
      * match goal with
        | |- posted_count (2 * S ?k) _ _ =>
            replace (2 * S k)%nat with (0 + (2 + 2 * k))%nat by lia
        end.
        apply (posted_count_trans _ _ w w1); [apply posted_count_quiet, Hq |].
        exact (posted_count_trans _ _ _ _ _ Hp2 Hp3).
      * etransitivity; [apply only_logs_and_files_weaken, Hq |].
        etransitivity; eassumption.
    + rewrite (scan_file_passes root file n w snapshot w1 Hh).
      destruct (IH n w1 _ Hleft Hall) as (w3 & -> & Hf3 & Hp3 & Ha3).
      exists w3. split; [reflexivity |]. split; [exact Hf3 |]. split.
      * match goal with
        | |- posted_count ?k _ _ => replace k with (0 + k)%nat by lia
        end.
        apply (posted_count_trans _ _ w w1); [apply posted_count_quiet, Hq | exact Hp3].
      * etransitivity; [apply only_logs_and_files_weaken, Hq | exact Ha3].
Qed.

(** The directories that [os.walk] yields. *)
Lemma scan_roots_inspects walked :
  ∀ n w ws,
    fs w = fs ws →
    let paths := scanned_files self walked in
    Forall (rendered env self) (fst (inspections env self paths ws)) →
    ∃ w', scan_roots env self walked n w
          = (Ok (n + length (fst (inspections env self paths ws)))%nat, w')
          ∧ fs w' = fs (snd (inspections env self paths ws))
          ∧ posted_count (2 * length (fst (inspections env self paths ws))) w w'
          ∧ awake_and_same_set w w'.
Proof.
  induction walked as [|[[root dirs] files] walked IH]; intros n w ws Hfs paths Hall;
    subst paths; cbn [scan_roots scanned_files flat_map fst snd] in *.
  - exists w. cbn [inspections fst snd length]. split; [same_count |].
    split; [exact Hfs |]. split; [unfold posted_count; lia | reflexivity].
  - fold (scanned_files self walked) in *.
    destruct (Str.contains (temp_folder self) root).
    + exact (IH n w ws Hfs Hall).
    + rewrite inspections_app in *. cbn [fst snd] in *.
      apply Forall_app in Hall as [Hhere Hlater].
      unfold bind.
      destruct (scan_files_inspects root files n w ws Hfs Hhere)
        as (w1 & -> & Hf1 & Hp1 & Ha1).
      match goal with
      | |- context [scan_roots env self walked ?k w1] =>
          destruct (IH k w1 _ Hf1 Hlater) as (w2 & -> & Hf2 & Hp2 & Ha2)
      end.
      exists w2. rewrite length_app. split; [same_count |].
      split; [exact Hf2 |]. split; [| etransitivity; eassumption].
      rewrite Nat.mul_add_distr_l.
      exact (posted_count_trans _ _ _ _ _ Hp1 Hp2).
Qed.

End ScanProofs.

(** A full scan returns the number of files it found with metadata: the
    files, among those that [os.walk] yields outside the staging folder,
    for which [has_metadata] answers [True] when its turn comes, that is,
    in the file system left by the redactions of the files before it.
    This holds when the relative path and the rendering are obtained for
    each file so found.  The scan then leaves the files as these
    inspections and redactions leave them, it has sent exactly two messages
    for each file it counted, it has not slept, and the set of recent paths
    of the handlers is untouched. *)
Theorem scan_folder_counts (env : Env) (self : MetadataCleaner)
        (walked : list (string * list string * list string)) (w : World) :
  let found := fst (inspections env self (scanned_files self walked) w) in
  Forall (rendered env self) found →
  ∃ w', scan_folder env self walked w = (Ok (length found), w')
        ∧ (length found ≤ length (scanned_files self walked))%nat
        ∧ fs w' = fs (snd (inspections env self (scanned_files self walked) w))
        ∧ posted_count (2 * length found) w w'
        ∧ awake_and_same_set w w'.
Proof.
  intros found Hall. subst found. unfold scan_folder. unfold bind at 1. unfold logger at 1.
  cbv zeta. unfold bind at 1.
  destruct (scan_roots_inspects env self walked 0%nat
              (with_logs (logs w ++ [(INFO, "Escaneando carpeta: " +:+ folder_path self)]) w)
              w eq_refl Hall)
    as (w1 & -> & Hf & Hp & Ha).
  cbn [Nat.add]. unfold bind, logger, ret.
  destruct (_ =? 0)%nat; eexists; (split; [reflexivity |]);
    (split; [apply inspections_length |]); (split; [exact Hf |]);
    (split; [exact Hp |]); destruct Ha as [H1 H2]; split; assumption.
Qed.

Lemma scan_folder_counts_witness :
  let env := Sim.make Sim.no_programs in
  let self := Sim.a_cleaner ∅ in
  let walked := [("/w", ["album"; "_temp_metadata_cleaner"], ["notes.txt"; "talk.pptx"]);
                 ("/w/album", [], ["a.jpg"]);
                 ("/w/_temp_metadata_cleaner", [], ["a.jpg"])] in
  let w := Sim.world (<["/w/album/a.jpg" := "IMG"]> ∅) in
  List.map fst (fst (inspections env self (scanned_files self walked) w))
  = ["/w/talk.pptx"; "/w/album/a.jpg"]
  ∧ fst (scan_folder env self walked w) = Ok 2%nat
  ∧ length (posted (snd (scan_folder env self walked w))) = 4%nat.
Proof.
  intros env self walked w.
  assert (Hfound : fst (inspections env self (scanned_files self walked) w)
                   = [("/w/talk.pptx",
                       [(KStr "warning", VStr "Archivo potencialmente con metadatos")]);
                      ("/w/album/a.jpg", [(KStr "Orientation", VInt 6)])])
    by (vm_compute; reflexivity).
  assert (Hall : Forall (rendered env self)
                        (fst (inspections env self (scanned_files self walked) w))).
  { rewrite Hfound. repeat constructor; eexists; reflexivity. }
  split; [rewrite Hfound; reflexivity |].
  destruct (scan_folder_counts env self walked w Hall) as (w' & Hrun & _ & _ & Hp & _).
  rewrite Hrun, Hfound in *. cbn [fst snd length]. split; [reflexivity | exact Hp].
Defined.

Lemma report_sends_detection_then_outcome_witness :
  let env := Sim.make Sim.no_programs in
  let h := Sim.a_handler ∅ in
  let w := Sim.world (<["/w/a.jpg" := "IMG"]> ∅) in
  let url := "https://api.telegram.org/bott/sendMessage" in
  os_path_relpath env "/w/a.jpg" "/w" = Ok "/w/a.jpg"
  ∧ posted (snd (report_and_clean env h "title" "/w/a.jpg" [(KStr "Orientation", VInt 6)] w))
    = [(url, "c", detection_message "title" "/w/a.jpg" "{}");
       (url, "c", outcome_message true "/w/a.jpg")].
Proof.
  intros env h w url.
  assert (Hrel : os_path_relpath env "/w/a.jpg" (folder_path (cleaner h)) = Ok "/w/a.jpg")
    by reflexivity.
  split; [exact Hrel |].
  destruct (report_sends_detection_then_outcome env h "title" "/w/a.jpg"
              [(KStr "Orientation", VInt 6)] w "/w/a.jpg" "{}" Hrel eq_refl)
    as (cleaned & w' & Hclean & Hrun & Hposted).
  rewrite Hrun. cbn [snd]. unfold has_posted in Hposted. rewrite Hposted.
  vm_compute in Hclean. injection Hclean as <-. reflexivity.
Defined.

(* ===================================================================== *)
(** * The cut of a long rendering                                         *)
(* ===================================================================== *)

Lemma length_take (n : nat) (s : string) :
  String.length (Str.take n s) = Nat.min n (String.length s).
Proof.
  revert s. induction n as [|n IH]; intros [|a s]; cbn; try reflexivity.
  rewrite IH. reflexivity.
Qed.

Lemma length_append (a b : string) :
  String.length (a +:+ b) = (String.length a + String.length b)%nat.
Proof. induction a as [|c a IH]; simpl; [reflexivity | rewrite IH; reflexivity]. Qed.

Lemma take_is_prefix (n : nat) (s : string) : String.prefix (Str.take n s) s = true.
Proof.
  revert s. induction n as [|n IH]; intros [|a s]; cbn; try reflexivity.
  destruct (ascii_dec a a); [apply IH | congruence].
Qed.

(** The rendering of a snapshot that goes into a message has at most 514
    characters.  A rendering of up to 500 characters is sent as it is; a
    longer one is cut to its first 500 characters, followed by the marker
    ["... [truncado]"], 514 characters in all. *)
Theorem truncated_rendering (rendered : string) :
  (String.length (truncate_metadata rendered) ≤ 514)%nat
  ∧ ((String.length rendered ≤ 500)%nat → truncate_metadata rendered = rendered)
  ∧ ((500 < String.length rendered)%nat →
     truncate_metadata rendered = Str.take 500 rendered +:+ "... [truncado]"
     ∧ String.length (truncate_metadata rendered) = 514%nat
     ∧ String.length (Str.take 500 rendered) = 500%nat
     ∧ String.prefix (Str.take 500 rendered) rendered = true).
Proof.
  unfold truncate_metadata.
  destruct (500 <? String.length rendered)%nat eqn:Hlong.
  - apply Nat.ltb_lt in Hlong.
    assert (Hlen : String.length (Str.take 500 rendered +:+ "... [truncado]") = 514%nat).
    { rewrite length_append, length_take. cbn [String.length]. lia. }
    split; [lia |]. split; [lia |]. intros _.
    split; [reflexivity |]. split; [exact Hlen |].
    split; [rewrite length_take; lia | apply take_is_prefix].
  - apply Nat.ltb_ge in Hlong. split; [lia |]. split; [reflexivity | lia].
Qed.

(* ===================================================================== *)
(** * The serializer                                                      *)
(* ===================================================================== *)

(** Induction on a value, with the elements of a list, a tuple or a dict
    below it. *)
Lemma pyval_nested_ind (P : pyval → Prop) :
  P VNone → (∀ b, P (VBool b)) → (∀ n, P (VInt n)) → (∀ q, P (VFloat q)) →
  (∀ s, P (VStr s)) →
  (∀ l, Forall P l → P (VList l)) →
  (∀ l, Forall P l → P (VTuple l)) →
  (∀ d, Forall (fun kv => P (snd kv)) d → P (VDict d)) →
  (∀ q, P (VFraction q)) → (∀ repr, P (VObject repr)) →
  ∀ v, P v.
Proof.
  intros HNone HBool HInt HFloat HStr HList HTuple HDict HFraction HObject.
  fix IH 1.
  intros [| b | n | q | s | l | l | d | q | repr];
    [ exact HNone | apply HBool | apply HInt | apply HFloat | apply HStr
    | | | | apply HFraction | apply HObject ].
  - apply HList. induction l as [|x l IHl]; constructor; [apply IH | exact IHl].
  - apply HTuple. induction l as [|x l IHl]; constructor; [apply IH | exact IHl].
  - apply HDict. induction d as [|[k x] d IHd]; constructor; [apply IH | exact IHd].
Qed.

Lemma result_map_Ok {A B} (f : A → B) (r : result A) (b : B) :
  result_map f r = Ok b → ∃ a, r = Ok a ∧ b = f a.
Proof. destruct r as [a|e]; cbn; [| discriminate]. intros [= <-]. exists a. auto. Qed.

Lemma result_map_Raise {A B} (f : A → B) (r : result A) (e : exn) :
  result_map f r = Raise e → r = Raise e.
Proof. destruct r as [a|e']; cbn; [discriminate | congruence]. Qed.

(** A comprehension that returns has converted every element. *)
Lemma map_result_Ok {A B} (f : A → result B) (l : list A) (l' : list B) :
  map_result f l = Ok l' → Forall2 (fun x y => f x = Ok y) l l'.
Proof.
  revert l'. induction l as [|x l IH]; intros l'; cbn [map_result].
  - intros [= <-]. constructor.
  - destruct (f x) as [y|e] eqn:Hx; [| discriminate].
    intros H. apply result_map_Ok in H as (ys & Hys & ->).
    constructor; [exact Hx | apply IH, Hys].
Qed.

(** A comprehension that raises has met an element that raises. *)
Lemma map_result_Raise {A B} (f : A → result B) (l : list A) (e : exn) :
  map_result f l = Raise e → ∃ x, In x l ∧ f x = Raise e.
Proof.
  induction l as [|x l IH]; cbn [map_result]; [discriminate |].
  destruct (f x) as [y|e'] eqn:Hx.
  - intros H. apply result_map_Raise in H. destruct (IH H) as (x' & Hin & Hx').
    exists x'. split; [right; exact Hin | exact Hx'].
  - intros [= ->]. exists x. split; [left; reflexivity | exact Hx].
Qed.

Lemma map_result_fixed {A} (f : A → result A) (l : list A) :
  Forall (fun x => f x = Ok x) l → map_result f l = Ok l.
Proof.
  induction 1 as [|x l Hx _ IH]; cbn [map_result]; [reflexivity |].
  rewrite Hx, IH. reflexivity.
Qed.

(** The serializer on the entries of a dict. *)
Lemma dict_entry_Ok env (kv kv' : pykey * pyval) :
  result_map (pair (fst kv)) (custom_json_serializer env (snd kv)) = Ok kv' →
  fst kv' = fst kv ∧ custom_json_serializer env (snd kv) = Ok (snd kv').
Proof.
  intros H. apply result_map_Ok in H as (v' & Hv & ->). split; [reflexivity | exact Hv].
Qed.

Section Serializer.

Variable env : Env.

(** What the serializer returns is made of values that [json.dumps] takes,
    and the serializer returns it unchanged. *)
Lemma custom_json_serializer_safe :
  ∀ v v', custom_json_serializer env v = Ok v' →
          json_safe v' = true ∧ custom_json_serializer env v' = Ok v'.
Proof.
  assert (Hlist : ∀ l l',
             Forall (fun v => ∀ v', custom_json_serializer env v = Ok v' →
                                    json_safe v' = true
                                    ∧ custom_json_serializer env v' = Ok v') l →
             map_result (custom_json_serializer env) l = Ok l' →
             forallb json_safe l' = true
             ∧ map_result (custom_json_serializer env) l' = Ok l').
  { intros l l' Hall Hmap. apply map_result_Ok in Hmap.
    induction Hmap as [|x y l l' Hxy _ IH]; [split; reflexivity |].
    apply Forall_cons in Hall as [Hx Hall].
    destruct (Hx y Hxy) as [Hsafe Hfix]. destruct (IH Hall) as [Hsafes Hfixes].
    cbn [forallb map_result]. rewrite Hsafe, Hsafes, Hfix, Hfixes. split; reflexivity. }
  induction v using pyval_nested_ind; intros v' Hv; cbn [custom_json_serializer] in Hv;
    try (injection Hv as <-; split; reflexivity).
  - apply result_map_Ok in Hv as (l' & Hmap & ->).
    destruct (Hlist l l' H Hmap) as [Hsafe Hfix].
    cbn [json_safe custom_json_serializer]. rewrite Hfix. split; [exact Hsafe | reflexivity].
  - apply result_map_Ok in Hv as (l' & Hmap & ->).
    destruct (Hlist l l' H Hmap) as [Hsafe Hfix].
    cbn [json_safe custom_json_serializer]. rewrite Hfix. split; [exact Hsafe | reflexivity].
  - apply result_map_Ok in Hv as (d' & Hmap & ->).
    cbn [json_safe custom_json_serializer]. apply map_result_Ok in Hmap.
    assert (Hd : forallb (fun kv => json_safe (snd kv)) d' = true
                 ∧ map_result (fun kv => result_map (pair (fst kv))
                                           (custom_json_serializer env (snd kv))) d'
                   = Ok d').
    { induction Hmap as [|kv kv' d d' Hkv _ IH]; [split; reflexivity |].
      apply Forall_cons in H as [Hx Hall].
      apply dict_entry_Ok in Hkv as [_ Hkv].
      destruct (Hx _ Hkv) as [Hsafe Hfix]. destruct (IH Hall) as [Hsafes Hfixes].
      cbn [forallb map_result]. rewrite Hsafe, Hsafes, Hfix, Hfixes.
      destruct kv'. split; reflexivity. }
    destruct Hd as [Hsafe Hfix]. rewrite Hfix. split; [exact Hsafe | reflexivity].
  - apply result_map_Ok in Hv as (x & _ & ->). split; reflexivity.
Qed.

(** A value that [json.dumps] takes comes back as it is. *)
Lemma custom_json_serializer_fixes_safe :
  ∀ v, json_safe v = true → custom_json_serializer env v = Ok v.
Proof.
  assert (Hlist : ∀ l,
             Forall (fun v => json_safe v = true → custom_json_serializer env v = Ok v) l →
             forallb json_safe l = true →
             map_result (custom_json_serializer env) l = Ok l).
  { intros l Hall Hsafe. apply map_result_fixed.
    induction Hall as [|x l Hx _ IH]; constructor;
      cbn [forallb] in Hsafe; apply andb_true_iff in Hsafe as [H1 H2]; auto. }
  induction v using pyval_nested_ind; cbn [json_safe custom_json_serializer];
    try reflexivity; try discriminate; intros Hsafe.
  - rewrite (Hlist l H Hsafe). reflexivity.
  - rewrite (Hlist l H Hsafe). reflexivity.
  - rewrite map_result_fixed; [reflexivity |].
    induction H as [|[k x] d Hx _ IH]; constructor;
      cbn [forallb snd fst] in Hsafe; apply andb_true_iff in Hsafe as [H1 H2].
    + cbn [fst snd] in Hx |- *. rewrite (Hx H1). reflexivity.
    + exact (IH H2).
Qed.

(** The serializer raises what [float] raises on a Fraction in the value. *)
Lemma custom_json_serializer_raises :
  ∀ v e, custom_json_serializer env v = Raise e →
         ∃ q, In q (fractions_of v) ∧ py_float env q = Raise e.
Proof.
  assert (Hlist : ∀ l e,
             Forall (fun v => ∀ e, custom_json_serializer env v = Raise e →
                                   ∃ q, In q (fractions_of v) ∧ py_float env q = Raise e) l →
             map_result (custom_json_serializer env) l = Raise e →
             ∃ q, In q (flat_map fractions_of l) ∧ py_float env q = Raise e).
  { intros l e Hall Hmap. apply map_result_Raise in Hmap as (x & Hin & Hx).
    rewrite Forall_forall in Hall.
    destruct (Hall x (proj2 (list_elem_of_In _ _) Hin) e Hx) as (q & Hq & Hraise).
    exists q. split; [| exact Hraise]. apply in_flat_map. exists x. auto. }
  induction v using pyval_nested_ind; intros e Hv; cbn [custom_json_serializer] in Hv;
    try discriminate.
  - apply result_map_Raise in Hv. exact (Hlist l e H Hv).
  - apply result_map_Raise in Hv. exact (Hlist l e H Hv).
  - apply result_map_Raise in Hv. apply map_result_Raise in Hv as (kv & Hin & Hkv).
    apply result_map_Raise in Hkv. rewrite Forall_forall in H.
    destruct (H kv (proj2 (list_elem_of_In _ _) Hin) e Hkv) as (q & Hq & Hraise).
    exists q. split; [| exact Hraise]. cbn [fractions_of]. apply in_flat_map.
    exists kv. auto.
  - apply result_map_Raise in Hv. exists q. split; [left; reflexivity | exact Hv].
Qed.

(** Keys of a dict, at the top. *)
Lemma custom_json_serializer_keys (d : pydict) (v' : pyval) :
  custom_json_serializer env (VDict d) = Ok v' →
  ∃ d', v' = VDict d' ∧ List.map fst d' = List.map fst d.
Proof.
  cbn [custom_json_serializer]. intros H.
  apply result_map_Ok in H as (d' & Hmap & ->). exists d'. split; [reflexivity |].
  apply map_result_Ok in Hmap.
  induction Hmap as [|kv kv' d d' Hkv _ IH]; [reflexivity |].
  apply dict_entry_Ok in Hkv as [Hk _]. cbn [List.map]. rewrite Hk, IH. reflexivity.
Qed.

End Serializer.

(** [custom_json_serializer] raises only what [float] raises on a Fraction
    that the value holds at some depth, and so returns when [float]
    returns on every such Fraction.  What it returns holds, at every depth,
    only values that [json.dumps] takes: numbers, booleans, strings, lists,
    tuples and dicts of such; serializing it again gives it back.  A value
    that is already of this kind comes back unchanged; and the keys of a
    dict, with their order, are never touched. *)
Theorem serializer_output_is_json (env : Env) (v : pyval) :
  (∀ v', custom_json_serializer env v = Ok v' →
         json_safe v' = true
         ∧ custom_json_serializer env v' = Ok v'
         ∧ ∀ d, v = VDict d → ∃ d', v' = VDict d' ∧ List.map fst d' = List.map fst d)
  ∧ (json_safe v = true → custom_json_serializer env v = Ok v)
  ∧ (∀ e, custom_json_serializer env v = Raise e →
          ∃ q, In q (fractions_of v) ∧ py_float env q = Raise e)
  ∧ ((∀ q, In q (fractions_of v) → ∃ x, py_float env q = Ok x) →
     ∃ v', custom_json_serializer env v = Ok v').
Proof.
  split; [| split; [| split]].
  - intros v' Hv. destruct (custom_json_serializer_safe env v v' Hv) as [Hsafe Hfix].
    split; [exact Hsafe |]. split; [exact Hfix |].
    intros d ->. exact (custom_json_serializer_keys env d v' Hv).
  - apply custom_json_serializer_fixes_safe.
  - apply custom_json_serializer_raises.
  - intros Hfloat. destruct (custom_json_serializer env v) as [v'|e] eqn:Hv;
      [exists v'; reflexivity |].
    destruct (custom_json_serializer_raises env v e Hv) as (q & Hq & Hraise).
    destruct (Hfloat q Hq) as [x Hx]. congruence.
Qed.

Example serializer_on_exif_values :
  custom_json_serializer (Sim.make Sim.no_programs)
    (VDict [(KStr "XResolution", VFraction (72 # 1));
            (KInt 37500, VObject "b'\x00'");
            (KStr "GPSInfo", VDict [(KInt 2, VTuple [VFraction (1 # 2); VNone])])])
  = Ok (VDict [(KStr "XResolution", VFloat (72 # 1));
               (KInt 37500, VStr "object");
               (KStr "GPSInfo", VDict [(KInt 2, VTuple [VFloat (1 # 2); VStr "object"])])]).
Proof. vm_compute. reflexivity. Qed.

(** A Fraction too large for a double: [float] raises, and so does the
    serializer, before the entries after it are looked at. *)
Example serializer_on_large_fraction :
  custom_json_serializer (Sim.make Sim.no_programs)
    (VDict [(KStr "Make", VStr "camera");
            (KStr "ExposureTime", VTuple [VFraction (inject_Z (2 ^ 1024))]);
            (KStr "Model", VNone)])
  = Raise (mk_exn OverflowError "integer division result too large for a float").
Proof. vm_compute. reflexivity. Qed.

(* ===================================================================== *)
(** * No path stays in the set                                            *)
(* ===================================================================== *)

Section Held.

Variable env : Env.
Variable h : MetadataEventHandler.

(** What a step adds to the set is the path of the call, which then holds. *)
Lemma step_adds_own_path kind event at_ w p :
  p ∈ recently_processed (snd (thread_step env h kind event at_ w)) →
  p ∈ recently_processed w
  ∨ (p = src_path event
     ∧ holding (Build_thread kind event (fst (thread_step env h kind event at_ w))) = true).
Proof.
  destruct at_; cbn [thread_step].
  - intros H. left. exact H.
  - unfold recently_contains. destruct (bool_decide _); intros H; left; exact H.
  - cbn. intros H. apply elem_of_union in H as [H | H]; [| left; exact H].
    apply elem_of_singleton in H. right. split; [exact H | reflexivity].
  - pose proof (keeps_try_block env h kind event w) as Hk.
    destruct (try_block env h kind event w). cbn [snd] in *. rewrite Hk.
    intros H. left. exact H.
  - unfold bind, time_sleep, recently_contains. destruct (bool_decide _);
      intros H; left; exact H.
  - unfold recently_remove. destruct (bool_decide _); cbn; intros H; left; [set_solver | exact H].
  - intros H. left. exact H.
  - intros H. left. exact H.
  - intros H. left. exact H.
Qed.

(** A call that stops holding has left the set without its path. *)
Lemma step_release kind event at_ w :
  holding (Build_thread kind event at_) = true →
  holding (Build_thread kind event (fst (thread_step env h kind event at_ w))) = false →
  src_path event ∉ recently_processed (snd (thread_step env h kind event at_ w)).
Proof.
  destruct at_; cbn [holding th_pc]; try discriminate; intros _; cbn [thread_step].
  - destruct (try_block env h kind event w). cbn. discriminate.
  - unfold bind, time_sleep, recently_contains.
    destruct (bool_decide _) eqn:Hin; cbn; [discriminate |].
    intros _. apply bool_decide_eq_false_1 in Hin. exact Hin.
  - unfold recently_remove. destruct (bool_decide _) eqn:Hin; cbn; intros _.
    + set_solver.
    + apply bool_decide_eq_false_1 in Hin. exact Hin.
Qed.

Lemma set_is_held_step cfg i : set_is_held cfg → set_is_held (sched_step env h cfg i).
Proof.
  intros Hheld p Hin. rewrite sched_step_world in Hin.
  destruct (fst cfg !! i) as [t|] eqn:Hi.
  2:{ destruct (Hheld p Hin) as (j & tj & Hj & Hp & Hh).
      exists j, tj. rewrite sched_step_lookup.
      case_decide as Hji; [subst j; rewrite Hi in Hj; discriminate |]. auto. }
  destruct t as [k ev at_]. cbn [th_kind th_event th_pc] in *.
  set (t' := Build_thread k ev (fst (thread_step env h k ev at_ (snd cfg)))).
  assert (Hi' : fst (sched_step env h cfg i) !! i = Some t').
  { rewrite sched_step_lookup, decide_True by reflexivity. rewrite Hi. reflexivity. }
  destruct (step_adds_own_path k ev at_ (snd cfg) p Hin) as [Hold | [Hp Hh]].
  - destruct (Hheld p Hold) as (j & tj & Hj & Hp & Hh).
    destruct (decide (j = i)) as [-> | Hji].
    + rewrite Hi in Hj. injection Hj as <-.
      unfold path_of in Hp. cbn [th_event] in Hp.
      destruct (holding t') eqn:Hh'.
      * exists i, t'. split; [exact Hi' |]. split; [exact Hp | exact Hh'].
      * exfalso. apply (step_release k ev at_ (snd cfg) Hh Hh'). rewrite Hp. exact Hin.
    + exists j, tj. rewrite sched_step_lookup, decide_False by exact Hji. auto.
  - exists i, t'. split; [exact Hi' |]. split; [symmetry; exact Hp | exact Hh].
Qed.

Lemma set_is_held_run schedule cfg :
  set_is_held cfg → set_is_held (run_schedule env h schedule cfg).
Proof.
  revert cfg. induction schedule as [|i schedule IH]; intros cfg Hheld; [exact Hheld |].
  cbn. apply IH, set_is_held_step, Hheld.
Qed.

End Held.

Lemma holding_not_terminated (t : thread) : holding t = true → terminated t = false.
Proof. unfold holding, terminated. destruct (th_pc t); congruence. Qed.

(** From an empty set of recent paths, whatever the calls and the order of
    their steps: every path in the set is the path of a call that has
    entered it and is still in its handler; so once all the calls have
    returned or raised, the set is empty again, and no path stays
    suppressed. *)
Theorem no_path_stays_in_the_set (env : Env) (h : MetadataEventHandler)
        (ts : list thread) (w : World) (schedule : list nat) :
  recently_processed w = ∅ →
  set_is_held (run_schedule env h schedule (ts, w))
  ∧ (forallb terminated (fst (run_schedule env h schedule (ts, w))) = true →
     recently_processed (snd (run_schedule env h schedule (ts, w))) = ∅).
Proof.
  intros Hempty.
  assert (Hheld : set_is_held (run_schedule env h schedule (ts, w))).
  { apply set_is_held_run. intros p Hin. cbn in Hin. rewrite Hempty in Hin. set_solver. }
  split; [exact Hheld |]. intros Hdone.
  apply elem_of_equiv_empty_L. intros p Hin.
  destruct (Hheld p Hin) as (i & t & Hi & _ & Hh).
  rewrite forallb_forall in Hdone.
  assert (Ht : terminated t = true).
  { apply Hdone. apply list_elem_of_In. eapply list_elem_of_lookup_2. exact Hi. }
  rewrite (holding_not_terminated t Hh) in Ht. discriminate.
Qed.

Lemma no_path_stays_in_the_set_witness :
  let env := Sim.make Sim.no_programs in
  let h := Sim.a_handler ∅ in
  let event := {| is_directory := false; src_path := "/w/a.jpg" |} in
  let ts := [new_thread Created event; new_thread Modified event] in
  let w := Sim.world (<["/w/a.jpg" := "IMG"]> ∅) in
  let schedule := [0; 0; 1; 1; 0; 1; 0; 1; 0; 1; 0; 1]%nat in
  recently_processed w = ∅
  ∧ forallb terminated (fst (run_schedule env h schedule (ts, w))) = true
  ∧ recently_processed (snd (run_schedule env h schedule (ts, w))) = ∅.
Proof.
  intros env h event ts w schedule.
  assert (Hempty : recently_processed w = ∅) by reflexivity.
  assert (Hdone : forallb terminated (fst (run_schedule env h schedule (ts, w))) = true)
    by (vm_compute; reflexivity).
  split; [exact Hempty |]. split; [exact Hdone |].
  exact (proj2 (no_path_stays_in_the_set env h ts w schedule Hempty) Hdone).
Defined.

Example second_remove_raises :
  let event := {| is_directory := false; src_path := "/w/a.jpg" |} in
  List.map th_pc
    (fst (run_schedule (Sim.make Sim.no_programs) (Sim.a_handler ∅)
            [0; 0; 1; 1; 0; 1; 0; 1; 0; 1; 0; 1]%nat
            ([new_thread Created event; new_thread Modified event],
             Sim.world (<["/w/a.jpg" := "IMG"]> ∅))))
  = [Finished; Failed (mk_exn KeyError "/w/a.jpg")].
Proof. vm_compute. reflexivity. Qed.

(* ===================================================================== *)
(** * Start-up                                                            *)
(* ===================================================================== *)

Lemma check_required_tools_quiet env : within only_logs_and_files (_check_required_tools env).
Proof. unfold _check_required_tools, run. frame. Qed.

(** [__init__] fails only if the staging folder cannot be made or the probe
    raises, and then with their exception.  Otherwise it returns the
    cleaner: the watched root is the absolute path of the folder, the
    staging folder is [_temp_metadata_cleaner] under it, the tools are
    those the probe found, and exactly one message, the start-up notice,
    has been sent; whether Telegram took it makes no difference. *)
Theorem startup (env : Env) (folder token chat : string) (ival : Z) (w : World) :
  let root := os_path_abspath env folder in
  let staging := PosixPath.join root "_temp_metadata_cleaner" in
  let made := os_makedirs env staging (fs w) in
  let url := "https://api.telegram.org/bot" +:+ token +:+ "/sendMessage" in
  match fst made with
  | Raise e =>
      MetadataCleaner_init env folder token chat ival w = (Raise e, with_fs (snd made) w)
  | Ok _ =>
      match _check_required_tools env (with_fs (snd made) w) with
      | (Raise e, w1) => MetadataCleaner_init env folder token chat ival w = (Raise e, w1)
      | (Ok tools, w1) =>
          ∃ w', MetadataCleaner_init env folder token chat ival w
                = (Ok {| folder_path := root; telegram_token := token; chat_id := chat;
                         interval := ival; telegram_api_url := url;
                         temp_folder := staging; available_tools := tools |}, w')
                ∧ has_posted [(url, chat, "🟢 Monitor de metadatos iniciado")] w w'
      end
  end.
Proof.
  intros root staging made url. subst made.
  assert (Hinit : MetadataCleaner_init env folder token chat ival w =
    (on_fs (os_makedirs env staging) ;;
     tools <- _check_required_tools env ;;
     logger INFO ("Iniciando monitoreo en: " +:+ root) ;;
     send_telegram_message env {| folder_path := root; telegram_token := token; chat_id := chat;
                         interval := ival; telegram_api_url := url;
                         temp_folder := staging; available_tools := tools |} "🟢 Monitor de metadatos iniciado" ;;
     ret {| folder_path := root; telegram_token := token; chat_id := chat;
                         interval := ival; telegram_api_url := url;
                         temp_folder := staging; available_tools := tools |}) w) by reflexivity.
  rewrite Hinit. clear Hinit.
  assert (Hfirst : ∀ k : unit → M MetadataCleaner,
            (x <- on_fs (os_makedirs env staging) ;; k x) w
            = match fst (os_makedirs env staging (fs w)) with
              | Ok x => k x (with_fs (snd (os_makedirs env staging (fs w))) w)
              | Raise e => (Raise e, with_fs (snd (os_makedirs env staging (fs w))) w)
              end).
  { intros k. unfold bind, on_fs.
    destruct (os_makedirs env staging (fs w)) as [[x|e] f1]; reflexivity. }
  rewrite Hfirst. clear Hfirst.
  destruct (os_makedirs env staging (fs w)) as [[[]|e] f1]; cbn [fst snd]; [| reflexivity].
  assert (Hsecond : ∀ k : gmap string bool → M MetadataCleaner,
            (x <- _check_required_tools env ;; k x) (with_fs f1 w)
            = match _check_required_tools env (with_fs f1 w) with
              | (Ok x, w1) => k x w1
              | (Raise e, w1) => (Raise e, w1)
              end).
  { intros k. unfold bind.
    destruct (_check_required_tools env (with_fs f1 w)) as [[x|e] w1]; reflexivity. }
  rewrite Hsecond. clear Hsecond.
  pose proof (check_required_tools_quiet env (with_fs f1 w)) as Hq.
  destruct (_check_required_tools env (with_fs f1 w)) as [[tools|e] w1]; [| reflexivity].
  cbn [snd] in Hq. destruct Hq as (Hposted & _).
  unfold bind at 1. unfold logger at 1. unfold bind at 1.
  set (self := {| folder_path := root; telegram_token := token; chat_id := chat;
                  interval := ival; telegram_api_url := url;
                  temp_folder := staging; available_tools := tools |}).
  match goal with
  | |- context [send_telegram_message env self ?m ?w0] =>
      destruct (send_telegram_message_posts env self m w0) as (Hp & _ & ok & Hok);
      destruct (send_telegram_message env self m w0) as [r w2]
  end.
  cbn [fst snd] in *. subst r. exists w2. split; [reflexivity |].
  unfold has_posted in *. cbn in Hp. rewrite Hp. cbn in Hposted. rewrite Hposted.
  reflexivity.
Qed.

Example startup_while_offline :
  let env := with_requests_post
               (fun _ _ _ => Raise (mk_exn RequestException "Connection refused"))
               (Sim.make (Sim.install [("qpdf", Sim.qpdf 0)])) in
  let r := MetadataCleaner_init env "/w" "t" "c" 60 (Sim.world ∅) in
  (temp_folder <$> match fst r with Ok self => Some self | Raise _ => None end)
  = Some "/w/_temp_metadata_cleaner"
  ∧ List.map fst (logs (snd r)) = [WARNING; INFO; ERROR].
Proof. split; vm_compute; reflexivity. Qed.

(* ===================================================================== *)
(** * What is reported of an image                                        *)
(* ===================================================================== *)

Lemma pykey_eqb_eq (a b : pykey) : pykey_eqb a b = true → a = b.
Proof.
  destruct a, b; cbn; try discriminate; intros H; f_equal;
    [apply String.eqb_eq | apply Z.eqb_eq]; exact H.
Qed.

Lemma dict_set_nonempty (k : pykey) (v : pyval) (d : pydict) : dict_set k v d ≠ [].
Proof. destruct d as [|[k' v'] d]; cbn; [| destruct (pykey_eqb k k')]; discriminate. Qed.

Lemma dict_set_has_key (k : pykey) (v : pyval) (d : pydict) : In (k, v) (dict_set k v d).
Proof.
  induction d as [|[k' v'] d IH]; cbn; [left; reflexivity |].
  destruct (pykey_eqb k k'); [left; reflexivity | right; exact IH].
Qed.

Lemma dict_set_keeps_key (k k0 : pykey) (v : pyval) (d : pydict) :
  (∃ v0, In (k0, v0) d) → ∃ v0, In (k0, v0) (dict_set k v d).
Proof.
  intros [v0 Hin]. induction d as [|[k' v'] d IH]; [contradiction |]. cbn.
  destruct (pykey_eqb k k') eqn:Hk.
  - apply pykey_eqb_eq in Hk. subst k'. destruct Hin as [[= <- <-] | Hin].
    + exists v. left. reflexivity.
    + exists v0. right. exact Hin.
  - destruct Hin as [[= <- <-] | Hin].
    + exists v'. left. reflexivity.
    + destruct (IH Hin) as [v1 H1]. exists v1. right. exact H1.
Qed.

(** The test [key not in [...]] of the code against the names. *)
Lemma key_in_excluded_info_keys (k : pykey) :
  key_in k excluded_info_keys = true ↔ structural_info_key k.
Proof.
  unfold structural_info_key. destruct k as [s|n]; cbn [key_in].
  - rewrite in_list_In. cbn [excluded_info_keys In]. split.
    + intros [<- | [<- | [<- | [<- | [<- | []]]]]]; auto 6.
    + intros [H | [H | [H | [H | H]]]]; injection H as ->; auto 6.
  - split; [discriminate | intros [H | [H | [H | [H | H]]]]; discriminate].
Qed.

Section Info.

Variable env : Env.

Lemma add_info_excluded (info acc : pydict) :
  (∀ kv, In kv info → structural_info_key (fst kv)) →
  add_info env info acc = acc.
Proof.
  unfold add_info. revert acc. induction info as [|kv info IH]; intros acc Hall;
    [reflexivity |].
  cbn [fold_left].
  rewrite (proj2 (key_in_excluded_info_keys (fst kv)) (Hall kv (or_introl eq_refl))).
  cbn [negb]. apply IH. intros kv' Hin. apply Hall. right. exact Hin.
Qed.

Lemma add_info_nonempty (info acc : pydict) : acc ≠ [] → add_info env info acc ≠ [].
Proof.
  unfold add_info. revert acc. induction info as [|kv info IH]; intros acc Hacc;
    [exact Hacc |].
  cbn [fold_left]. apply IH. destruct (negb _); [apply dict_set_nonempty | exact Hacc].
Qed.

Lemma add_info_keeps_key (info acc : pydict) (k : pykey) :
  (∃ v, In (k, v) acc) → ∃ v, In (k, v) (add_info env info acc).
Proof.
  unfold add_info. revert acc. induction info as [|kv info IH]; intros acc Hacc;
    [exact Hacc |].
  cbn [fold_left]. apply IH. destruct (negb _); [apply dict_set_keeps_key |]; exact Hacc.
Qed.

(** Every key of [img.info] that is not structural is in the snapshot. *)
Lemma add_info_reports (info acc : pydict) (kv : pykey * pyval) :
  In kv info → ¬ structural_info_key (fst kv) →
  ∃ v, In (fst kv, v) (add_info env info acc).
Proof.
  intros Hin Hkey. revert acc. induction info as [|kv' info IH]; intros acc;
    [contradiction |].
  destruct Hin as [-> | Hin].
  - change (add_info env (kv :: info) acc)
      with (add_info env info
              (if negb (key_in (fst kv) excluded_info_keys)
               then dict_set (fst kv) (VStr (py_str env (snd kv))) acc else acc)).
    destruct (key_in (fst kv) excluded_info_keys) eqn:Hk.
    + apply key_in_excluded_info_keys in Hk. contradiction.
    + cbn [negb]. apply add_info_keeps_key. eexists. apply dict_set_has_key.
  - exact (IH Hin _).
Qed.

Lemma add_exif_tags_nonempty (item : Z * pyval) (items : list (Z * pyval)) (acc : pydict) :
  add_exif_tags env (item :: items) acc ≠ [].
Proof.
  unfold add_exif_tags. cbn [fold_left].
  match goal with |- fold_left ?f items ?acc0 ≠ [] =>
    assert (Hacc : acc0 ≠ []) by apply dict_set_nonempty; revert Hacc; generalize acc0
  end.
  induction items as [|tv items IH]; intros acc0 Hacc; [exact Hacc |].
  cbn [fold_left]. apply IH, dict_set_nonempty.
Qed.

(** The block under [with Image.open(...)]: it changes nothing, and its
    snapshot is the EXIF entries followed by the entries of [img.info] that
    are kept. *)
Lemma image_metadata_report (img : PILImage) (w : World) :
  getexif_returns img →
  ∃ exif_data,
    image_metadata env img w
    = (Ok (dict_nonempty (add_info env (img_info img) exif_data),
           add_info env (img_info img) exif_data), w)
    ∧ (exif_data ≠ [] ↔ has_exif img).
Proof.
  unfold getexif_returns, has_exif, image_metadata. cbv zeta. unfold_M.
  assert (Hinfo : ∀ exif_data,
             (if dict_nonempty (img_info img)
              then add_info env (img_info img) exif_data else exif_data)
             = add_info env (img_info img) exif_data).
  { intros exif_data. destruct (img_info img); reflexivity. }
  destruct (img_getexif img) as [[[[|item items]|]|e]|]; intros Hret;
    try contradiction; cbn [default]; rewrite Hinfo; eexists; (split; [reflexivity |]).
  - split; [congruence | intros (i & l & [=])].
  - split; [intros _; eauto | intros _; apply add_exif_tags_nonempty].
  - split; [congruence | intros (i & l & [=])].
  - split; [congruence | intros (i & l & [=])].
Qed.

End Info.

(** Without ExifTool, what [has_metadata] answers for an image that Pillow
    opens, and whose [_getexif] returns where the image has one, is decided
    by the opened image, and nothing is changed.  The answer is
    [(False, {})] exactly when the image has no EXIF entries and every key
    of [img.info] is one of dpi, jfif, jfif_version, jfif_unit and
    jfif_density; every other key of [img.info] is in the snapshot.  So a
    file that [clean_metadata] has re-encoded is reported again whenever
    Pillow opens it with another [info] key, and is not when it opens it
    bare. *)
Theorem image_report_by_opened_image (env : Env) (self : MetadataCleaner)
        (file_path : string) (w : World) (img : PILImage) :
  tool_available self "exiftool" = false →
  Str.in_list (extension_of file_path) image_extensions = true →
  Image_open env file_path (fs w) = Ok img →
  getexif_returns img →
  ∃ snapshot,
    has_metadata env self file_path w = (Ok (dict_nonempty snapshot, snapshot), w)
    ∧ (snapshot = [] ↔ bare img)
    ∧ (has_exif img → snapshot ≠ [])
    ∧ (∀ kv, In kv (img_info img) → ¬ structural_info_key (fst kv) →
             ∃ v, In (fst kv, v) snapshot).
Proof.
  intros Havail Himg Hopen Hret.
  destruct (image_metadata_report env img w Hret) as (exif_data & Hrun & Hexif).
  exists (add_info env (img_info img) exif_data). split; [| split; [| split]].
  - unfold has_metadata, has_metadata_body.
    rewrite Havail, Himg, !try_except_Exception.
    unfold image_probe, bind, read_fs, lift. rewrite Hopen, Hrun. reflexivity.
  - split.
    + intros Hnil.
      assert (Hno : ¬ has_exif img).
      { intros H. apply Hexif in H. exact (add_info_nonempty env _ _ H Hnil). }
      split.
      * unfold getexif_returns, has_exif in *.
        destruct (img_getexif img) as [[[[|item items]|]|e]|]; auto; [| contradiction].
        contradiction Hno. eauto.
      * intros kv Hin. apply key_in_excluded_info_keys.
        destruct (key_in (fst kv) excluded_info_keys) eqn:Hk; [reflexivity |].
        destruct (add_info_reports env _ exif_data kv Hin) as [v Hv].
        { intros H. apply key_in_excluded_info_keys in H. congruence. }
        rewrite Hnil in Hv. contradiction.
    + intros [Hbare Hkeys].
      assert (Hnil : exif_data = []).
      { destruct exif_data as [|entry rest]; [reflexivity |].
        assert (H : has_exif img) by (apply Hexif; discriminate).
        destruct H as (item & items & H). destruct Hbare as [Hb | [Hb | Hb]]; congruence. }
      rewrite Hnil. apply add_info_excluded, Hkeys.
  - intros H. apply add_info_nonempty, Hexif, H.
  - intros kv Hin Hkey. apply add_info_reports; assumption.
Qed.

Lemma image_report_by_opened_image_witness :
  let env := with_Image_open open_by_content (Sim.make Sim.no_programs) in
  let self := Sim.a_cleaner ∅ in
  let w := Sim.world (<["/w/a.jpg" := "IMG+exif"]> ∅) in
  let left := snd (clean_metadata env self "/w/a.jpg" w) in
  fst (has_metadata env self "/w/a.jpg" w) = Ok (true, [(KStr "Orientation", VInt 6)])
  ∧ fst (clean_metadata env self "/w/a.jpg" w) = Ok true
  ∧ has_metadata env self "/w/a.jpg" left = (Ok (false, []), left).
Proof.
  intros env self w left.
  split; [vm_compute; reflexivity |]. split; [vm_compute; reflexivity |].
  destruct (image_report_by_opened_image env self "/w/a.jpg" left
              {| img_mode := "RGB"; img_size := (1, 1); img_getdata := Ok [0];
                 img_getexif := Some (Ok None);
                 img_info := [(KStr "jfif", VInt 257);
                              (KStr "dpi", VTuple [VInt 72; VInt 72])] |})
    as (snapshot & Hrun & Hbare & _).
  - reflexivity.
  - reflexivity.
  - vm_compute. reflexivity.
  - exact I.
  - assert (Hnil : snapshot = []).
    { apply Hbare. split; [right; left; reflexivity |].
      intros kv [<- | [<- | []]]; unfold structural_info_key; cbn [fst]; auto 6. }
    rewrite Hnil in Hrun. exact Hrun.
Defined.

(** A TIFF file that was re-encoded opens with its [compression] entry: it
    is reported again although [clean_metadata] has answered [True]. *)
Example cleaned_tiff_reported_again :
  let env := with_Image_open open_by_content (Sim.make Sim.no_programs) in
  let self := Sim.a_cleaner ∅ in
  let w := Sim.world (<["/w/scan.tif" := "IMG+exif"]> ∅) in
  fst (clean_metadata env self "/w/scan.tif" w) = Ok true
  ∧ fst (has_metadata env self "/w/scan.tif" (snd (clean_metadata env self "/w/scan.tif" w)))
    = Ok (true, [(KStr "compression", VStr "object")]).
Proof. split; vm_compute; reflexivity. Qed.

(* ===================================================================== *)
(** * An exception during a scan                                          *)
(* ===================================================================== *)

Lemma scan_files_app env self root before after n w :
  scan_files env self root (before ++ after) n w =
  match scan_files env self root before n w with
  | (Ok n1, w1) => scan_files env self root after n1 w1
  | (Raise e, w1) => (Raise e, w1)
  end.
Proof.
  revert n w. induction before as [|file before IH]; intros n w; cbn [scan_files app].
  - reflexivity.
  - unfold bind. destruct (scan_file env self root file n w) as [[n1|e] w1];
      [apply IH | reflexivity].
Qed.

(** [scan_folder] has no handler of its own: when the rendering of the
    snapshot of a file found with metadata raises ([json.dumps], or
    [float] in the serializer), the scan ends there with that exception.
    Nothing was sent for that file, the files and the directories after it
    are not visited, and the closing line of the log is not written. *)
Theorem scan_ends_at_an_exception (env : Env) (self : MetadataCleaner)
        (root file : string) (dirs before after : list string)
        (rest : list (string * list string * list string))
        (w w1 w2 : World) (n : nat) (snapshot : pydict) (relative_path : string) (e : exn) :
  Str.contains (temp_folder self) root = false →
  scan_files env self root before 0
    (with_logs (logs w ++ [(INFO, "Escaneando carpeta: " +:+ folder_path self)]) w)
  = (Ok n, w1) →
  has_metadata env self (PosixPath.join root file) w1 = (Ok (true, snapshot), w2) →
  os_path_relpath env (PosixPath.join root file) (folder_path self) = Ok relative_path →
  render_metadata env snapshot = Raise e →
  scan_folder env self ((root, dirs, (before ++ file :: after)%list) :: rest) w = (Raise e, w2).
Proof.
  intros Hroot Hbefore Hmeta Hrel Hdumps.
  unfold scan_folder. unfold bind at 1. unfold logger at 1. cbv zeta.
  unfold bind at 1. cbn [scan_roots]. rewrite Hroot.
  unfold bind at 1. rewrite scan_files_app, Hbefore. cbn [scan_files].
  unfold bind at 1. unfold scan_file. cbv zeta.
  unfold bind at 1. rewrite Hmeta. cbn [fst snd].
  unfold bind at 1. unfold lift at 1. rewrite Hrel.
  unfold bind at 1. unfold lift at 1. rewrite Hdumps. reflexivity.
Qed.

Lemma scan_ends_at_an_exception_witness :
  let env := with_json_dumps (fun _ => Raise (mk_exn TypeError "keys must be str"))
                             (Sim.make Sim.no_programs) in
  let self := Sim.a_cleaner ∅ in
  let w := Sim.world (<["/w/b.jpg" := "IMG"]> (<["/w/a.jpg" := "IMG"]> ∅)) in
  Str.contains (temp_folder self) "/w" = false
  ∧ scan_folder env self [("/w", [], ["notes.txt"; "a.jpg"; "b.jpg"])] w
    = (Raise (mk_exn TypeError "keys must be str"),
       with_logs [(INFO, "Escaneando carpeta: /w")] w).
Proof.
  intros env self w. split; [reflexivity |].
  apply (scan_ends_at_an_exception env self "/w" "a.jpg" [] ["notes.txt"] ["b.jpg"] []
           w (with_logs [(INFO, "Escaneando carpeta: /w")] w)
           (with_logs [(INFO, "Escaneando carpeta: /w")] w)
           0%nat [(KStr "Orientation", VInt 6)] "/w/a.jpg");
    vm_compute; reflexivity.
Defined.
